(** * fixmetadata.py: a shallow embedding and its verified properties

    The development follows [src/fixmetadata.py], the metadata repair tool
    for photo-export sidecar files.  Python text is modelled as Rocq
    [string] (a sequence of 8-bit characters, i.e. the UTF-8 encoding of the
    Python [str]).  [str.lower] acts on the ASCII letters here: the program
    compares lower-cased text with ASCII literals only ([".json"], the
    extension whitelist, [".gif"]), and no character outside ASCII becomes
    a letter of these literals when it is lower-cased, so the comparisons
    come out as in Python.  The methods that classify characters
    ([isdigit], [strip], [int]) and the name pattern, which ignores case by
    the Unicode tables, read the text character by character.

    Library calls whose answer depends on the machine (the directory
    listing behind [glob.glob], the sidecar read by [json.load], the local
    time zone behind [datetime.timestamp], the external [exiftool] process)
    are Section variables: every theorem holds for all of them. *)

From Stdlib Require Import String Ascii List Bool Arith ZArith QArith Qabs Lia.
From Stdlib Require Import DecimalString.
Import ListNotations.

Close Scope Q_scope.
Local Open Scope list_scope.
Local Open Scope string_scope.

(* ================================================================== *)
(** * Python values shared by all components                           *)
(* ================================================================== *)

Module Py.

(** Exception classes, as far as the program's [except] clauses tell them
    apart.  All of them are subclasses of [Exception]: an interrupt from
    outside ([KeyboardInterrupt]) is no part of the model, and [sys.exit]
    is modelled by the exit status of [main]. *)
Inductive exn_class : Type :=
| ValueError | TypeError | AttributeError | OverflowError | OSError
| OtherException.

(** An exception object: its class and [str(e)]. *)
Record exn : Type := Exn { exn_cls : exn_class; exn_str : string }.

(** The result of running a piece of Python: a value or a raised exception. *)
Inductive outcome (A : Type) : Type :=
| Ret (a : A)
| Raise (e : exn).
Arguments Ret {A} a.
Arguments Raise {A} e.

(** Sequencing: an exception raised by the first step ends the block. *)
Definition bind {A B : Type} (m : outcome A) (k : A -> outcome B) : outcome B :=
  match m with
  | Ret a => k a
  | Raise e => Raise e
  end.

(** [except (ValueError, TypeError)] *)
Definition is_ValueError_or_TypeError (e : exn) : bool :=
  match exn_cls e with ValueError | TypeError => true | _ => false end.

(** Logging.  [logging.warning(...)] goes to the root logger, [logger.x(...)]
    to the logger created by [setup_logger]. *)
Inductive logger_id : Type := RootLogger | AppLogger.
Inductive level : Type := DEBUG | INFO | WARNING | ERROR.

End Py.
Export Py.

Notation "x <- m ;; k" := (Py.bind m (fun x => k))
  (at level 61, m at next level, right associativity).

(* ================================================================== *)
(** * Strings: the [str] methods the program calls                     *)
(* ================================================================== *)

Module PyStr.

Definition is_empty (s : string) : bool :=
  match s with EmptyString => true | String _ _ => false end.

Definition is_upper (c : ascii) : bool :=
  (65 <=? nat_of_ascii c)%nat && (nat_of_ascii c <=? 90)%nat.

Definition lower_char (c : ascii) : ascii :=
  if is_upper c then ascii_of_nat (nat_of_ascii c + 32) else c.

(** [s.lower()] *)
Fixpoint lower (s : string) : string :=
  match s with
  | EmptyString => EmptyString
  | String c s' => String (lower_char c) (lower s')
  end.

Fixpoint rev (s : string) : string :=
  match s with
  | EmptyString => EmptyString
  | String c s' => rev s' ++ String c EmptyString
  end.

(** [s.startswith(p)] *)
Definition startswith (s p : string) : bool := String.prefix p s.

(** [s.endswith(p)] *)
Definition endswith (s p : string) : bool := String.prefix (rev p) (rev s).

(** [c in s] for a character [c] *)
Fixpoint contains (c : ascii) (s : string) : bool :=
  match s with
  | EmptyString => false
  | String x s' => Ascii.eqb x c || contains c s'
  end.

(** [(s[:i], s[i:])] where [i = s.rfind(c) + 1]: the cut just after the
    last occurrence of [c]; the first part is empty when [c] does not occur. *)
Fixpoint cut_after_last (c : ascii) (s : string) : string * string :=
  match s with
  | EmptyString => (EmptyString, EmptyString)
  | String x s' =>
      let (h, t) := cut_after_last c s' in
      if negb (is_empty h) then (String x h, t)
      else if Ascii.eqb x c then (String x EmptyString, s')
      else (EmptyString, String x s')
  end.

(** [(s[:i], s[i:])] where [i] is the index of the first [c] (or [len(s)]). *)
Fixpoint cut_before_first (c : ascii) (s : string) : string * string :=
  match s with
  | EmptyString => (EmptyString, EmptyString)
  | String x s' =>
      if Ascii.eqb x c then (EmptyString, s)
      else let (h, t) := cut_before_first c s' in (String x h, t)
  end.

(** [s.lstrip(c)] and [s.rstrip(c)] for a single character [c] *)
Definition lstrip_char (c : ascii) : string -> string :=
  fix go (s : string) : string :=
    match s with
    | String x s' => if Ascii.eqb x c then go s' else s
    | EmptyString => EmptyString
    end.

Definition rstrip_char (c : ascii) (s : string) : string :=
  rev (lstrip_char c (rev s)).

(** [s == c * len(s)] *)
Fixpoint all_char (c : ascii) (s : string) : bool :=
  match s with
  | EmptyString => true
  | String x s' => Ascii.eqb x c && all_char c s'
  end.

(** ** Characters

    A [str] is a sequence of code points, held here in UTF-8.  The
    methods that classify characters ([isdigit], [strip], [int]) read the
    text character by character, by the tables of the Unicode character
    database (version 14.0, the one of CPython 3.11). *)

Definition byte (c : ascii) : N := N_of_ascii c.

(** A continuation byte, and the six bits it carries. *)
Definition is_cont (c : ascii) : bool :=
  (128 <=? byte c)%N && (byte c <=? 191)%N.

Definition cont_bits (c : ascii) : N := (byte c - 128)%N.

(** The characters of [s], each with its code point and its bytes.
    [None] stands for bytes that are no UTF-8 encoding of a character (a
    [str] holds such bytes of a file name as lone surrogates): they are
    neither digits nor white space. *)
Fixpoint characters (s : string) : list (option N * string) :=
  match s with
  | EmptyString => []
  | String c0 s1 =>
      let b0 := byte c0 in
      let one := String c0 EmptyString in
      if (b0 <? 128)%N then (Some b0, one) :: characters s1
      else
        match s1 with
        | String c1 s2 =>
            if (194 <=? b0)%N && (b0 <=? 223)%N && is_cont c1 then
              (Some ((b0 - 192) * 64 + cont_bits c1)%N,
               String c0 (String c1 EmptyString)) :: characters s2
            else
              match s2 with
              | String c2 s3 =>
                  if (224 <=? b0)%N && (b0 <=? 239)%N && is_cont c1 && is_cont c2
                  then
                    let cp :=
                      ((b0 - 224) * 4096 + cont_bits c1 * 64 + cont_bits c2)%N in
                    ((if (2048 <=? cp)%N &&
                         negb ((55296 <=? cp)%N && (cp <=? 57343)%N)
                      then Some cp else None),
                     String c0 (String c1 (String c2 EmptyString)))
                    :: characters s3
                  else
                    match s3 with
                    | String c3 s4 =>
                        if (240 <=? b0)%N && (b0 <=? 244)%N &&
                           is_cont c1 && is_cont c2 && is_cont c3
                        then
                          let cp :=
                            ((b0 - 240) * 262144 + cont_bits c1 * 4096 +
                             cont_bits c2 * 64 + cont_bits c3)%N in
                          ((if (65536 <=? cp)%N && (cp <=? 1114111)%N
                            then Some cp else None),
                           String c0 (String c1 (String c2 (String c3 EmptyString))))
                          :: characters s4
                        else (None, one) :: characters s1
                    | EmptyString => (None, one) :: characters s1
                    end
              | EmptyString => (None, one) :: characters s1
              end
        | EmptyString => [(None, one)]
        end
  end.

Definition code_points (s : string) : list (option N) := map fst (characters s).

(** The text of a sequence of characters. *)
Definition text_of (cs : list (option N * string)) : string :=
  fold_right (fun c acc => snd c ++ acc) EmptyString cs.

(** White space as [str.isspace] sees it. *)
Definition is_space_point (cp : N) : bool :=
  ((9 <=? cp)%N && (cp <=? 13)%N) || ((28 <=? cp)%N && (cp <=? 32)%N) ||
  (cp =? 133)%N || (cp =? 160)%N || (cp =? 5760)%N ||
  ((8192 <=? cp)%N && (cp <=? 8202)%N) ||
  (cp =? 8232)%N || (cp =? 8233)%N || (cp =? 8239)%N || (cp =? 8287)%N ||
  (cp =? 12288)%N.

Fixpoint drop_space (cs : list (option N * string)) : list (option N * string) :=
  match cs with
  | (Some cp, _) :: rest => if is_space_point cp then drop_space rest else cs
  | _ => cs
  end.

(** [s.strip()] *)
Definition strip (s : string) : string :=
  text_of (List.rev (drop_space (List.rev (drop_space (characters s))))).

(** The zeros of the decimal digits of all scripts (general category Nd);
    the nine digits that follow each zero have the values 1 to 9. *)
Definition DECIMAL_ZEROS : list N :=
  [ 48; 1632; 1776; 1984; 2406; 2534; 2662; 2790; 2918; 3046; 3174; 3302;
    3430; 3558; 3664; 3792; 3872; 4160; 4240; 6112; 6160; 6470; 6608;
    6784; 6800; 6992; 7088; 7232; 7248; 42528; 43216; 43264; 43472; 43504;
    43600; 44016; 65296; 66720; 68912; 69734; 69872; 69942; 70096; 70384;
    70736; 70864; 71248; 71360; 71472; 71904; 72016; 72784; 73040; 73120;
    92768; 92864; 93008; 120782; 120792; 120802; 120812; 120822; 123200;
    123632; 125264; 130032 ]%N.

(** The value of a decimal digit. *)
Definition decimal_value (cp : N) : option Z :=
  match find (fun zero => (zero <=? cp)%N && (cp <? zero + 10)%N) DECIMAL_ZEROS with
  | Some zero => Some (Z.of_N (cp - zero))
  | None => None
  end.

(** The digits that are no decimal digits (superscripts, circled digits
    and the like), as ranges of code points. *)
Definition OTHER_DIGITS : list (N * N) :=
  [ (178, 179); (185, 185); (4969, 4977); (6618, 6618); (8304, 8304);
    (8308, 8313); (8320, 8329); (9312, 9320); (9332, 9340); (9352, 9360);
    (9450, 9450); (9461, 9469); (9471, 9471); (10102, 10110);
    (10112, 10120); (10122, 10130); (68160, 68163); (69216, 69224);
    (69714, 69722); (127232, 127242) ]%N.

Definition is_digit_point (p : option N) : bool :=
  match p with
  | Some cp =>
      match decimal_value cp with
      | Some _ => true
      | None =>
          existsb (fun r => (fst r <=? cp)%N && (cp <=? snd r)%N) OTHER_DIGITS
      end
  | None => false
  end.

(** [s.isdigit()]: at least one character, all of them digits. *)
Definition isdigit (s : string) : bool :=
  negb (is_empty s) && forallb is_digit_point (code_points s).

(** The values of the characters when all of them are decimal digits. *)
Fixpoint decimal_values (cps : list (option N)) : option (list Z) :=
  match cps with
  | [] => Some []
  | Some cp :: rest =>
      match decimal_value cp, decimal_values rest with
      | Some d, Some ds => Some (d :: ds)
      | _, _ => None
      end
  | None :: _ => None
  end.

(** The number written with the digits [ds], most significant first. *)
Definition digits_value (ds : list Z) : Z :=
  fold_left (fun acc d => 10 * acc + d)%Z ds 0%Z.

(** [sys.get_int_max_str_digits()], as the interpreter starts. *)
Definition INT_MAX_STR_DIGITS : nat := 4300.

(** [int(s)] for a string [s] that passed [s.isdigit()] (so without sign,
    blanks or underscores): the decimal digits of any script are read; a
    digit that is no decimal digit, or more digits than the limit, is a
    [ValueError]. *)
Definition int_of_str (s : string) : outcome Z :=
  match decimal_values (code_points s) with
  | Some (d :: ds) =>
      if (length (d :: ds) <=? INT_MAX_STR_DIGITS)%nat
      then Ret (digits_value (d :: ds))
      else
        Raise (Exn ValueError
                 ("Exceeds the limit (4300 digits) for integer string conversion: value has "
                  ++ NilEmpty.string_of_uint (Nat.to_uint (length (d :: ds)))
                  ++ " digits; use sys.set_int_max_str_digits() to increase the limit"))
  | _ =>
      Raise (Exn ValueError
               ("invalid literal for int() with base 10: '" ++ s ++ "'"))
  end.

(** [c * n] *)
Fixpoint repeat_char (c : ascii) (n : nat) : string :=
  match n with
  | O => EmptyString
  | S k => String c (repeat_char c k)
  end.

End PyStr.

(* ================================================================== *)
(** * [os.path] on a POSIX system                                      *)
(* ================================================================== *)

Module OsPath.
Import PyStr.

Definition sep : ascii := "/"%char.
Definition extsep : ascii := "."%char.

(** [os.path.join(a, b)] *)
Definition join (a b : string) : string :=
  if startswith b "/" then b
  else if is_empty a || endswith a "/" then a ++ b
  else a ++ "/" ++ b.

(** [os.path.split(p)]: the head loses its trailing slashes unless it
    consists of slashes only. *)
Definition split (p : string) : string * string :=
  let (head, tail) := cut_after_last sep p in
  if negb (is_empty head) && negb (all_char sep head)
  then (rstrip_char sep head, tail)
  else (head, tail).

Definition dirname (p : string) : string := fst (split p).
Definition basename (p : string) : string := snd (cut_after_last sep p).

(** [os.path.splitext(p)]: the extension starts at the last dot of the
    last path component, provided a character other than a dot stands
    before it in that component. *)
Definition splitext (p : string) : string * string :=
  let (dir, base) := cut_after_last sep p in
  let (stem_dot, after) := cut_after_last extsep base in
  match rev stem_dot with
  | EmptyString => (p, EmptyString)
  | String _ rstem =>
      if all_char extsep rstem then (p, EmptyString)
      else (dir ++ rev rstem, String extsep after)
  end.

End OsPath.

(* ================================================================== *)
(** * The sidecar name pattern                                         *)
(* ================================================================== *)

(** [re.match(base, json_name, re.IGNORECASE)] where [base] is the pattern
    [^ ( . * ) \. [^.]+ \. [^.]+ \.json $] (written here with blanks): a
    greedy group of any characters but newlines, then three dot-separated
    segments, the last of which is [json]. *)
Module NameRe.
Import PyStr.

Definition newline : ascii := "010"%char.
Definition dot : ascii := "."%char.

(** [[^.]+] followed by a dot or by the end: the class excludes the dot, so
    the run is the longest one (backtracking to a shorter run leaves a
    character that is no dot in front of [\.]).  [[^.]] matches a newline. *)
Definition span_nodot (s : string) : string * string := cut_before_first dot s.

(** A letter of the pattern under IGNORECASE, matched at the start of [s]:
    the letter in either case; what follows it is returned. *)
Definition ci_letter (c : ascii) (s : string) : option string :=
  match s with
  | String x rest => if Ascii.eqb (lower_char x) c then Some rest else None
  | EmptyString => None
  end.

(** The letter [s] under IGNORECASE.  The pattern is a [str], so the
    engine folds case by the Unicode tables, and these give the letter a
    third form: the long s, U+017F (in UTF-8 the two bytes C5 BF).  The
    letters [j], [o] and [n] have their two ASCII forms only. *)
Definition ci_letter_s (s : string) : option string :=
  match s with
  | String x rest =>
      if Ascii.eqb (lower_char x) "s"%char then Some rest
      else if Ascii.eqb x "197"%char then
        match rest with
        | String y rest' => if Ascii.eqb y "191"%char then Some rest' else None
        | EmptyString => None
        end
      else None
  | EmptyString => None
  end.

(** [\.json$] with IGNORECASE; without MULTILINE, [$] holds at the end of
    the string and just before a newline that ends the string. *)
Definition match_dot_json_end (s : string) : bool :=
  match s with
  | String c s0 =>
      Ascii.eqb c dot &&
      match ci_letter "j"%char s0 with
      | Some s1 =>
          match ci_letter_s s1 with
          | Some s2 =>
              match ci_letter "o"%char s2 with
              | Some s3 =>
                  match ci_letter "n"%char s3 with
                  | Some s4 =>
                      is_empty s4 || String.eqb s4 (String newline EmptyString)
                  | None => false
                  end
              | None => false
              end
          | None => false
          end
      | None => false
      end
  | EmptyString => false
  end.

(** [\.[^.]+\.[^.]+\.json$] matched at the start of [s]. *)
Definition tail_match (s : string) : bool :=
  match s with
  | String c s1 =>
      Ascii.eqb c dot &&
      (let (e1, r1) := span_nodot s1 in
       negb (is_empty e1) &&
       match r1 with
       | String _ s2 =>
           let (e2, r2) := span_nodot s2 in
           negb (is_empty e2) && match_dot_json_end r2
       | EmptyString => false
       end)
  | EmptyString => false
  end.

(** The match object's [group(1)], or [None] when there is no match.
    The group is greedy: the engine first lets it take every character up to
    the first newline and gives characters back one at a time until the
    rest of the pattern matches, so the group is the longest newline-free
    prefix after which [tail_match] succeeds. *)
Fixpoint base_pattern (s : string) : option string :=
  match s with
  | EmptyString => None
  | String c s' =>
      match (if Ascii.eqb c newline then None else base_pattern s') with
      | Some core => Some (String c core)
      | None => if tail_match s then Some EmptyString else None
      end
  end.

End NameRe.

(* ================================================================== *)
(** * [fnmatch] and [glob]                                             *)
(* ================================================================== *)

Module Glob.
Import PyStr.

(** [glob.has_magic]: one of [*], [?], [[] occurs. *)
Definition is_magic (c : ascii) : bool :=
  Ascii.eqb c "*"%char || Ascii.eqb c "?"%char || Ascii.eqb c "["%char.

Fixpoint has_magic (s : string) : bool :=
  match s with
  | EmptyString => false
  | String c s' => is_magic c || has_magic s'
  end.

(** [glob.escape(pathname)]: every magic character [c] becomes [[c]]
    (POSIX: there is no drive to split off). *)
Fixpoint escape (pathname : string) : string :=
  match pathname with
  | EmptyString => EmptyString
  | String c s' =>
      if is_magic c
      then String "["%char (String c (String "]"%char (escape s')))
      else String c (escape s')
  end.

(** What [fnmatch.translate] turns a pattern into. *)
Inductive class_item : Type :=
| CChar (c : ascii)
| CRange (lo hi : ascii).

Inductive glob_tok : Type :=
| TStar                                   (* [*]: any run of characters *)
| TAny                                    (* [?]: one character *)
| TLit (c : ascii)                        (* the character itself *)
| TSet (negated : bool) (items : list class_item).   (* [[seq]], [[!seq]] *)

(** The text up to the first []]. *)
Fixpoint until_close (s : string) : option (string * string) :=
  match s with
  | EmptyString => None
  | String c s' =>
      if Ascii.eqb c "]"%char then Some (EmptyString, s')
      else match until_close s' with
           | Some (a, b) => Some (String c a, b)
           | None => None
           end
  end.

(** After an opening bracket: an optional [!], an optional []] taken
    literally, then everything up to the closing bracket.  [None] when the
    bracket is never closed (it is then an ordinary character). *)
Definition bracket_body (s : string) : option (string * string) :=
  let (bang, s1) :=
    match s with
    | String "!"%char s' => ("!", s')
    | _ => (EmptyString, s)
    end in
  let (rb, s2) :=
    match s1 with
    | String "]"%char s' => ("]", s')
    | _ => (EmptyString, s1)
    end in
  match until_close s2 with
  | Some (mid, rest) => Some (bang ++ rb ++ mid, rest)
  | None => None
  end.

(** The members of a bracket expression: [a-b] is a range, anything else
    stands for itself (a hyphen that is first or last included). *)
Fixpoint class_items (s : string) : list class_item :=
  match s with
  | String a (String "-"%char (String b r)) => CRange a b :: class_items r
  | String a r => CChar a :: class_items r
  | EmptyString => []
  end.

Definition set_of_stuff (stuff : string) : glob_tok :=
  match stuff with
  | EmptyString => TSet false []
  | String "!"%char EmptyString => TAny
  | String "!"%char r => TSet true (class_items r)
  | _ => TSet false (class_items stuff)
  end.

Fixpoint skip_stars (s : string) : string :=
  match s with
  | String "*"%char s' => skip_stars s'
  | _ => s
  end.

(** [fnmatch.translate(pat)]; consecutive stars are compressed into one.
    The fuel is the pattern's length: every step consumes a character. *)
Fixpoint translate_fuel (fuel : nat) (pat : string) : list glob_tok :=
  match fuel with
  | O => []
  | S f =>
      match pat with
      | EmptyString => []
      | String c rest =>
          if Ascii.eqb c "*"%char then TStar :: translate_fuel f (skip_stars rest)
          else if Ascii.eqb c "?"%char then TAny :: translate_fuel f rest
          else if Ascii.eqb c "["%char then
            match bracket_body rest with
            | None => TLit c :: translate_fuel f rest
            | Some (stuff, rest') => set_of_stuff stuff :: translate_fuel f rest'
            end
          else TLit c :: translate_fuel f rest
      end
  end.

Definition translate (pat : string) : list glob_tok :=
  translate_fuel (String.length pat) pat.

Definition item_match (x : ascii) (it : class_item) : bool :=
  match it with
  | CChar c => Ascii.eqb x c
  | CRange lo hi =>
      (nat_of_ascii lo <=? nat_of_ascii x)%nat &&
      (nat_of_ascii x <=? nat_of_ascii hi)%nat
  end.

(** The translated pattern must match the whole name ([\Z]); every token
    matches any character, a newline included ([(?s:...)]).  The text is
    matched byte by byte: for the literal tokens this is the library's
    matching of characters, and the program's own patterns hold no other
    tokens than literals and sets of one ASCII character, since it escapes
    them; a wildcard can only come with the directory it is given. *)
Fixpoint tok_match (ts : list glob_tok) (s : string) : bool :=
  match ts with
  | [] => is_empty s
  | TStar :: ts' =>
      (fix star (s : string) : bool :=
         tok_match ts' s ||
         match s with
         | EmptyString => false
         | String _ s' => star s'
         end) s
  | TAny :: ts' =>
      match s with
      | String _ s' => tok_match ts' s'
      | EmptyString => false
      end
  | TLit c :: ts' =>
      match s with
      | String x s' => Ascii.eqb x c && tok_match ts' s'
      | EmptyString => false
      end
  | TSet neg items :: ts' =>
      match s with
      | String x s' => xorb neg (existsb (item_match x) items) && tok_match ts' s'
      | EmptyString => false
      end
  end.

(** [fnmatch.fnmatch(name, pat)] on POSIX ([normcase] is the identity). *)
Definition fnmatch (name pat : string) : bool := tok_match (translate pat) name.

(** [fnmatch.filter(names, pat)] *)
Definition fnmatch_filter (names : list string) (pat : string) : list string :=
  filter (fun name => fnmatch name pat) names.

(** [glob._ishidden] *)
Definition ishidden (p : string) : bool := startswith p ".".

Section FileSystem.

(** The directory tree as [glob] observes it: [listdir d] is the list of
    entries of directory [d] in the order [os.scandir] yields them, [None]
    when [d] is no directory.  The empty path is looked up as ["."]. *)
Variable listdir : string -> option (list string).

Definition curdir_or (d : string) : string := if is_empty d then "." else d.

Definition isdir (p : string) : bool :=
  match listdir (curdir_or p) with Some _ => true | None => false end.

(** [os.path.lexists(p)] for a path with a non-empty last component. *)
Definition lexists (p : string) : bool :=
  let (d, b) := OsPath.split p in
  match listdir (curdir_or d) with
  | Some names =>
      existsb (String.eqb b) names || String.eqb b "." || String.eqb b ".."
  | None => false
  end.

(** [glob._glob0(dirname, basename, dironly)]: a literal last component. *)
Definition glob0 (dirname basename : string) : list string :=
  if is_empty basename
  then (if isdir dirname then [basename] else [])
  else (if lexists (OsPath.join dirname basename) then [basename] else []).

(** [glob._glob1(dirname, pattern, dironly)]: a last component with magic.
    Hidden names are listed only for a pattern that starts with a dot. *)
Definition glob1 (dirname pattern : string) (dironly : bool) : list string :=
  let names :=
    match listdir (curdir_or dirname) with
    | Some names =>
        if dironly
        then filter (fun n => isdir (OsPath.join dirname n)) names
        else names
    | None => []
    end in
  let names :=
    if ishidden pattern then names
    else filter (fun n => negb (ishidden n)) names in
  fnmatch_filter names pattern.

(** [glob._iglob(pathname, recursive=False, dironly)].  The recursion is on
    the directory part, which [os.path.split] makes strictly shorter; the
    fuel bounds it by the length of the path. *)
Fixpoint iglob (fuel : nat) (pathname : string) (dironly : bool) : list string :=
  match fuel with
  | O => []
  | S f =>
      let (dirname, basename) := OsPath.split pathname in
      if negb (has_magic pathname) then
        if negb (is_empty basename)
        then (if lexists pathname then [pathname] else [])
        else (if isdir dirname then [pathname] else [])
      else if is_empty dirname then glob1 EmptyString basename dironly
      else
        let dirs :=
          if negb (String.eqb dirname pathname) && has_magic dirname
          then iglob f dirname true
          else [dirname] in
        flat_map
          (fun d =>
             map (OsPath.join d)
                 (if has_magic basename
                  then glob1 d basename dironly
                  else glob0 d basename))
          dirs
  end.

(** [glob.glob(pathname)] *)
Definition glob (pathname : string) : list string :=
  iglob (S (String.length pathname)) pathname false.

End FileSystem.

End Glob.

(* ================================================================== *)
(** * Numbers and JSON documents                                       *)
(* ================================================================== *)

Module PyNum.

(** A Python [float]: every finite double is a rational number, and the
    program only compares floats, takes absolute values and truncates them,
    all of which are exact.  [json.load] also produces the special values. *)
Inductive pyfloat : Type :=
| Finite (q : Q)
| Inf (negative : bool)
| NaN.

Definition float_of_int (z : Z) : pyfloat := Finite (inject_Z z).

(** [abs(x)] *)
Definition fabs (x : pyfloat) : pyfloat :=
  match x with
  | Finite q => Finite (Qabs q)
  | Inf _ => Inf false
  | NaN => NaN
  end.

(** [x < y] and [x <= y]; every comparison with NaN is false. *)
Definition fltb (x y : pyfloat) : bool :=
  match x, y with
  | NaN, _ | _, NaN => false
  | Finite a, Finite b => negb (Qle_bool b a)
  | Finite _, Inf neg => negb neg
  | Inf neg, Finite _ => neg
  | Inf n1, Inf n2 => n1 && negb n2
  end.

Definition fleb (x y : pyfloat) : bool :=
  match x, y with
  | NaN, _ | _, NaN => false
  | Finite a, Finite b => Qle_bool a b
  | Finite _, Inf neg => negb neg
  | Inf neg, Finite _ => neg
  | Inf n1, Inf n2 => n1 || negb n2
  end.

(** [bool(x)] *)
Definition float_truthy (x : pyfloat) : bool :=
  match x with
  | Finite q => negb (Qeq_bool q 0)
  | _ => true
  end.

(** [int(x)]: truncation towards zero; the special values raise. *)
Definition int_of_float (x : pyfloat) : outcome Z :=
  match x with
  | Finite q => Ret (Z.quot (Qnum q) (Zpos (Qden q)))
  | Inf _ => Raise (Exn OverflowError "cannot convert float infinity to integer")
  | NaN => Raise (Exn ValueError "cannot convert float NaN to integer")
  end.

End PyNum.
Export PyNum.

Module Json.
Import PyStr.

(** What [json.load] returns.  An object keeps its members in document
    order; a later member with the same key replaces an earlier one. *)
#[local] Unset Elimination Schemes.
Inductive json : Type :=
| JNull                      (* [None] *)
| JBool (b : bool)
| JInt (z : Z)
| JFloat (f : pyfloat)
| JStr (s : string)
| JList (l : list json)
| JObj (members : list (string * json)).
#[local] Set Elimination Schemes.

(** The dictionary lookup behind [d.get(key, default)]. *)
Fixpoint lookup (key : string) (members : list (string * json)) : option json :=
  match members with
  | [] => None
  | (k, v) :: rest =>
      match lookup key rest with
      | Some later => Some later
      | None => if String.eqb k key then Some v else None
      end
  end.

(** [type(x).__name__] *)
Definition type_name (x : json) : string :=
  match x with
  | JNull => "NoneType"
  | JBool _ => "bool"
  | JInt _ => "int"
  | JFloat _ => "float"
  | JStr _ => "str"
  | JList _ => "list"
  | JObj _ => "dict"
  end.

(** [x.get(key, default)]: only a [dict] has the method. *)
Definition get (x : json) (key : string) (default : json) : outcome json :=
  match x with
  | JObj members =>
      Ret (match lookup key members with Some v => v | None => default end)
  | _ =>
      Raise (Exn AttributeError
               ("'" ++ type_name x ++ "' object has no attribute 'get'"))
  end.

(** [bool(x)], the test of an [if]. *)
Definition truthy (x : json) : bool :=
  match x with
  | JNull => false
  | JBool b => b
  | JInt z => negb (Z.eqb z 0)
  | JFloat f => float_truthy f
  | JStr s => negb (is_empty s)
  | JList l => match l with [] => false | _ => true end
  | JObj m => match m with [] => false | _ => true end
  end.

End Json.
Export Json.

(* ================================================================== *)
(** * Log records                                                      *)
(* ================================================================== *)

Module Log.

(** The messages the program formats, one constructor per f-string, with
    the values the f-string interpolates. *)
Inductive log_msg : Type :=
| NoTimeSource (json_path : string)
| TimeParseFailed (json_path : string) (e : exn)
| InvalidCoord (json_path : string) (lat lon : pyfloat)
| GeoParseFailed (json_path : string) (e : exn)
| NonStandardName (json_name : string)
| Updated (file_path : string)
| FirstFailure (file_path first_error : string)
| TryRepair (file_path : string)
| RepairedOk (file_path : string)
| ErrorText (error_msg : string)
| InvalidDirectory (target_dir : string)
| Rule
| StartDirectory (target_dir : string)
| AllSucceeded
| Unhandled (e : exn).

Record log_record : Type :=
  LogRecord { lr_logger : logger_id; lr_level : level; lr_msg : log_msg }.

Definition logging_warning (m : log_msg) : log_record := LogRecord RootLogger WARNING m.
Definition logging_error (m : log_msg) : log_record := LogRecord RootLogger ERROR m.
Definition logger_info (m : log_msg) : log_record := LogRecord AppLogger INFO m.
Definition logger_warning (m : log_msg) : log_record := LogRecord AppLogger WARNING m.
Definition logger_error (m : log_msg) : log_record := LogRecord AppLogger ERROR m.

End Log.
Export Log.

(* ================================================================== *)
(** * File matcher                                                     *)
(* ================================================================== *)

Module Matcher.
Import PyStr.

(** [valid_exts] *)
Definition valid_exts : list string :=
  [".jpg"; ".jpeg"; ".png"; ".gif"; ".mp4"; ".mov"; ".heic"; ".webp"].

(** [core_name.split('.')[0]] *)
Definition first_segment (core_name : string) : string :=
  fst (cut_before_first "."%char core_name).

(** [patterns] *)
Definition patterns (core_name : string) : list string :=
  [ core_name;
    core_name ++ ".*";
    first_segment core_name ++ "*" ].

(** The test of the inner [if] on a candidate path. *)
Definition accepted (candidate : string) : bool :=
  let ext := lower (snd (OsPath.splitext candidate)) in
  existsb (String.eqb ext) valid_exts &&
  negb (endswith (lower candidate) ".json").

Section WithGlob.

(** [glob.glob]: the paths that match a path pattern, in listing order. *)
Variable glob_glob : string -> list string.

(** The two nested [for] loops: the first accepted candidate of the first
    pattern that has one. *)
Fixpoint match_patterns (directory : string) (pats : list string) : option string :=
  match pats with
  | [] => None
  | pattern :: rest =>
      let escaped := Glob.escape pattern in
      match find accepted (glob_glob (OsPath.join directory escaped)) with
      | Some candidate => Some candidate
      | None => match_patterns directory rest
      end
  end.

(** [smart_file_matcher(json_name, directory)] with the records it logs. *)
Definition smart_file_matcher (json_name directory : string)
  : option string * list log_record :=
  match NameRe.base_pattern json_name with
  | None => (None, [logging_warning (NonStandardName json_name)])
  | Some core_name => (match_patterns directory (patterns core_name), [])
  end.

End WithGlob.

(** The matcher over a directory tree given by its listings. *)
Definition smart_file_matcher_fs (listdir : string -> option (list string))
  (json_name directory : string) : option string * list log_record :=
  smart_file_matcher (Glob.glob listdir) json_name directory.

(** A tree that consists of one directory [dir] holding [names]. *)
Definition single_dir (dir : string) (names : list string)
  : string -> option (list string) :=
  fun d => if String.eqb d dir then Some names else None.

End Matcher.

(* ================================================================== *)
(** * [datetime]: the proleptic Gregorian calendar                     *)
(* ================================================================== *)

Module Calendar.
Local Open Scope Z_scope.

Record datetime : Type :=
  DateTime { year : Z; month : Z; day : Z; hour : Z; minute : Z; second : Z }.

Definition is_leap (y : Z) : bool :=
  (y mod 4 =? 0) && (negb (y mod 100 =? 0) || (y mod 400 =? 0)).

(** [_DAYS_IN_MONTH] and [_DAYS_BEFORE_MONTH] *)
Definition DAYS_IN_MONTH (m : Z) : Z :=
  if m =? 2 then 28
  else if (m =? 4) || (m =? 6) || (m =? 9) || (m =? 11) then 30
  else 31.

Definition DAYS_BEFORE_MONTH (m : Z) : Z :=
  if m =? 1 then 0 else if m =? 2 then 31 else if m =? 3 then 59
  else if m =? 4 then 90 else if m =? 5 then 120 else if m =? 6 then 151
  else if m =? 7 then 181 else if m =? 8 then 212 else if m =? 9 then 243
  else if m =? 10 then 273 else if m =? 11 then 304 else 334.

Definition DI400Y : Z := 146097.
Definition DI100Y : Z := 36524.
Definition DI4Y : Z := 1461.
Definition MAXORDINAL : Z := 3652059.

(** Days before January 1st of year [y]. *)
Definition days_before_year (y : Z) : Z :=
  let y := y - 1 in y * 365 + y / 4 - y / 100 + y / 400.

Definition days_before_month (y m : Z) : Z :=
  DAYS_BEFORE_MONTH m + (if (2 <? m) && is_leap y then 1 else 0).

(** [_ymd2ord]: January 1st of year 1 is day 1. *)
Definition ymd2ord (y m d : Z) : Z :=
  days_before_year y + days_before_month y m + d.

(** [_ord2ymd] *)
Definition ord2ymd (n : Z) : Z * Z * Z :=
  let n := n - 1 in
  let n400 := n / DI400Y in
  let n := n mod DI400Y in
  let y := n400 * 400 + 1 in
  let n100 := n / DI100Y in
  let n := n mod DI100Y in
  let n4 := n / DI4Y in
  let n := n mod DI4Y in
  let n1 := n / 365 in
  let n := n mod 365 in
  let y := y + n100 * 100 + n4 * 4 + n1 in
  if (n1 =? 4) || (n100 =? 4) then (y - 1, 12, 31)
  else
    let leapyear := (n1 =? 3) && (negb (n4 =? 24) || (n100 =? 3)) in
    let m := Z.shiftr (n + 50) 5 in
    let preceding :=
      DAYS_BEFORE_MONTH m + (if (2 <? m) && leapyear then 1 else 0) in
    if n <? preceding then
      let m := m - 1 in
      let preceding :=
        preceding - (DAYS_IN_MONTH m + (if (m =? 2) && leapyear then 1 else 0)) in
      (y, m, n - preceding + 1)
    else (y, m, n - preceding + 1).

Definition toordinal (dt : datetime) : Z := ymd2ord (year dt) (month dt) (day dt).

(** The date of ordinal [days] with the time of day [secs] seconds after
    midnight. *)
Definition combine (days secs : Z) : datetime :=
  let '(y, m, d) := ord2ymd days in
  DateTime y m d (secs / 3600) ((secs mod 3600) / 60) (secs mod 60).

(** Ordinal of 1970-01-01. *)
Definition EPOCH_ORDINAL : Z := 719163.

(** The calendar reading of an instant [t] seconds after the epoch, UTC. *)
Definition civil_of_epoch (t : Z) : datetime :=
  combine (t / 86400 + EPOCH_ORDINAL) (t mod 86400).

(** First and last second a [datetime] can hold:
    0001-01-01 00:00:00 and 9999-12-31 23:59:59 UTC. *)
Definition MIN_TIMESTAMP : Z := -62135596800.
Definition MAX_TIMESTAMP : Z := 253402300799.

(** First and last second whose year the C library's [gmtime] holds in
    the [int] field [tm_year] (years since 1900), with a 64-bit [time_t]. *)
Definition GMTIME_MIN : Z := -67768040609740800.
Definition GMTIME_MAX : Z := 67768036191676799.

(** A sum in C [int] arithmetic: [tm_year + 1900] wraps around. *)
Definition wrap_int (z : Z) : Z := (z + 2 ^ 31) mod 2 ^ 32 - 2 ^ 31.

(** [str(z)] for an [int]. *)
Definition str_of_int (z : Z) : string := NilZero.string_of_int (Z.to_int z).

(** [datetime.utcfromtimestamp(t)] for an [int] on a POSIX system with the
    GNU C library: the instant must fit [time_t], [gmtime] must be able to
    hold its year, and the year must be one a [datetime] has. *)
Definition utcfromtimestamp (t : Z) : outcome datetime :=
  if (t <? - 2 ^ 63) || (2 ^ 63 <=? t)
  then Raise (Exn OverflowError "timestamp out of range for platform time_t")
  else if (t <? GMTIME_MIN) || (GMTIME_MAX <? t)
  then Raise (Exn OSError "[Errno 75] Value too large for defined data type")
  else if (t <? MIN_TIMESTAMP) || (MAX_TIMESTAMP <? t)
  then Raise (Exn ValueError
                ("year " ++ str_of_int (wrap_int (year (civil_of_epoch t)))
                 ++ " is out of range")%string)
  else Ret (civil_of_epoch t).

(** [dt + timedelta(hours=h)]: the sum is normalised into days and seconds
    of the day and converted back to a date. *)
Definition add_hours (dt : datetime) (h : Z) : outcome datetime :=
  let total :=
    toordinal dt * 86400 + hour dt * 3600 + minute dt * 60 + second dt + h * 3600 in
  let days := total / 86400 in
  let secs := total mod 86400 in
  if (0 <? days) && (days <=? MAXORDINAL)
  then Ret (combine days secs)
  else Raise (Exn OverflowError "date value out of range").

Definition digit (n : Z) : ascii := ascii_of_nat (48 + Z.to_nat (n mod 10)).

(** Two digits, zero padded: [%m], [%d], [%H], [%M], [%S]. *)
Definition two_digits (n : Z) : string :=
  String (digit (n / 10)) (String (digit n) EmptyString).

(** [%Y] as the C library prints a year between 1 and 9999: in decimal,
    without padding. *)
Definition year_digits (y : Z) : string :=
  if y <? 10 then String (digit y) EmptyString
  else if y <? 100 then two_digits y
  else if y <? 1000 then String (digit (y / 100)) (two_digits y)
  else String (digit (y / 1000)) (String (digit (y / 100)) (two_digits y)).

(** [dt.strftime("%Y:%m:%d %H:%M:%S")] *)
Definition strftime (dt : datetime) : string :=
  (year_digits (year dt) ++ ":" ++ two_digits (month dt) ++ ":" ++
   two_digits (day dt) ++ " " ++ two_digits (hour dt) ++ ":" ++
   two_digits (minute dt) ++ ":" ++ two_digits (second dt))%string.

End Calendar.

(* ================================================================== *)
(** * Time and geo extraction                                          *)
(* ================================================================== *)

Module Extractor.
Import PyStr.

(** [time_sources] *)
Definition time_sources : list (string * string) :=
  [ ("photoTakenTime", "timestamp");
    ("creationTime", "timestamp");
    ("photoTakenTime", "formatted");
    ("creationTime", "formatted") ].

(** How the search loop ends: with [break] at a source (the loop variables
    keep that source), by running out of sources, or by an exception that
    the inner [except] clause does not catch. *)
Inductive scan_result : Type :=
| Found (main_key sub_key : string) (timestamp : Z)
| NotFound
| Escaped (e : exn).

(** [1e-6], the double nearest to one millionth. *)
Definition EPSILON : pyfloat :=
  Finite (4722366482869645 # 4722366482869645213696).

(** [float(n)] for an [int]: exact up to 53 bits, otherwise rounded to the
    nearest double (ties to even); too large a number raises. *)
Definition round_to_double (z : Z) : Z :=
  let a := Z.abs z in
  if (a <? 2 ^ 53)%Z then z
  else
    let e := (Z.log2 a - 52)%Z in
    let q := (a / 2 ^ e)%Z in
    let r := (a mod 2 ^ e)%Z in
    let half := (2 ^ (e - 1))%Z in
    let q' := if (half <? r)%Z || ((r =? half)%Z && Z.odd q) then (q + 1)%Z else q in
    (Z.sgn z * (q' * 2 ^ e))%Z.

Definition float_of_pyint (z : Z) : outcome pyfloat :=
  if (Z.abs z <? 2 ^ 1024 - 2 ^ 970)%Z
  then Ret (float_of_int (round_to_double z))
  else Raise (Exn OverflowError "int too large to convert to float").

Section WithEnvironment.

(** [with open(json_path, 'r', encoding='utf-8') as f: data = json.load(f)]:
    the parsed document, or the [OSError] or [ValueError] of a file that
    cannot be read or parsed. *)
Variable load_json : string -> outcome json.

(** [int(datetime.strptime(value, "%Y:%m:%d %H:%M:%S").timestamp())] for a
    string [value]: the epoch of the parsed wall-clock time in the
    machine's local time zone, or the exception raised on the way (a
    [ValueError] for text that does not fit the format). *)
Variable strptime_timestamp : string -> outcome Z.

(** [float(s)] for a string: the parsed number or a [ValueError]. *)
Variable float_of_str : string -> outcome pyfloat.

(** The body of the inner [try]: the epoch a truthy [value] stands for. *)
Definition resolve (value : json) : outcome Z :=
  match value with
  | JBool b => Ret (if b then 1 else 0)%Z          (* [bool] is an [int] *)
  | JInt z => Ret z
  | JFloat f => int_of_float f
  | JStr s => if isdigit s then int_of_str s else strptime_timestamp s
  | _ =>
      Raise (Exn TypeError
               ("strptime() argument 1 must be str, not " ++ type_name value))
  end.

(** [data.get(main_key, {}).get(sub_key)] *)
Definition source_value (data : json) (main_key sub_key : string) : outcome json :=
  inner <- Json.get data main_key (JObj []) ;;
  Json.get inner sub_key JNull.

(** The [for] loop over the time sources. *)
Fixpoint scan (data : json) (sources : list (string * string)) : scan_result :=
  match sources with
  | [] => NotFound
  | (main_key, sub_key) :: rest =>
      match source_value data main_key sub_key with
      | Raise e => Escaped e
      | Ret value =>
          if truthy value then
            match resolve value with
            | Ret timestamp => Found main_key sub_key timestamp
            | Raise e =>
                if is_ValueError_or_TypeError e
                then scan data rest          (* [continue] *)
                else Escaped e
            end
          else scan data rest
      end
  end.

(** [beijing_time.strftime(...)] for [beijing_time =
    datetime.utcfromtimestamp(timestamp) + timedelta(hours=8)]. *)
Definition beijing_time (timestamp : Z) : outcome string :=
  dt <- Calendar.utcfromtimestamp timestamp ;;
  bt <- Calendar.add_hours dt 8 ;;
  Ret (Calendar.strftime bt).

(** [enhanced_parse_time(json_path)] with the records it logs. *)
Definition enhanced_parse_time (json_path : string)
  : option string * list log_record :=
  let failed (e : exn) :=
    (@None string, [logging_error (TimeParseFailed json_path e)]) in
  match load_json json_path with
  | Raise e => failed e
  | Ret data =>
      match scan data time_sources with
      | Escaped e => failed e
      | NotFound => (None, [logging_warning (NoTimeSource json_path)])
      | Found _ _ timestamp =>
          if (timestamp =? 0)%Z                       (* [if not timestamp] *)
          then (None, [logging_warning (NoTimeSource json_path)])
          else match beijing_time timestamp with
               | Ret s => (Some s, [])
               | Raise e => failed e
               end
      end
  end.

(** [float(x)] for a JSON value. *)
Definition to_float (x : json) : outcome pyfloat :=
  match x with
  | JFloat f => Ret f
  | JInt z => float_of_pyint z
  | JBool b => Ret (float_of_int (if b then 1 else 0))
  | JStr s => float_of_str s
  | _ =>
      Raise (Exn TypeError
               ("float() argument must be a string or a real number, not '"
                ++ type_name x ++ "'"))
  end.

(** The two assignments [lat = float(...)] and [lon = float(...)]. *)
Definition read_coordinates (data : json) : outcome (pyfloat * pyfloat) :=
  geo <- Json.get data "geoData" (JObj []) ;;
  lat_value <- Json.get geo "latitude" (JFloat (Finite 0)) ;;
  lat <- to_float lat_value ;;
  lon_value <- Json.get geo "longitude" (JFloat (Finite 0)) ;;
  lon <- to_float lon_value ;;
  Ret (lat, lon).

(** [-bound <= x <= bound] *)
Definition within (bound : Z) (x : pyfloat) : bool :=
  fleb (float_of_int (- bound)) x && fleb x (float_of_int bound).

(** The checks of [safe_geo_parse] on the two coordinates. *)
Definition check_coordinates (json_path : string) (lat lon : pyfloat)
  : option (pyfloat * pyfloat) * list log_record :=
  if fltb (fabs lat) EPSILON && fltb (fabs lon) EPSILON then (None, [])
  else if negb (within 90 lat) || negb (within 180 lon)
  then (None, [logging_warning (InvalidCoord json_path lat lon)])
  else (Some (lat, lon), []).

(** [safe_geo_parse(json_path)] with the records it logs. *)
Definition safe_geo_parse (json_path : string)
  : option (pyfloat * pyfloat) * list log_record :=
  match (data <- load_json json_path ;; read_coordinates data) with
  | Raise e => (None, [logging_warning (GeoParseFailed json_path e)])
  | Ret (lat, lon) => check_coordinates json_path lat lon
  end.

End WithEnvironment.

End Extractor.

(* ================================================================== *)
(** * Metadata writer                                                  *)
(* ================================================================== *)

Module Writer.
Import PyStr.

(** [subprocess.CompletedProcess] *)
Record completed_process : Type :=
  Completed { returncode : Z; stdout : string; stderr : string }.

(** Python lists are objects: a variable holds a reference, and the store
    maps every reference to the list's current elements. *)
Definition ref : Type := nat.
Definition store : Type := ref -> list string.

Definition store_set (h : store) (r : ref) (l : list string) : store :=
  fun r' => if Nat.eqb r' r then l else h r'.

(** [l.insert(i, x)] for [i >= 0]: before position [i], or at the end of a
    shorter list. *)
Fixpoint list_insert (i : nat) (x : string) (l : list string) : list string :=
  match i, l with
  | O, _ => x :: l
  | S _, [] => [x]
  | S i', y :: l' => y :: list_insert i' x l'
  end.

(** What the writer changes: the list objects, the processes started so
    far (oldest first, each with its argument vector), the log. *)
Record state : Type :=
  State { lists : store; invocations : list (list string); log : list log_record }.

Definition emit (r : log_record) (st : state) : state :=
  State (lists st) (invocations st) (log st ++ [r])%list.

(** [clean_cmd] *)
Definition clean_cmd (file_path : string) : list string :=
  ["exiftool"; "-m"; "-overwrite_original"; "-all="; file_path].

Section WithProcesses.

(** [subprocess.run(args, ...)]: what the process started with [args]
    returns, given the processes run before it; [Raise] when the process
    cannot be started. *)
Variable subprocess_run : list (list string) -> list string -> outcome completed_process.

(** [run_command(cmd_args)] *)
Definition run_command (cmd_args : list string) (st : state)
  : outcome completed_process * state :=
  (subprocess_run (invocations st) cmd_args,
   State (lists st) (invocations st ++ [cmd_args])%list (log st)).

(** The [except Exception] clause of the repair block. *)
Definition unexpected (e : exn) (st : state) : outcome (bool * option string) * state :=
  let error_msg := "意外错误: " ++ exn_str e in
  (Ret (false, Some error_msg), emit (logger_error (ErrorText error_msg)) st).

(** [robust_exiftool_exec(cmd, file_path, logger)]: [cmd] is the reference
    the caller passes; the result is the returned pair, or the exception
    that leaves the function. *)
Definition robust_exiftool_exec (cmd : ref) (file_path : string) (st : state)
  : outcome (bool * option string) * state :=
  (* cmd.insert(1, '-m') *)
  let st := State (store_set (lists st) cmd (list_insert 1 "-m" (lists st cmd)))
                  (invocations st) (log st) in
  match run_command (lists st cmd) st with
  | (Raise e, st) => (Raise e, st)
  | (Ret result, st) =>
      if (returncode result =? 0)%Z then
        (Ret (true, None), emit (logger_info (Updated file_path)) st)
      else
        let first_error := strip (stderr result) in
        let st := emit (logger_warning (FirstFailure file_path first_error)) st in
        (* try: *)
        let st := emit (logger_info (TryRepair file_path)) st in
        match run_command (clean_cmd file_path) st with
        | (Raise e, st) => unexpected e st
        | (Ret clean_result, st) =>
            if negb (returncode clean_result =? 0)%Z then
              let error_msg := "清空元数据失败: " ++ strip (stderr clean_result) in
              (Ret (false, Some error_msg), emit (logger_error (ErrorText error_msg)) st)
            else
              match run_command (lists st cmd) st with
              | (Raise e, st) => unexpected e st
              | (Ret retry_result, st) =>
                  if (returncode retry_result =? 0)%Z then
                    (Ret (true, None), emit (logger_info (RepairedOk file_path)) st)
                  else
                    let error_msg := "最终失败: " ++ strip (stderr retry_result) in
                    (Ret (false, Some error_msg),
                     emit (logger_error (ErrorText error_msg)) st)
              end
        end
  end.

End WithProcesses.

End Writer.

(* ================================================================== *)
(** * Failure report and exit status                                   *)
(* ================================================================== *)

Module Report.
Import PyStr.

Definition nl : string := String "010"%char EmptyString.

(** What one failure contributes to the report. *)
Definition failure_entry (failure : string * string) : string :=
  let (path, reason) := failure in
  "文件路径: " ++ path ++ nl ++
  "失败原因: " ++ reason ++ nl ++
  repeat_char "-"%char 50 ++ nl.

(** Everything [generate_failure_log] writes into the report. *)
Definition report_text (failures : list (string * string)) : string :=
  "失败文件列表：" ++ nl ++
  repeat_char "="%char 50 ++ nl ++
  String.concat EmptyString (map failure_entry failures).

(** [failure_log]: the report's path beside the run log. *)
Definition failure_log_path (log_path : string) : string :=
  OsPath.join (OsPath.dirname log_path) ("FAILURES_" ++ OsPath.basename log_path).

(** The outcome of a run: the status passed to [sys.exit], the files
    written and the records logged. *)
Record run : Type :=
  Run { exit_status : Z; written : list (string * string); records : list log_record }.

Section WithEnvironment.

(** [os.path.abspath] and [os.path.isdir] *)
Variable abspath : string -> string.
Variable isdir : string -> bool.

(** [process_directory(target_dir, logger)]: the failures it returns (or
    the exception that leaves it) and the records it logs. *)
Variable process_directory : string -> outcome (list (string * string)) * list log_record.

(** [open(path, 'w', encoding='utf-8')] followed by the writes: [Raise]
    when the file cannot be written. *)
Variable write_file : string -> string -> outcome unit.

(** [generate_failure_log(failures, log_path)]: the files written. *)
Definition generate_failure_log (failures : list (string * string)) (log_path : string)
  : outcome (list (string * string)) :=
  match failures with
  | [] => Ret []
  | _ :: _ =>
      let failure_log := failure_log_path log_path in
      _ <- write_file failure_log (report_text failures) ;;
      Ret [(failure_log, report_text failures)]
  end.

(** [main()] after [setup_logger] returned [log_path] and the argument
    parser returned [directory]. *)
Definition main (directory log_path : string) : run :=
  let target_dir := abspath directory in
  if negb (isdir target_dir) then
    Run 1 [] [logger_error (InvalidDirectory target_dir)]
  else
    let start := [logger_info Rule; logger_info (StartDirectory target_dir)] in
    match process_directory target_dir with
    | (Raise e, recs) =>
        Run 1 [] (start ++ recs ++ [logger_error (Unhandled e)])%list
    | (Ret failed_files, recs) =>
        let recs := (start ++ recs ++ [logger_info Rule])%list in
        match failed_files with
        | _ :: _ =>
            match generate_failure_log failed_files log_path with
            | Ret files => Run 101 files recs
            | Raise e => Run 1 [] (recs ++ [logger_error (Unhandled e)])%list
            end
        | [] => Run 0 [] (recs ++ [logger_info AllSucceeded])%list
        end
    end.

End WithEnvironment.

End Report.

(* ================================================================== *)
(** * Geo arguments                                                    *)
(* ================================================================== *)

From Stdlib Require Import DecimalString.

Module GeoParams.
Import PyStr.

Section WithFormat.

(** [str(x)] for a float, as an f-string interpolates it. *)
Variable float_str : pyfloat -> string.

(** [build_geo_params(lat, lon, ext)] *)
Definition build_geo_params (lat lon : pyfloat) (ext : string) : list string :=
  let params :=
    [ "-XMP:GPSLatitude=" ++ float_str (fabs lat);
      "-XMP:GPSLongitude=" ++ float_str (fabs lon) ] in
  if negb (String.eqb (lower ext) ".gif") then
    List.app params
      [ "-GPSLatitude=" ++ float_str (fabs lat);
        "-GPSLatitudeRef=" ++ (if fleb (float_of_int 0) lat then "N" else "S");
        "-GPSLongitude=" ++ float_str (fabs lon);
        "-GPSLongitudeRef=" ++ (if fleb (float_of_int 0) lon then "E" else "W") ]
  else params.

End WithFormat.

End GeoParams.

(* ================================================================== *)
(** * Directory walker                                                 *)
(* ================================================================== *)

Module Walker.
Import PyStr.

(** [str(n)] for a count. *)
Definition str_of_count (n : nat) : string := NilEmpty.string_of_uint (Nat.to_uint n).

(** The locals of [process_directory] and the world it acts on: the list
    objects, the processes started and the log (in the writer's state),
    and the next list object to be created. *)
Record walk_state : Type :=
  WalkState {
    writer : Writer.state;
    next_ref : Writer.ref;
    failure_list : list (string * string);
    processed_count : nat
  }.

(** A record is logged: by a component, or by the walker itself with the
    text of its f-string. *)
Definition logged (records : list log_record) (ws : walk_state) : walk_state :=
  WalkState
    (Writer.State (Writer.lists (writer ws)) (Writer.invocations (writer ws))
       (Writer.log (writer ws) ++ records)%list)
    (next_ref ws) (failure_list ws) (processed_count ws).

Definition logger_text (lv : level) (text : string) : log_record :=
  LogRecord AppLogger lv (ErrorText text).

(** [failure_list.append(entry)] *)
Definition append_failure (entry : string * string) (ws : walk_state) : walk_state :=
  WalkState (writer ws) (next_ref ws) (failure_list ws ++ [entry])%list
    (processed_count ws).

(** [bool(x)] for a string or [None]. *)
Definition truthy_str (x : option string) : bool :=
  match x with
  | Some s => negb (is_empty s)
  | None => false
  end.

Section WithEnvironment.

(** [os.walk(root_dir)]: for every directory of the tree, in traversal
    order, its path and the names of its files.  The names in the tree and
    the sidecars do not change during the run: the metadata tool rewrites
    the media files in place. *)
Variable os_walk : string -> list (string * list string).
Variable glob_glob : string -> list string.
Variable load_json : string -> outcome json.
Variable strptime_timestamp : string -> outcome Z.
Variable float_of_str : string -> outcome pyfloat.
Variable float_str : pyfloat -> string.
Variable subprocess_run : list (list string) -> list string -> outcome Writer.completed_process.

(** [exif_cmd], as built for a media file from what was extracted. *)
Definition build_exif_cmd (time_data : option string)
  (geo_data : option (pyfloat * pyfloat)) (media_file : string) : list string :=
  let exif_cmd := ["exiftool"; "-overwrite_original"; "-charset"; "filename=utf8"] in
  let exif_cmd :=
    match time_data with
    | Some t =>
        if negb (is_empty t) then
          List.app exif_cmd
            [ "-AllDates=" ++ t; "-FileCreateDate=" ++ t; "-FileModifyDate=" ++ t ]
        else exif_cmd
    | None => exif_cmd
    end in
  let exif_cmd :=
    match geo_data with
    | Some (lat, lon) =>
        let file_ext := snd (OsPath.splitext media_file) in
        List.app exif_cmd (GeoParams.build_geo_params float_str lat lon file_ext)
    | None => exif_cmd
    end in
  List.app exif_cmd [media_file].

(** The body of the inner loop for one file of directory [root]: the
    exception that leaves it, if any, and the state after it.  A failure
    of the writer always carries a message; the entry holds its text (the
    text of [None] otherwise, as the report would print it). *)
Definition process_file (root file : string) (ws : walk_state)
  : option exn * walk_state :=
  if negb (endswith (lower file) ".json") then (None, ws)
  else
    let json_path := OsPath.join root file in
    let (media, recs) := Matcher.smart_file_matcher glob_glob file root in
    let ws := logged recs ws in
    if negb (truthy_str media) then
      (None,
       append_failure (json_path, "未找到对应媒体文件")
         (logged [logger_text WARNING ("未找到媒体文件: " ++ json_path)] ws))
    else
      let media_file := match media with Some m => m | None => EmptyString end in
      let (time_data, recs) :=
        Extractor.enhanced_parse_time load_json strptime_timestamp json_path in
      let ws := logged recs ws in
      let (geo_data, recs) :=
        Extractor.safe_geo_parse load_json float_of_str json_path in
      let ws := logged recs ws in
      if negb (truthy_str time_data) &&
         negb (match geo_data with Some _ => true | None => false end) then
        (None,
         append_failure (media_file, "无有效元数据")
           (logged [logger_text WARNING ("无有效元数据: " ++ json_path)] ws))
      else
        (* a new list object holds the command *)
        let exif_cmd := next_ref ws in
        let st :=
          Writer.State
            (Writer.store_set (Writer.lists (writer ws)) exif_cmd
               (build_exif_cmd time_data geo_data media_file))
            (Writer.invocations (writer ws)) (Writer.log (writer ws)) in
        let (result, st) :=
          Writer.robust_exiftool_exec subprocess_run exif_cmd media_file st in
        match result with
        | Raise e =>
            (Some e, WalkState st (S exif_cmd) (failure_list ws) (processed_count ws))
        | Ret (success, error) =>
            if negb success then
              (None,
               WalkState st (S exif_cmd)
                 (failure_list ws ++
                  [(media_file, match error with Some m => m | None => "None" end)])%list
                 (processed_count ws))
            else
              (None,
               WalkState st (S exif_cmd) (failure_list ws) (S (processed_count ws)))
        end.

(** The inner loop: the files of one directory. *)
Fixpoint process_files (root : string) (files : list string) (ws : walk_state)
  : option exn * walk_state :=
  match files with
  | [] => (None, ws)
  | file :: rest =>
      match process_file root file ws with
      | (Some e, ws) => (Some e, ws)
      | (None, ws) => process_files root rest ws
      end
  end.

(** The outer loop: the directories of the walk. *)
Fixpoint process_dirs (walk : list (string * list string)) (ws : walk_state)
  : option exn * walk_state :=
  match walk with
  | [] => (None, ws)
  | (root, files) :: rest =>
      match process_files root files ws with
      | (Some e, ws) => (Some e, ws)
      | (None, ws) => process_dirs rest ws
      end
  end.

(** [process_directory(root_dir, logger)] run in the world [world] (with
    [fresh] the next list object): the failures it returns, or the
    exception that leaves it, and the state it ends in. *)
Definition process_directory (root_dir : string) (world : Writer.state)
  (fresh : Writer.ref) : outcome (list (string * string)) * walk_state :=
  match process_dirs (os_walk root_dir) (WalkState world fresh [] 0) with
  | (Some e, ws) => (Raise e, ws)
  | (None, ws) =>
      (Ret (failure_list ws),
       logged [logger_text INFO
                 ("处理完成，成功更新 " ++ str_of_count (processed_count ws)
                  ++ " 个文件")] ws)
  end.

End WithEnvironment.

End Walker.

(* ================================================================== *)
(** * Notions the statements below are phrased in                      *)
(* ================================================================== *)

(** The long s, U+017F, in UTF-8. *)
Definition LONG_S : string := String "197"%char (String "191"%char EmptyString).

(** The ending [.json] with case ignored: a dot, [j] or [J], an s (small,
    capital or long), [o] or [O], [n] or [N]. *)
Definition json_ending (j : string) : Prop :=
  exists (cj co cn : ascii) (s : string),
    j = String "."%char (String cj (s ++ String co (String cn EmptyString))) /\
    (cj = "j"%char \/ cj = "J"%char) /\
    (s = "s" \/ s = "S" \/ s = LONG_S) /\
    (co = "o"%char \/ co = "O"%char) /\
    (cn = "n"%char \/ cn = "N"%char).

(** A sidecar name of the standard form: [core], a dot, two non-empty
    segments without dots, and [.json] with case ignored (a newline may
    end the name); [core] holds no newline. *)
Definition standard_name (json_name core : string) : Prop :=
  exists e1 e2 j : string,
    json_name = core ++ "." ++ e1 ++ "." ++ e2 ++ j /\
    e1 <> EmptyString /\ e2 <> EmptyString /\
    PyStr.contains "."%char e1 = false /\
    PyStr.contains "."%char e2 = false /\
    PyStr.contains NameRe.newline core = false /\
    (json_ending j \/
     exists j0, j = j0 ++ String NameRe.newline EmptyString /\ json_ending j0).

(** What an escaped pattern translates to: a literal character, or a set
    holding the one magic character it stands for. *)
Definition escaped_tok (c : ascii) : Glob.glob_tok :=
  if Glob.is_magic c then Glob.TSet false [Glob.CChar c] else Glob.TLit c.

(** The conversion of ordinals to dates and back, tested on the ordinals
    [z+1], ..., [z+fuel]. *)
Fixpoint roundtrip_from (fuel : nat) (z : Z) : bool :=
  match fuel with
  | O => true
  | S f =>
      (let '(y, m, d) := Calendar.ord2ymd (z + 1) in
       Calendar.ymd2ord y m d =? z + 1)%Z &&
      roundtrip_from f (z + 1)%Z
  end.

(** "The epoch read as UTC, plus exactly eight hours, formatted": the
    calendar reading of the instant eight hours after [epoch]. *)
Definition utc_plus_8_string (epoch : Z) : string :=
  Calendar.strftime (Calendar.civil_of_epoch (epoch + 8 * 3600)).

(** What [int] makes of a string of decimal digits (of any script): the
    number they write, for at least one and at most 4300 digits. *)
Definition digit_string_value (s : string) : option Z :=
  match PyStr.decimal_values (PyStr.code_points s) with
  | Some (d :: ds) =>
      if (length (d :: ds) <=? 4300)%nat
      then Some (PyStr.digits_value (d :: ds))
      else None
  | _ => None
  end.

(** A numeric epoch as a sidecar holds one: an integer, a float with an
    integral value, or a string of decimal digits. *)
Definition numeric_epoch (value : json) : option Z :=
  match value with
  | JInt z => Some z
  | JFloat (Finite q) => if (Zpos (Qden q) =? 1)%Z then Some (Qnum q) else None
  | JStr s => digit_string_value s
  | _ => None
  end.

Section TimeSourceNotions.

Variable strptime_timestamp : string -> outcome Z.

(** A usable value as the claim words it: a number, an all-digit string,
    or a string that parses as a date and time. *)
Definition claimed_usable (value : json) : bool :=
  match value with
  | JInt _ | JFloat _ => true
  | JStr s =>
      PyStr.isdigit s ||
      match strptime_timestamp s with Ret _ => true | Raise _ => false end
  | _ => false
  end.

(** A usable value and the epoch it stands for: a number other than zero
    (its integer part; [true] counts as 1), a string of digits that [int]
    reads, or other text that parses as a date and time. *)
Definition usable_epoch (value : json) : option Z :=
  match value with
  | JBool b => if b then Some 1%Z else None
  | JInt z => if (z =? 0)%Z then None else Some z
  | JFloat (Finite q) =>
      if Qeq_bool q 0 then None else Some (Z.quot (Qnum q) (Zpos (Qden q)))
  | JStr s =>
      if PyStr.is_empty s then None
      else if PyStr.isdigit s then digit_string_value s
      else match strptime_timestamp s with Ret t => Some t | Raise _ => None end
  | _ => None
  end.

(** A value after which the search goes on to the next source: nothing
    (absent, null, false, zero, empty), a NaN, a list or an object, text
    of digits that [int] does not read (a digit that is no decimal digit,
    such as a superscript, or more than 4300 digits), or text that is not
    all digits and that fails to parse. *)
Definition falls_through (value : json) : bool :=
  negb (truthy value) ||
  match value with
  | JFloat NaN => true
  | JList _ | JObj _ => true
  | JStr s =>
      if PyStr.isdigit s
      then match digit_string_value s with Some _ => false | None => true end
      else match strptime_timestamp s with
           | Raise e => is_ValueError_or_TypeError e
           | Ret _ => false
           end
  | _ => false
  end.

(** A value on which the conversion raises an exception that the inner
    [except] clause does not catch: an infinite float, or text (not all
    digits) on which the parse raises something other than a [ValueError]
    or a [TypeError]. *)
Definition conversion_error (value : json) : option exn :=
  match value with
  | JFloat (Inf _) =>
      Some (Exn OverflowError "cannot convert float infinity to integer")
  | JStr s =>
      if PyStr.is_empty s || PyStr.isdigit s then None
      else match strptime_timestamp s with
           | Raise e => if is_ValueError_or_TypeError e then None else Some e
           | Ret _ => None
           end
  | _ => None
  end.

End TimeSourceNotions.

(** What [enhanced_parse_time] makes of the epoch [t] the search stopped
    at: no time for zero, otherwise the formatted Beijing time (or the
    failure of the conversion). *)
Definition result_for_epoch (json_path : string) (t : Z)
  : option string * list log_record :=
  if (t =? 0)%Z then (None, [logging_warning (NoTimeSource json_path)])
  else match Extractor.beijing_time t with
       | Ret s => (Some s, [])
       | Raise e => (None, [logging_error (TimeParseFailed json_path e)])
       end.

(** What [enhanced_parse_time] returns for each way the search can end:
    at an epoch, without a source, or with an exception. *)
Definition result_of_search (json_path : string) (r : Extractor.scan_result)
  : option string * list log_record :=
  match r with
  | Extractor.Found _ _ t => result_for_epoch json_path t
  | Extractor.NotFound => (None, [logging_warning (NoTimeSource json_path)])
  | Extractor.Escaped e => (None, [logging_error (TimeParseFailed json_path e)])
  end.

(* ------------------------------------------------------------------ *)
(** ** A sample environment and sample sidecars                        *)
(* ------------------------------------------------------------------ *)

(** The sample machine reads numbers written in ASCII digits. *)
Definition ascii_digit (c : ascii) : bool :=
  (48 <=? nat_of_ascii c)%nat && (nat_of_ascii c <=? 57)%nat.

Fixpoint ascii_digits (s : string) : bool :=
  match s with
  | EmptyString => true
  | String x s' => ascii_digit x && ascii_digits s'
  end.

Fixpoint ascii_number (acc : Z) (s : string) : Z :=
  match s with
  | EmptyString => acc
  | String x s' => ascii_number (10 * acc + Z.of_nat (nat_of_ascii x - 48))%Z s'
  end.

(** The digits of [s] from position [start] on, read as a number. *)
Definition digits_at (s : string) (start len : nat) : option Z :=
  let f := String.substring start len s in
  if Nat.eqb (String.length f) len && ascii_digits f
  then Some (ascii_number 0 f) else None.

(** A machine whose local time is UTC and whose [strptime] reads the
    format strictly: four, two, two, two, two and two digits. *)
Definition sample_strptime (s : string) : outcome Z :=
  let mismatch := Raise (Exn ValueError "time data does not match format") in
  match digits_at s 0 4, digits_at s 5 2, digits_at s 8 2,
        digits_at s 11 2, digits_at s 14 2, digits_at s 17 2 with
  | Some y, Some m, Some d, Some hh, Some mm, Some ss =>
      if Nat.eqb (String.length s) 19 &&
         String.eqb (String.substring 4 1 s) ":" &&
         String.eqb (String.substring 7 1 s) ":" &&
         String.eqb (String.substring 10 1 s) " " &&
         String.eqb (String.substring 13 1 s) ":" &&
         String.eqb (String.substring 16 1 s) ":" &&
         (1 <=? y)%Z && (1 <=? m)%Z && (m <=? 12)%Z && (1 <=? d)%Z &&
         (d <=? Calendar.DAYS_IN_MONTH m +
                (if (m =? 2)%Z && Calendar.is_leap y then 1 else 0))%Z &&
         (hh <=? 23)%Z && (mm <=? 59)%Z && (ss <=? 59)%Z
      then Ret ((Calendar.ymd2ord y m d - Calendar.EPOCH_ORDINAL) * 86400
                + hh * 3600 + mm * 60 + ss)%Z
      else mismatch
  | _, _, _, _, _, _ => mismatch
  end.

(** [float(s)] on the same machine, for the texts the samples use. *)
Definition sample_float_of_str (s : string) : outcome pyfloat :=
  if negb (PyStr.is_empty s) && ascii_digits s
  then Ret (float_of_int (ascii_number 0 s))
  else Raise (Exn ValueError "could not convert string to float").

(** A sidecar as the export writes it. *)
Definition sidecar_full : json :=
  JObj [ ("title", JStr "IMG_0001.jpg");
         ("creationTime",
          JObj [("timestamp", JStr "1600003600");
                ("formatted", JStr "2020:09:13 13:26:40")]);
         ("photoTakenTime",
          JObj [("timestamp", JStr "1600000000");
                ("formatted", JStr "2020:09:13 12:26:40")]);
         ("geoData",
          JObj [("latitude", JFloat (Finite (3123 # 100)));
                ("longitude", JFloat (Finite (12147 # 100)))]) ].

(** The taken time is the epoch itself, as a string and as a number. *)
Definition sidecar_epoch_zero_text : json :=
  JObj [ ("photoTakenTime", JObj [("timestamp", JStr "0")]) ].

Definition sidecar_epoch_zero_number : json :=
  JObj [ ("photoTakenTime", JObj [("timestamp", JInt 0)]) ].

(** A numeric zero in the first source, a valid epoch in the second. *)
Definition sidecar_zero_then_epoch : json :=
  JObj [ ("photoTakenTime", JObj [("timestamp", JInt 0)]);
         ("creationTime", JObj [("timestamp", JStr "1600003600")]) ].

(** The taken time is [null], the creation time is valid. *)
Definition sidecar_null_taken : json :=
  JObj [ ("photoTakenTime", JNull);
         ("creationTime", JObj [("timestamp", JStr "1600003600")]) ].

(** A valid epoch in the first source, a creation time that is [null]. *)
Definition sidecar_epoch_then_null : json :=
  JObj [ ("photoTakenTime", JObj [("timestamp", JStr "1600000000")]);
         ("creationTime", JNull) ].

(** Only the last source holds a value: text in the date format. *)
Definition sidecar_formatted_only : json :=
  JObj [ ("photoTakenTime", JObj [("timestamp", JStr ""); ("formatted", JStr "n/a")]);
         ("creationTime", JObj [("formatted", JStr "2020:09:13 13:26:40")]) ].

(* ------------------------------------------------------------------ *)
(** ** Coordinates                                                     *)
(* ------------------------------------------------------------------ *)

(** The value of [1e-6] as a rational. *)
Definition epsilon_value : Q := 4722366482869645 # 4722366482869645213696.

(** A coordinate whose absolute value is below the epsilon. *)
Definition below_epsilon (x : pyfloat) : Prop :=
  exists q : Q, x = Finite q /\ (Qabs q < epsilon_value)%Q.

(** A coordinate inside [[-bound, bound]]. *)
Definition in_range (bound : Z) (x : pyfloat) : Prop :=
  exists q : Q, x = Finite q /\ (inject_Z (- bound) <= q /\ q <= inject_Z bound)%Q.

(** Sidecars with coordinates that are unset and out of range. *)
Definition sidecar_geo_unset : json :=
  JObj [ ("geoData", JObj [("latitude", JFloat (Finite 0));
                           ("longitude", JFloat (Finite 0))]) ].

Definition sidecar_geo_invalid : json :=
  JObj [ ("geoData", JObj [("latitude", JInt 91);
                           ("longitude", JFloat (Finite (5 # 2)))]) ].

(* ------------------------------------------------------------------ *)
(** ** Sample runs of the metadata tool                                *)
(* ------------------------------------------------------------------ *)

(** The command [process_directory] builds for a file with a time. *)
Definition sample_cmd : list string :=
  [ "exiftool"; "-overwrite_original"; "-charset"; "filename=utf8";
    "-AllDates=2020:09:13 20:26:40"; "-FileCreateDate=2020:09:13 20:26:40";
    "-FileModifyDate=2020:09:13 20:26:40"; "/photos/IMG_0001.jpg" ].

(** A state in which reference 0 holds that command and nothing has run. *)
Definition sample_state : Writer.state :=
  Writer.State (fun r => if Nat.eqb r 0 then sample_cmd else []) [] [].

(** The tool is not installed: no process can be started. *)
Definition exiftool_missing (history : list (list string)) (args : list string)
  : outcome Writer.completed_process :=
  Raise (Exn OSError "[Errno 2] No such file or directory: 'exiftool'").

(** The first run fails, every later one succeeds. *)
Definition fails_once (history : list (list string)) (args : list string)
  : outcome Writer.completed_process :=
  match history with
  | [] => Ret (Writer.Completed 1 "" "Error: Bad format (0) for IFD0 entry 0")
  | _ :: _ => Ret (Writer.Completed 0 "    1 image files updated" "")
  end.

(* ------------------------------------------------------------------ *)
(** ** Sample runs of the whole tool                                   *)
(* ------------------------------------------------------------------ *)






Definition sample_write_file (path text : string) : outcome unit := Ret tt.

(* ------------------------------------------------------------------ *)
(** ** Counting dots                                                   *)
(* ------------------------------------------------------------------ *)

(** The number of dots in a name. *)
Fixpoint dots (s : string) : nat :=
  match s with
  | EmptyString => 0
  | String c s' => (if Ascii.eqb c "."%char then 1 else 0) + dots s'
  end.

(* ------------------------------------------------------------------ *)
(** ** The matcher as a search for three literal names                 *)
(* ------------------------------------------------------------------ *)

(** The file [directory/name], when [name] is an entry of the directory
    and passes the extension test. *)
Definition literal_hit (directory : string) (names : list string) (name : string)
  : option string :=
  if existsb (String.eqb name) names && Matcher.accepted (OsPath.join directory name)
  then Some (OsPath.join directory name)
  else None.

(** The first of the candidates that is there. *)
Fixpoint first_hit (hits : list (option string)) : option string :=
  match hits with
  | [] => None
  | Some path :: _ => Some path
  | None :: rest => first_hit rest
  end.

(* ------------------------------------------------------------------ *)
(** ** Notions for the walker                                          *)
(* ------------------------------------------------------------------ *)

(** A file the walker treats as a sidecar. *)
Definition is_sidecar (file : string) : bool :=
  PyStr.endswith (PyStr.lower file) ".json".

(** The number of sidecars in a walk. *)
Fixpoint count_sidecars (walk : list (string * list string)) : nat :=
  match walk with
  | [] => 0
  | (_, files) :: rest => length (filter is_sidecar files) + count_sidecars rest
  end.

(** A process as the walker starts them: the metadata tool with [-m] and
    in-place overwriting, and as its last argument a file that passes the
    matcher's extension test. *)
Definition tool_invocation (argv : list string) : Prop :=
  exists (options : list string) (media_file : string),
    argv = "exiftool" :: "-m" :: "-overwrite_original"
           :: (options ++ [media_file])%list /\
    Matcher.accepted media_file = true.

(** A sample tree: one directory with a photo and its sidecar, a sidecar
    without a photo, and a text file. *)
Definition sample_walk (root_dir : string) : list (string * list string) :=
  [ (root_dir, ["IMG_0001.jpg"; "IMG_0001.jpg.a.b.json"; "lost.jpg.a.b.json";
                "notes.txt"]) ].

Definition sample_glob : string -> list string :=
  Glob.glob (Matcher.single_dir "/photos"
               ["IMG_0001.jpg"; "IMG_0001.jpg.a.b.json"; "lost.jpg.a.b.json";
                "notes.txt"]).

(** [str(x)] of the sample machine, for the coordinates of the samples. *)
Definition sample_float_str (x : pyfloat) : string :=
  match x with
  | Finite q =>
      if Qeq_bool q (3123 # 100) then "31.23"
      else if Qeq_bool q (12147 # 100) then "121.47"
      else "0.0"
  | Inf neg => if neg then "-inf" else "inf"
  | NaN => "nan"
  end.

(** The metadata tool succeeds at once. *)
Definition always_succeeds (history : list (list string)) (args : list string)
  : outcome Writer.completed_process :=
  Ret (Writer.Completed 0 "    1 image files updated" "").

(** A world in which nothing has run. *)
Definition empty_world : Writer.state := Writer.State (fun _ => []) [] [].

(** What the walker has counted so far: successes and failures. *)
Definition accounted (ws : Walker.walk_state) : nat :=
  Walker.processed_count ws + length (Walker.failure_list ws).

(** The number of processes started so far. *)
Definition started (ws : Walker.walk_state) : nat :=
  length (Writer.invocations (Walker.writer ws)).

(** From [ws] to [ws'] at most [3 * k] processes were started, and at
    least one for every success counted. *)
Definition within_budget (k : nat) (ws ws' : Walker.walk_state) : Prop :=
  started ws' <= started ws + 3 * k /\
  started ws + Walker.processed_count ws' <= started ws' + Walker.processed_count ws.

(* ------------------------------------------------------------------ *)
(** ** The walker under [main]                                         *)
(* ------------------------------------------------------------------ *)

(** [process_directory(target_dir, logger)] as [main] calls it, in a world
    in which nothing has run yet: what it returns (or raises) and the
    records logged during the walk. *)
Definition walk_from_start
  (os_walk : string -> list (string * list string))
  (glob_glob : string -> list string) (load_json : string -> outcome json)
  (strptime_timestamp : string -> outcome Z)
  (float_of_str : string -> outcome pyfloat) (float_str : pyfloat -> string)
  (subprocess_run : list (list string) -> list string -> outcome Writer.completed_process)
  (target_dir : string) : outcome (list (string * string)) * list log_record :=
  let (result, ws) :=
    Walker.process_directory os_walk glob_glob load_json strptime_timestamp
      float_of_str float_str subprocess_run target_dir empty_world 0 in
  (result, Writer.log (Walker.writer ws)).

(** A sample tree in which every sidecar has its photo. *)
Definition sample_pair_walk (root_dir : string) : list (string * list string) :=
  [ (root_dir, ["IMG_0001.jpg"; "IMG_0001.jpg.a.b.json"; "notes.txt"]) ].

Definition sample_pair_glob : string -> list string :=
  Glob.glob (Matcher.single_dir "/photos"
               ["IMG_0001.jpg"; "IMG_0001.jpg.a.b.json"; "notes.txt"]).

(* ================================================================== *)
(** * Properties of the file matcher                                   *)
(* ================================================================== *)

Section MatcherFacts.
Import PyStr Matcher.

Variable glob_glob : string -> list string.

(** A path chosen among the candidates of some patterns passed the test
    of the inner [if] and was produced by [glob.glob] for one of them. *)
Lemma match_patterns_sound (directory : string) (pats : list string) (path : string) :
  match_patterns glob_glob directory pats = Some path ->
  accepted path = true /\
  exists pattern,
    In pattern pats /\
    In path (glob_glob (OsPath.join directory (Glob.escape pattern))).
Proof.
  induction pats as [|p ps IH]; simpl; [discriminate|].
  destruct (find accepted (glob_glob (OsPath.join directory (Glob.escape p))))
    as [c|] eqn:Hfind.
  - intros [= ->]. apply find_some in Hfind as [Hin Hacc].
    split; [exact Hacc|]. exists p. auto.
  - intros H. destruct (IH H) as [Hacc [q [Hq Hin]]].
    split; [exact Hacc|]. exists q. auto.
Qed.

Lemma accepted_spec (path : string) :
  accepted path = true ->
  In (lower (snd (OsPath.splitext path))) valid_exts /\
  endswith (lower path) ".json" = false.
Proof.
  unfold accepted. intros H. apply andb_true_iff in H as [Hext Hjson].
  split.
  - apply existsb_exists in Hext as [e [Hin Heq]].
    apply String.eqb_eq in Heq. now subst e.
  - now apply negb_true_iff in Hjson.
Qed.

End MatcherFacts.

(** C9. Whenever [smart_file_matcher] returns a path, whatever the
    directory holds, the path's extension, lower-cased, is one of the
    whitelist's and the lower-cased path does not end in [.json]: the
    matcher never selects a sidecar file as the media file. *)
Theorem matcher_result_is_whitelisted_media
  (glob_glob : string -> list string) (json_name directory path : string)
  (logged : list log_record) :
  Matcher.smart_file_matcher glob_glob json_name directory = (Some path, logged) ->
  In (PyStr.lower (snd (OsPath.splitext path))) Matcher.valid_exts /\
  PyStr.endswith (PyStr.lower path) ".json" = false.
Proof.
  unfold Matcher.smart_file_matcher.
  destruct (NameRe.base_pattern json_name) as [core_name|]; [|discriminate].
  intros H.
  assert (Hmatch : Matcher.match_patterns glob_glob directory
                     (Matcher.patterns core_name) = Some path) by congruence.
  apply match_patterns_sound in Hmatch as [Hacc _].
  now apply accepted_spec.
Qed.

Lemma matcher_result_is_whitelisted_media_witness :
  In (PyStr.lower (snd (OsPath.splitext "/photos/trip.MP4"))) Matcher.valid_exts /\
  PyStr.endswith (PyStr.lower "/photos/trip.MP4") ".json" = false.
Proof.
  apply (matcher_result_is_whitelisted_media
           (Glob.glob (Matcher.single_dir "/photos" ["trip.MP4.a.b.json"; "trip.MP4"]))
           "trip.MP4.a.b.json" "/photos" "/photos/trip.MP4" []).
  vm_compute. reflexivity.
Defined.

(* ================================================================== *)
(** * Properties of the name pattern and of escaped glob patterns      *)
(* ================================================================== *)

Section StringFacts.
Import PyStr.

Lemma cut_before_first_spec (c : ascii) (s h t : string) :
  cut_before_first c s = (h, t) ->
  s = h ++ t /\ contains c h = false /\
  (t = EmptyString \/ exists t', t = String c t').
Proof.
  revert h t. induction s as [|x s IH]; simpl; intros h t.
  - intros [= <- <-]. auto.
  - destruct (Ascii.eqb x c) eqn:Hx.
    + intros [= <- <-]. apply Ascii.eqb_eq in Hx. subst x.
      repeat split; eauto.
    + destruct (cut_before_first c s) as [h' t'].
      intros [= <- <-]. destruct (IH _ _ eq_refl) as [Hs [Hh Ht]].
      simpl. rewrite Hx, Hh. repeat split; [now f_equal | exact Ht].
Qed.

Lemma is_empty_false (s : string) : is_empty s = false -> s <> EmptyString.
Proof. destruct s; [discriminate | discriminate]. Qed.

End StringFacts.

Section NameFacts.
Import PyStr NameRe.

(** The characters that a letter of the pattern matches. *)
Lemma either_case (c x : ascii) :
  is_upper c = false ->
  Ascii.eqb (lower_char x) c = true ->
  x = c \/ (is_upper x = true /\ lower_char x = c).
Proof.
  intros Hc H. apply Ascii.eqb_eq in H. unfold lower_char in H.
  destruct (is_upper x) eqn:Hx.
  - right. unfold lower_char. rewrite Hx. auto.
  - left. exact H.
Qed.

Lemma upper_of (x : ascii) (c : ascii) :
  is_upper x = true -> lower_char x = c ->
  x = ascii_of_nat (nat_of_ascii c - 32).
Proof.
  unfold lower_char, is_upper. intros Hx. rewrite Hx. intros <-.
  apply andb_true_iff in Hx as [H1 H2].
  apply Nat.leb_le in H1, H2.
  rewrite nat_ascii_embedding by lia.
  replace (nat_of_ascii x + 32 - 32)%nat with (nat_of_ascii x) by lia.
  now rewrite ascii_nat_embedding.
Qed.

Lemma letter_cases (c x : ascii) :
  is_upper c = false ->
  Ascii.eqb (lower_char x) c = true ->
  x = c \/ x = ascii_of_nat (nat_of_ascii c - 32).
Proof.
  intros Hc H. destruct (either_case c x Hc H) as [-> | [Hx Hl]]; [now left|].
  right. now apply upper_of.
Qed.

(** The two letters that end the pattern, and the end itself. *)
Lemma match_on_end (r : string) :
  match ci_letter "o"%char r with
  | Some s3 =>
      match ci_letter "n"%char s3 with
      | Some s4 => is_empty s4 || String.eqb s4 (String newline EmptyString)
      | None => false
      end
  | None => false
  end = true ->
  exists co cn tail,
    r = String co (String cn tail) /\
    (co = "o"%char \/ co = "O"%char) /\ (cn = "n"%char \/ cn = "N"%char) /\
    (tail = EmptyString \/ tail = String newline EmptyString).
Proof.
  unfold ci_letter. destruct r as [|co r]; [discriminate|].
  destruct (Ascii.eqb (lower_char co) "o"%char) eqn:Ho; [|discriminate].
  destruct r as [|cn tail]; [discriminate|].
  destruct (Ascii.eqb (lower_char cn) "n"%char) eqn:Hn; [|discriminate].
  intros Hend. exists co, cn, tail. split; [reflexivity|].
  split; [exact (letter_cases "o"%char co eq_refl Ho)|].
  split; [exact (letter_cases "n"%char cn eq_refl Hn)|].
  apply orb_true_iff in Hend as [Hend | Hend].
  - left. now destruct tail.
  - right. now apply String.eqb_eq.
Qed.

(** The end of the pattern matches the endings [.json] with case ignored,
    with or without a final newline. *)
Lemma match_dot_json_end_sound (j : string) :
  match_dot_json_end j = true ->
  json_ending j \/
  exists j0, j = j0 ++ String newline EmptyString /\ json_ending j0.
Proof.
  unfold match_dot_json_end.
  destruct j as [|c s0]; [discriminate|].
  destruct (Ascii.eqb c dot) eqn:Hc; [|discriminate].
  apply Ascii.eqb_eq in Hc. subst c. cbn [andb].
  unfold ci_letter at 1. destruct s0 as [|cj s1]; [discriminate|].
  destruct (Ascii.eqb (lower_char cj) "j"%char) eqn:Hj; [|discriminate].
  pose proof (letter_cases "j"%char cj eq_refl Hj : cj = "j"%char \/ cj = "J"%char) as Hcj.
  assert (Hs : forall (s r : string),
            s1 = s ++ r -> (s = "s" \/ s = "S" \/ s = LONG_S) ->
            match ci_letter "o"%char r with
            | Some s3 =>
                match ci_letter "n"%char s3 with
                | Some s4 => is_empty s4 || String.eqb s4 (String newline EmptyString)
                | None => false
                end
            | None => false
            end = true ->
            json_ending (String dot (String cj s1)) \/
            exists j0, String dot (String cj s1) = j0 ++ String newline EmptyString /\
                       json_ending j0).
  { intros s r -> Hcase Hend.
    destruct (match_on_end r Hend) as [co [cn [tail [-> [Hco [Hcn Htail]]]]]].
    destruct Htail as [-> | ->].
    - left. exists cj, co, cn, s. auto.
    - right. exists (String dot (String cj (s ++ String co (String cn EmptyString)))).
      split; [|exists cj, co, cn, s; auto].
      destruct Hcase as [-> | [-> | ->]]; reflexivity. }
  unfold ci_letter_s. destruct s1 as [|x s2]; [discriminate|].
  destruct (Ascii.eqb (lower_char x) "s"%char) eqn:Hx.
  - apply (Hs (String x EmptyString) s2 eq_refl).
    destruct (letter_cases "s"%char x eq_refl Hx) as [-> | ->]; auto.
  - destruct (Ascii.eqb x "197"%char) eqn:H197; [|discriminate].
    destruct s2 as [|y s3]; [discriminate|].
    destruct (Ascii.eqb y "191"%char) eqn:H191; [|discriminate].
    apply Ascii.eqb_eq in H197, H191. subst x y.
    apply (Hs LONG_S s3 eq_refl). auto.
Qed.

Lemma match_dot_json_end_complete (j : string) :
  json_ending j \/
  (exists j0, j = j0 ++ String newline EmptyString /\ json_ending j0) ->
  match_dot_json_end j = true.
Proof.
  assert (Hone : forall j0 tail,
            json_ending j0 ->
            tail = EmptyString \/ tail = String newline EmptyString ->
            match_dot_json_end (j0 ++ tail) = true).
  { intros j0 tail [cj [co [cn [s [-> [Hcj [Hs [Hco Hcn]]]]]]]] Htail.
    destruct Hcj as [-> | ->], Hs as [-> | [-> | ->]], Hco as [-> | ->],
      Hcn as [-> | ->], Htail as [-> | ->]; reflexivity. }
  intros [H | [j0 [-> H]]].
  - rewrite <- (Hone j (EmptyString) H (or_introl eq_refl)).
    f_equal. clear. induction j as [|c j IH]; [reflexivity|].
    cbn [append]. now rewrite <- IH.
  - apply Hone; auto.
Qed.

Lemma tail_match_spec (s : string) :
  tail_match s = true -> standard_name s EmptyString.
Proof.
  unfold tail_match. destruct s as [|c s1]; [discriminate|].
  destruct (Ascii.eqb c dot) eqn:Hc; [|discriminate]. simpl.
  apply Ascii.eqb_eq in Hc. subst c.
  unfold span_nodot.
  destruct (cut_before_first dot s1) as [e1 r1] eqn:H1.
  destruct (is_empty e1) eqn:He1; [discriminate|]. simpl.
  destruct r1 as [|d s2]; [discriminate|].
  destruct (cut_before_first dot s2) as [e2 r2] eqn:H2.
  destruct (is_empty e2) eqn:He2; [discriminate|]. simpl.
  intros Hj.
  apply cut_before_first_spec in H1 as [Hs1 [Hd1 Ht1]].
  apply cut_before_first_spec in H2 as [Hs2 [Hd2 Ht2]].
  destruct Ht1 as [Ht1|[t' Ht1]]; [discriminate|]. injection Ht1 as Hd Ht'. subst d.
  exists e1, e2, r2. subst s1 t' s2.
  repeat split; try (now apply is_empty_false); try assumption.
  now apply match_dot_json_end_sound.
Qed.

Lemma base_pattern_split (s core : string) :
  base_pattern s = Some core ->
  exists rest,
    s = core ++ rest /\ tail_match rest = true /\ contains newline core = false.
Proof.
  revert core. induction s as [|c s IH]; cbn [base_pattern]; intros core;
    [discriminate|].
  destruct (if Ascii.eqb c newline then None else base_pattern s) as [k|] eqn:Hk.
  - intros [= <-].
    destruct (Ascii.eqb c newline) eqn:Hc; [discriminate|].
    destruct (IH _ Hk) as [rest [Hs [Ht Hn]]].
    exists rest. cbn [contains append]. rewrite Hc, Hn.
    repeat split; [now f_equal | exact Ht].
  - destruct (tail_match (String c s)) eqn:Ht; [|discriminate].
    intros [= <-]. exists (String c s). auto.
Qed.

(** The pattern matches exactly the names of the standard form. *)
Lemma base_pattern_sound (json_name core : string) :
  base_pattern json_name = Some core -> standard_name json_name core.
Proof.
  intros H. destruct (base_pattern_split _ _ H) as [rest [Hs [Ht Hn]]].
  destruct (tail_match_spec _ Ht) as [e1 [e2 [j [Hr Hrest]]]].
  exists e1, e2, j. subst json_name. rewrite Hr. simpl. tauto.
Qed.

(** The group is greedy: it is at least as long as the core of any other
    way to split the name. *)
Lemma base_pattern_greedy (core' rest' : string) :
  contains newline core' = false -> tail_match rest' = true ->
  exists core,
    base_pattern (core' ++ rest') = Some core /\
    (String.length core' <= String.length core)%nat.
Proof.
  intros Hn Ht. induction core' as [|c k IH]; cbn [append].
  - destruct rest' as [|c s]; [discriminate|]. cbn [base_pattern].
    destruct (if Ascii.eqb c newline then None else base_pattern s) as [k|].
    + eexists. split; [reflexivity | simpl; lia].
    + rewrite Ht. eexists. split; [reflexivity | simpl; lia].
  - cbn [contains] in Hn. apply orb_false_iff in Hn as [Hc Hk].
    destruct (IH Hk) as [core [Hb Hlen]].
    cbn [base_pattern]. rewrite Hc, Hb. eexists. split; [reflexivity | simpl; lia].
Qed.

End NameFacts.

Section EscapeFacts.
Import PyStr Glob.

Lemma is_magic_cases (c : ascii) :
  is_magic c = true -> c = "*"%char \/ c = "?"%char \/ c = "["%char.
Proof.
  unfold is_magic. intros H.
  apply orb_true_iff in H as [H|H]; [apply orb_true_iff in H as [H|H]|];
    apply Ascii.eqb_eq in H; auto.
Qed.

Lemma is_magic_false (c : ascii) :
  is_magic c = false ->
  Ascii.eqb c "*"%char = false /\ Ascii.eqb c "?"%char = false /\
  Ascii.eqb c "["%char = false.
Proof.
  unfold is_magic. intros H.
  apply orb_false_iff in H as [H H3]. apply orb_false_iff in H as [H1 H2]. auto.
Qed.

Lemma escape_length (p : string) : (String.length p <= String.length (escape p))%nat.
Proof.
  induction p as [|c p IH]; simpl; [lia|].
  destruct (is_magic c); simpl; lia.
Qed.

Lemma translate_fuel_escape (p : string) :
  forall fuel, (String.length (escape p) <= fuel)%nat ->
  translate_fuel fuel (escape p) = map escaped_tok (list_ascii_of_string p).
Proof.
  induction p as [|c p IH]; intros fuel Hf.
  - destruct fuel; reflexivity.
  - cbn [escape list_ascii_of_string map] in *. unfold escaped_tok at 1.
    destruct (is_magic c) eqn:Hm.
    + simpl in Hf. destruct fuel as [|fuel]; [lia|].
      assert (Hrec : translate_fuel fuel (escape p)
                     = map escaped_tok (list_ascii_of_string p))
        by (apply IH; lia).
      destruct (is_magic_cases c Hm) as [->|[->| ->]]; simpl; now rewrite Hrec.
    + simpl in Hf. destruct fuel as [|fuel]; [lia|].
      destruct (is_magic_false c Hm) as [H1 [H2 H3]].
      simpl. rewrite H1, H2, H3. f_equal. apply IH. lia.
Qed.

Lemma translate_escape (p : string) :
  translate (escape p) = map escaped_tok (list_ascii_of_string p).
Proof. unfold translate. apply translate_fuel_escape. lia. Qed.

Lemma tok_match_escaped (p name : string) :
  tok_match (map escaped_tok (list_ascii_of_string p)) name = true <-> name = p.
Proof.
  revert name. induction p as [|c p IH]; intros name; simpl.
  - destruct name; simpl; split; congruence.
  - unfold escaped_tok at 1. destruct (is_magic c); destruct name as [|x s];
      simpl; try (split; congruence).
    + rewrite orb_false_r, andb_true_iff, Ascii.eqb_eq, IH. split.
      * intros [-> ->]. reflexivity.
      * intros [= -> ->]. auto.
    + rewrite andb_true_iff, Ascii.eqb_eq, IH. split.
      * intros [-> ->]. reflexivity.
      * intros [= -> ->]. auto.
Qed.

(** An escaped pattern matches one name only: the pattern's own text,
    wildcards included. *)
Lemma fnmatch_escape (pattern name : string) :
  fnmatch name (escape pattern) = true <-> name = pattern.
Proof. unfold fnmatch. rewrite translate_escape. apply tok_match_escaped. Qed.

End EscapeFacts.

(** A match is reported only for a sidecar name of the standard form. *)
Lemma matcher_requires_standard_name
  (glob_glob : string -> list string) (json_name directory path : string)
  (logged : list log_record) :
  Matcher.smart_file_matcher glob_glob json_name directory = (Some path, logged) ->
  exists core, standard_name json_name core.
Proof.
  unfold Matcher.smart_file_matcher.
  destruct (NameRe.base_pattern json_name) as [core|] eqn:Hcore; [|discriminate].
  intros _. exists core. now apply base_pattern_sound.
Qed.

(** C7. The pattern strips three segments, so the core of
    [trip.mp4.supplemental-metadata.json] is [trip], not [trip.mp4]; in a
    directory that holds [trip.mp4] the matcher then finds nothing, because
    no entry is named [trip], and the two fallback patterns are escaped.
    A name with one segment before [.json] is refused with a warning. *)
Theorem matcher_trip_example :
  NameRe.base_pattern "trip.mp4.supplemental-metadata.json" = Some "trip" /\
  Matcher.smart_file_matcher_fs
    (Matcher.single_dir "/photos" ["trip.mp4"; "trip.mp4.supplemental-metadata.json"])
    "trip.mp4.supplemental-metadata.json" "/photos" = (None, []) /\
  Matcher.smart_file_matcher_fs
    (Matcher.single_dir "/photos" ["trip.mp4"; "trip.weird.json"])
    "trip.weird.json" "/photos"
  = (None, [logging_warning (NonStandardName "trip.weird.json")]).
Proof. repeat split; vm_compute; reflexivity. Qed.

(** C1. [glob.escape] is applied to the whole pattern, its wildcard
    included: an escaped pattern matches no name but its own text.  So with
    core [IMG_0001], no entry of that name and an entry [IMG_0001.jpg]
    (which the pattern [IMG_0001.*] matches and whose extension is in the
    whitelist), the matcher returns nothing. *)
Theorem matcher_fallback_patterns_are_escaped :
  (forall pattern name : string,
     Glob.fnmatch name (Glob.escape pattern) = true <-> name = pattern) /\
  NameRe.base_pattern "IMG_0001.jpg.supplemental-metadata.json" = Some "IMG_0001" /\
  Glob.fnmatch "IMG_0001.jpg" "IMG_0001.*" = true /\
  Matcher.accepted "/photos/IMG_0001.jpg" = true /\
  Matcher.smart_file_matcher_fs
    (Matcher.single_dir "/photos"
       ["IMG_0001.jpg"; "IMG_0001.jpg.supplemental-metadata.json"])
    "IMG_0001.jpg.supplemental-metadata.json" "/photos" = (None, []).
Proof.
  split; [intros pattern name; apply fnmatch_escape|].
  repeat split; vm_compute; reflexivity.
Qed.

(* ================================================================== *)
(** * The calendar conversions are inverse to each other               *)
(* ================================================================== *)

Section CalendarFacts.
Import Calendar.
Local Open Scope Z_scope.

Lemma roundtrip_from_spec (fuel : nat) :
  forall z, roundtrip_from fuel z = true ->
  forall r, z <= r < z + Z.of_nat fuel ->
  let '(y, m, d) := ord2ymd (r + 1) in ymd2ord y m d = r + 1.
Proof.
  induction fuel as [|f IH]; intros z H r Hr; [lia|].
  cbn [roundtrip_from] in H. apply andb_true_iff in H as [H0 H1].
  destruct (Z.eq_dec r z) as [->|Hne].
  - destruct (ord2ymd (z + 1)) as [[y m] d]. now apply Z.eqb_eq.
  - apply (IH (z + 1) H1). lia.
Qed.

Lemma roundtrip_one_cycle :
  forall r, 0 <= r < 146097 ->
  let '(y, m, d) := ord2ymd (r + 1) in ymd2ord y m d = r + 1.
Proof.
  apply (roundtrip_from_spec (Z.to_nat 146097) 0). vm_compute. reflexivity.
Qed.

End CalendarFacts.

Section CalendarShift.
Import Calendar.
Local Open Scope Z_scope.

Lemma is_leap_shift (y k : Z) : is_leap (y + 400 * k) = is_leap y.
Proof.
  unfold is_leap.
  replace (y + 400 * k) with (y + (100 * k) * 4) at 1 by lia.
  replace (y + 400 * k) with (y + (4 * k) * 100) at 1 by lia.
  replace (y + 400 * k) with (y + k * 400) by lia.
  now rewrite !Z.mod_add by lia.
Qed.

Lemma days_before_year_shift (y k : Z) :
  days_before_year (y + 400 * k) = days_before_year y + 146097 * k.
Proof.
  unfold days_before_year.
  replace ((y + 400 * k - 1) / 4) with ((y - 1) / 4 + 100 * k)
    by (rewrite <- Z.div_add by lia; f_equal; lia).
  replace ((y + 400 * k - 1) / 100) with ((y - 1) / 100 + 4 * k)
    by (rewrite <- Z.div_add by lia; f_equal; lia).
  replace ((y + 400 * k - 1) / 400) with ((y - 1) / 400 + k)
    by (rewrite <- Z.div_add by lia; f_equal; lia).
  lia.
Qed.

Lemma ymd2ord_shift (y m d k : Z) :
  ymd2ord (y + 400 * k) m d = ymd2ord y m d + 146097 * k.
Proof.
  unfold ymd2ord, days_before_month.
  rewrite is_leap_shift, days_before_year_shift. lia.
Qed.

Lemma ord2ymd_shift (k r : Z) :
  0 <= r < 146097 ->
  ord2ymd (146097 * k + r + 1) =
  let '(y, m, d) := ord2ymd (r + 1) in (y + 400 * k, m, d).
Proof.
  intros Hr. unfold ord2ymd, DI400Y.
  replace (146097 * k + r + 1 - 1) with (r + k * 146097) by lia.
  replace (r + 1 - 1) with r by lia.
  rewrite Z.div_add, Z.mod_add by lia.
  rewrite (Z.div_small r 146097), (Z.mod_small r 146097) by lia.
  cbv zeta.
  set (n100 := r / DI100Y). set (r1 := r mod DI100Y).
  set (n4 := r1 / DI4Y). set (r2 := r1 mod DI4Y).
  set (n1 := r2 / 365). set (r3 := r2 mod 365).
  destruct ((n1 =? 4) || (n100 =? 4)); [f_equal; f_equal; lia|].
  set (leapyear := (n1 =? 3) && (negb (n4 =? 24) || (n100 =? 3))).
  set (m := Z.shiftr (r3 + 50) 5).
  destruct (r3 <? _); f_equal; f_equal; lia.
Qed.

(** [_ymd2ord] undoes [_ord2ymd] on every ordinal. *)
Lemma ymd2ord_ord2ymd (n : Z) :
  let '(y, m, d) := ord2ymd n in ymd2ord y m d = n.
Proof.
  pose proof (Z.div_mod (n - 1) 146097 ltac:(lia)) as Hdm.
  pose proof (Z.mod_pos_bound (n - 1) 146097 ltac:(lia)) as Hr.
  set (k := (n - 1) / 146097) in *. set (r := (n - 1) mod 146097) in *.
  replace n with (146097 * k + r + 1) by lia.
  rewrite (ord2ymd_shift k r Hr).
  pose proof (roundtrip_one_cycle r Hr) as Hc.
  destruct (ord2ymd (r + 1)) as [[y m] d].
  rewrite ymd2ord_shift. lia.
Qed.

Lemma toordinal_combine (days secs : Z) : toordinal (combine days secs) = days.
Proof.
  unfold toordinal, combine. pose proof (ymd2ord_ord2ymd days) as H.
  destruct (ord2ymd days) as [[y m] d]. exact H.
Qed.

Lemma seconds_of_combine (days secs : Z) :
  0 <= secs < 86400 ->
  let dt := combine days secs in
  hour dt * 3600 + minute dt * 60 + second dt = secs.
Proof.
  intros Hs. unfold combine. destruct (ord2ymd days) as [[y m] d]. cbn.
  Z.div_mod_to_equations. lia.
Qed.

End CalendarShift.

(* ================================================================== *)
(** * Properties of the time extractor                                 *)
(* ================================================================== *)

Section BeijingTime.
Import Calendar.
Local Open Scope Z_scope.

Lemma utcfromtimestamp_in_range (t : Z) :
  MIN_TIMESTAMP <= t <= MAX_TIMESTAMP ->
  utcfromtimestamp t = Ret (civil_of_epoch t).
Proof.
  unfold utcfromtimestamp, MIN_TIMESTAMP, MAX_TIMESTAMP, GMTIME_MIN, GMTIME_MAX.
  intros Ht.
  change (2 ^ 63) with 9223372036854775808.
  destruct (Z.ltb_spec t (- (9223372036854775808))); [lia|].
  destruct (Z.leb_spec 9223372036854775808 t); [lia|].
  destruct (Z.ltb_spec t (-67768040609740800)); [lia|].
  destruct (Z.ltb_spec 67768036191676799 t); [lia|].
  destruct (Z.ltb_spec t (-62135596800)); [lia|].
  destruct (Z.ltb_spec 253402300799 t); [lia|].
  reflexivity.
Qed.

(** Adding the eight hours to the calendar fields gives the calendar
    reading of the instant eight hours later. *)
Lemma beijing_time_spec (t : Z) :
  MIN_TIMESTAMP <= t <= MAX_TIMESTAMP - 8 * 3600 ->
  Extractor.beijing_time t = Ret (utc_plus_8_string t).
Proof.
  intros Ht. unfold Extractor.beijing_time.
  rewrite utcfromtimestamp_in_range by lia.
  unfold MIN_TIMESTAMP, MAX_TIMESTAMP in Ht.
  cbn [bind]. unfold add_hours, civil_of_epoch.
  set (dt := combine (t / 86400 + EPOCH_ORDINAL) (t mod 86400)).
  pose proof (toordinal_combine (t / 86400 + EPOCH_ORDINAL) (t mod 86400)) as Hord.
  pose proof (seconds_of_combine (t / 86400 + EPOCH_ORDINAL) (t mod 86400)
                (Z.mod_pos_bound t 86400 eq_refl)) as Hsec.
  cbv zeta in Hsec. fold dt in Hord, Hsec.
  set (total := toordinal dt * 86400 + hour dt * 3600 + minute dt * 60 +
                second dt + 8 * 3600).
  assert (Htotal : total = (t + 8 * 3600) + EPOCH_ORDINAL * 86400).
  { unfold total. rewrite Hord.
    pose proof (Z.div_mod t 86400 ltac:(lia)). lia. }
  assert (Hdays : total / 86400 = (t + 8 * 3600) / 86400 + EPOCH_ORDINAL).
  { rewrite Htotal. apply Z.div_add. lia. }
  assert (Hsecs : total mod 86400 = (t + 8 * 3600) mod 86400).
  { rewrite Htotal. apply Z.mod_add. lia. }
  rewrite Hdays, Hsecs.
  replace ((0 <? (t + 8 * 3600) / 86400 + EPOCH_ORDINAL) &&
           ((t + 8 * 3600) / 86400 + EPOCH_ORDINAL <=? MAXORDINAL)) with true.
  - reflexivity.
  - symmetry. unfold EPOCH_ORDINAL, MAXORDINAL.
    apply andb_true_iff. split; [apply Z.ltb_lt | apply Z.leb_le];
      Z.div_mod_to_equations; lia.
Qed.

(** In the last eight hours of the year 9999 the sum is no date. *)
Lemma beijing_time_late (t : Z) :
  MAX_TIMESTAMP - 8 * 3600 < t <= MAX_TIMESTAMP ->
  Extractor.beijing_time t = Raise (Exn OverflowError "date value out of range").
Proof.
  intros Ht. unfold Extractor.beijing_time.
  rewrite utcfromtimestamp_in_range by (unfold MIN_TIMESTAMP, MAX_TIMESTAMP in *; lia).
  unfold MAX_TIMESTAMP in Ht.
  cbn [bind]. unfold add_hours, civil_of_epoch.
  set (dt := combine (t / 86400 + EPOCH_ORDINAL) (t mod 86400)).
  pose proof (toordinal_combine (t / 86400 + EPOCH_ORDINAL) (t mod 86400)) as Hord.
  pose proof (seconds_of_combine (t / 86400 + EPOCH_ORDINAL) (t mod 86400)
                (Z.mod_pos_bound t 86400 eq_refl)) as Hsec.
  cbv zeta in Hsec. fold dt in Hord, Hsec.
  set (total := toordinal dt * 86400 + hour dt * 3600 + minute dt * 60 +
                second dt + 8 * 3600).
  assert (Htotal : total = (t + 8 * 3600) + EPOCH_ORDINAL * 86400).
  { unfold total. rewrite Hord.
    pose proof (Z.div_mod t 86400 ltac:(lia)). lia. }
  assert (Hdays : total / 86400 = (t + 8 * 3600) / 86400 + EPOCH_ORDINAL).
  { rewrite Htotal. apply Z.div_add. lia. }
  rewrite Hdays.
  replace ((t + 8 * 3600) / 86400 + EPOCH_ORDINAL <=? MAXORDINAL) with false.
  - now rewrite andb_false_r.
  - symmetry. unfold EPOCH_ORDINAL, MAXORDINAL. apply Z.leb_gt.
    Z.div_mod_to_equations; lia.
Qed.

(** Outside the range no time comes out. *)
Lemma beijing_time_out_of_range (t : Z) :
  ~ (MIN_TIMESTAMP <= t <= MAX_TIMESTAMP - 8 * 3600) ->
  exists e, Extractor.beijing_time t = Raise e.
Proof.
  intros Hout.
  destruct (Z_le_gt_dec MIN_TIMESTAMP t) as [Hmin|Hmin];
    [destruct (Z_le_gt_dec t MAX_TIMESTAMP) as [Hmax|Hmax]|].
  - eexists. apply beijing_time_late. lia.
  - unfold Extractor.beijing_time, utcfromtimestamp.
    destruct ((t <? - 2 ^ 63) || (2 ^ 63 <=? t)); [cbn [bind]; eauto|].
    destruct ((t <? GMTIME_MIN) || (GMTIME_MAX <? t)); [cbn [bind]; eauto|].
    replace (MAX_TIMESTAMP <? t) with true by (symmetry; apply Z.ltb_lt; lia).
    rewrite orb_true_r. cbn [bind]. eauto.
  - unfold Extractor.beijing_time, utcfromtimestamp.
    destruct ((t <? - 2 ^ 63) || (2 ^ 63 <=? t)); [cbn [bind]; eauto|].
    destruct ((t <? GMTIME_MIN) || (GMTIME_MAX <? t)); [cbn [bind]; eauto|].
    replace (t <? MIN_TIMESTAMP) with true by (symmetry; apply Z.ltb_lt; lia).
    cbn [orb bind]. eauto.
Qed.

End BeijingTime.

Section ScanFacts.
Import PyStr Extractor.

Variable strptime_timestamp : string -> outcome Z.

(** Decimal digits are digits. *)
Lemma decimal_values_digits (cps : list (option N)) (ds : list Z) :
  decimal_values cps = Some ds -> forallb is_digit_point cps = true.
Proof.
  revert ds. induction cps as [|[cp|] cps IH]; intros ds; cbn [decimal_values forallb];
    [reflexivity | | discriminate].
  unfold is_digit_point at 1.
  destruct (decimal_value cp) as [d|]; [|discriminate].
  destruct (decimal_values cps) as [ds'|]; [|discriminate].
  intros _. now rewrite (IH ds' eq_refl).
Qed.

(** A string of digits that has a value passes [isdigit], and [int]
    returns the value. *)
Lemma digit_string_value_int (s : string) (t : Z) :
  digit_string_value s = Some t ->
  isdigit s = true /\ int_of_str s = Ret t.
Proof.
  unfold digit_string_value, int_of_str, isdigit, INT_MAX_STR_DIGITS.
  destruct (decimal_values (code_points s)) as [[|d ds]|] eqn:Hds; try discriminate.
  destruct (length (d :: ds) <=? 4300)%nat; [|discriminate].
  intros [= <-]. split; [|reflexivity].
  rewrite (decimal_values_digits _ _ Hds), andb_true_r.
  destruct s; [discriminate Hds | reflexivity].
Qed.

(** Without a value, [int] raises a [ValueError]. *)
Lemma digit_string_value_none (s : string) :
  digit_string_value s = None ->
  exists e, int_of_str s = Raise e /\ is_ValueError_or_TypeError e = true.
Proof.
  unfold digit_string_value, int_of_str, INT_MAX_STR_DIGITS.
  destruct (decimal_values (code_points s)) as [[|d ds]|]; eauto.
  destruct (length (d :: ds) <=? 4300)%nat; [discriminate | eauto].
Qed.

Lemma usable_epoch_resolve (value : json) (t : Z) :
  usable_epoch strptime_timestamp value = Some t ->
  truthy value = true /\ resolve strptime_timestamp value = Ret t.
Proof.
  destruct value as [| b | z | f | s | l | m]; cbn [usable_epoch truthy resolve];
    try discriminate.
  - destruct b; [intros [= <-]; auto | discriminate].
  - destruct (z =? 0)%Z; [discriminate | intros [= <-]; auto].
  - destruct f as [q | neg |]; try discriminate.
    cbn. destruct (Qeq_bool q 0); [discriminate | intros [= <-]; auto].
  - destruct (is_empty s); [discriminate|]. cbn [negb].
    destruct (isdigit s).
    + intros H. apply digit_string_value_int in H as [_ H]. auto.
    + destruct (strptime_timestamp s); [intros [= <-]; auto | discriminate].
Qed.

Lemma falls_through_resolve (value : json) :
  falls_through strptime_timestamp value = true ->
  truthy value = false \/
  exists e, resolve strptime_timestamp value = Raise e /\
            is_ValueError_or_TypeError e = true.
Proof.
  unfold falls_through. destruct (truthy value) eqn:Ht; [|auto].
  cbn [negb orb]. intros H. right.
  destruct value as [| b | z | f | s | l | m]; try discriminate.
  - destruct f as [q | neg |]; try discriminate. cbn. eauto.
  - cbn [resolve]. destruct (isdigit s).
    + destruct (digit_string_value s) eqn:Hv; [discriminate|].
      now apply digit_string_value_none.
    + destruct (strptime_timestamp s) as [t|e]; [discriminate|]. eauto.
  - cbn. eauto.
  - cbn. eauto.
Qed.

(** Sources whose values fall through leave the search as it was. *)
Lemma scan_falls_through (data : json) (before rest : list (string * string)) :
  (forall s, In s before ->
     exists v, source_value data (fst s) (snd s) = Ret v /\
               falls_through strptime_timestamp v = true) ->
  scan strptime_timestamp data (before ++ rest) = scan strptime_timestamp data rest.
Proof.
  induction before as [|[main_key sub_key] before IH]; intros H; [reflexivity|].
  cbn [app scan].
  destruct (H (main_key, sub_key) (or_introl eq_refl)) as [v [Hv Hf]].
  cbn [fst snd] in Hv. rewrite Hv.
  assert (Hrest : scan strptime_timestamp data (before ++ rest)
                  = scan strptime_timestamp data rest)
    by (apply IH; intros s Hs; apply H; now right).
  destruct (falls_through_resolve v Hf) as [Ht | [e [He Hc]]].
  - rewrite Ht. exact Hrest.
  - rewrite He, Hc. destruct (truthy v); exact Hrest.
Qed.

(** The search stops at the first source that holds a usable value. *)
Lemma scan_first_usable (data : json) (before after : list (string * string))
  (source : string * string) (value : json) (t : Z) :
  (forall s, In s before ->
     exists v, source_value data (fst s) (snd s) = Ret v /\
               falls_through strptime_timestamp v = true) ->
  source_value data (fst source) (snd source) = Ret value ->
  usable_epoch strptime_timestamp value = Some t ->
  scan strptime_timestamp data (before ++ source :: after)
  = Found (fst source) (snd source) t.
Proof.
  intros Hbefore Hvalue Husable.
  rewrite scan_falls_through by exact Hbefore.
  destruct source as [main_key sub_key]. cbn [scan fst snd] in *.
  rewrite Hvalue.
  destruct (usable_epoch_resolve value t Husable) as [Ht Hr].
  now rewrite Ht, Hr.
Qed.

(** A source that falls through is passed over. *)
Lemma scan_passes_over (data : json) (before after : list (string * string))
  (source : string * string) (value : json) :
  (forall s, In s before ->
     exists v, source_value data (fst s) (snd s) = Ret v /\
               falls_through strptime_timestamp v = true) ->
  source_value data (fst source) (snd source) = Ret value ->
  falls_through strptime_timestamp value = true ->
  scan strptime_timestamp data (before ++ source :: after)
  = scan strptime_timestamp data after.
Proof.
  intros Hbefore Hvalue Hft.
  change (source :: after) with ([source] ++ after)%list.
  rewrite app_assoc. apply scan_falls_through.
  intros s Hs. apply in_app_or in Hs as [Hs | [<- | []]]; eauto.
Qed.

(** A lookup that raises ends the search. *)
Lemma scan_lookup_raises (data : json) (before after : list (string * string))
  (source : string * string) (e : exn) :
  (forall s, In s before ->
     exists v, source_value data (fst s) (snd s) = Ret v /\
               falls_through strptime_timestamp v = true) ->
  source_value data (fst source) (snd source) = Raise e ->
  scan strptime_timestamp data (before ++ source :: after) = Escaped e.
Proof.
  intros Hbefore Hvalue.
  rewrite scan_falls_through by exact Hbefore.
  destruct source as [main_key sub_key]. cbn [scan fst snd] in *.
  now rewrite Hvalue.
Qed.

Lemma conversion_error_resolve (value : json) (e : exn) :
  conversion_error strptime_timestamp value = Some e ->
  truthy value = true /\ resolve strptime_timestamp value = Raise e /\
  is_ValueError_or_TypeError e = false.
Proof.
  destruct value as [| b | z | f | s | l | m]; cbn [conversion_error truthy resolve];
    try discriminate.
  - destruct f as [q | neg |]; try discriminate. intros [= <-]. auto.
  - destruct (is_empty s); [discriminate|]. cbn [orb negb].
    destruct (isdigit s); [discriminate|].
    destruct (strptime_timestamp s) as [t|e']; [discriminate|].
    destruct (is_ValueError_or_TypeError e') eqn:He; [discriminate|].
    intros [= <-]. auto.
Qed.

(** A conversion that raises another exception ends the search. *)
Lemma scan_conversion_raises (data : json) (before after : list (string * string))
  (source : string * string) (value : json) (e : exn) :
  (forall s, In s before ->
     exists v, source_value data (fst s) (snd s) = Ret v /\
               falls_through strptime_timestamp v = true) ->
  source_value data (fst source) (snd source) = Ret value ->
  conversion_error strptime_timestamp value = Some e ->
  scan strptime_timestamp data (before ++ source :: after) = Escaped e.
Proof.
  intros Hbefore Hvalue Herr.
  rewrite scan_falls_through by exact Hbefore.
  destruct source as [main_key sub_key]. cbn [scan fst snd] in *.
  rewrite Hvalue.
  destruct (conversion_error_resolve value e Herr) as [Ht [Hr Hc]].
  now rewrite Ht, Hr, Hc.
Qed.

(** Every value falls through, is usable, or makes the conversion raise. *)
Lemma value_cases (value : json) :
  falls_through strptime_timestamp value = true \/
  (exists t, usable_epoch strptime_timestamp value = Some t) \/
  (exists e, conversion_error strptime_timestamp value = Some e).
Proof.
  unfold falls_through.
  destruct value as [| b | z | f | s | l | m];
    cbn [truthy usable_epoch conversion_error].
  - left. reflexivity.
  - destruct b; [right; left; eauto | left; reflexivity].
  - destruct (z =? 0)%Z; [left; reflexivity | right; left; eauto].
  - destruct f as [q | neg |]; cbn [float_truthy].
    + destruct (Qeq_bool q 0); [left; reflexivity | right; left; eauto].
    + right. right. eauto.
    + left. reflexivity.
  - destruct (is_empty s); [left; reflexivity|]. cbn [negb orb].
    destruct (isdigit s).
    + destruct (digit_string_value s); [right; left; eauto | left; reflexivity].
    + destruct (strptime_timestamp s) as [t|e]; [right; left; eauto|].
      destruct (is_ValueError_or_TypeError e); [left; reflexivity | right; right; eauto].
  - left. now rewrite orb_true_r.
  - left. now rewrite orb_true_r.
Qed.

(** A member that is there and is no object makes the lookup raise. *)
Lemma source_value_not_object (members : list (string * json))
  (main_key sub_key : string) (member : json) :
  Json.lookup main_key members = Some member ->
  (forall inner, member <> JObj inner) ->
  source_value (JObj members) main_key sub_key
  = Raise (Exn AttributeError
             ("'" ++ Json.type_name member ++ "' object has no attribute 'get'")).
Proof.
  intros Hmember Hnot. unfold source_value. cbn [Json.get bind].
  rewrite Hmember. destruct member; try reflexivity.
  now destruct (Hnot members0).
Qed.

Lemma numeric_epoch_usable (value : json) (t : Z) :
  numeric_epoch value = Some t -> t <> 0%Z ->
  usable_epoch strptime_timestamp value = Some t.
Proof.
  destruct value as [| b | z | f | s | l | m]; cbn [numeric_epoch usable_epoch];
    try discriminate.
  - intros [= <-] Hz. destruct (Z.eqb_spec z 0); [contradiction | reflexivity].
  - destruct f as [[n d] | neg |]; try discriminate.
    destruct d; cbn; try discriminate.
    intros [= <-] Hz. unfold Qeq_bool. cbn.
    rewrite Z.mul_1_r, Z.quot_1_r.
    destruct n; [contradiction | reflexivity | reflexivity].
  - intros Hv _. destruct (digit_string_value_int s t Hv) as [Hd _].
    rewrite Hd. destruct s; [discriminate Hd | exact Hv].
Qed.

(** A string of digits with a value is usable, zero included. *)
Lemma digit_string_usable (s : string) (t : Z) :
  digit_string_value s = Some t ->
  usable_epoch strptime_timestamp (JStr s) = Some t.
Proof.
  intros Hv. cbn [usable_epoch].
  destruct (digit_string_value_int s t Hv) as [Hd _].
  rewrite Hd. destruct s; [discriminate Hd | exact Hv].
Qed.

(** The number zero falls through. *)
Lemma numeric_zero_falls_through (value : json) :
  numeric_epoch value = Some 0%Z -> (forall s, value <> JStr s) ->
  falls_through strptime_timestamp value = true.
Proof.
  unfold falls_through.
  destruct value as [| b | z | f | s | l | m]; cbn [numeric_epoch truthy];
    try discriminate.
  - intros [= ->] _. reflexivity.
  - destruct f as [[n d] | neg |]; try discriminate.
    destruct d; cbn; try discriminate.
    intros [= ->] _. reflexivity.
  - intros _ Hs. now destruct (Hs s).
Qed.

End ScanFacts.

Section ParseTimeFacts.
Import Extractor.

Variable load_json : string -> outcome json.
Variable strptime_timestamp : string -> outcome Z.

(** Once the search has stopped at epoch [t], the result depends on [t]
    alone. *)
Lemma enhanced_parse_time_found (json_path : string) (data : json)
  (main_key sub_key : string) (t : Z) :
  load_json json_path = Ret data ->
  scan strptime_timestamp data time_sources = Found main_key sub_key t ->
  enhanced_parse_time load_json strptime_timestamp json_path
  = result_for_epoch json_path t.
Proof.
  intros Hload Hscan. unfold enhanced_parse_time, result_for_epoch.
  now rewrite Hload, Hscan.
Qed.

(** The result depends on the way the search ends alone. *)
Lemma enhanced_parse_time_result (json_path : string) (data : json) :
  load_json json_path = Ret data ->
  enhanced_parse_time load_json strptime_timestamp json_path
  = result_of_search json_path (scan strptime_timestamp data time_sources).
Proof.
  intros Hload. unfold enhanced_parse_time, result_of_search, result_for_epoch.
  rewrite Hload. now destruct (scan strptime_timestamp data time_sources).
Qed.

End ParseTimeFacts.

(** C2, as the code has it.  Take a time source that holds a numeric epoch
    [t] (an integer, a float with an integral value, or a string of one to
    4300 decimal digits), every source in front of it falling through (so
    the members in front are absent or objects).
    - For [t] other than zero within the range of [datetime] after the
      shift, the result is the calendar reading of [t] plus eight hours in
      UTC, formatted; nothing is logged.
    - For [t] other than zero outside that range there is no time, and the
      error is logged.
    - For a string of digits that writes zero there is no time, with the
      warning that no source was found, whatever the later sources hold.
    - The number zero is passed over: the result is the one that the later
      sources give. *)
Theorem numeric_epoch_resolves_to_utc_plus_8
  (load_json : string -> outcome json) (strptime_timestamp : string -> outcome Z)
  (json_path : string) (data : json)
  (before after : list (string * string)) (source : string * string)
  (value : json) (t : Z) :
  load_json json_path = Ret data ->
  Extractor.time_sources = (before ++ source :: after)%list ->
  (forall s, In s before ->
     exists v, Extractor.source_value data (fst s) (snd s) = Ret v /\
               falls_through strptime_timestamp v = true) ->
  Extractor.source_value data (fst source) (snd source) = Ret value ->
  numeric_epoch value = Some t ->
  (t <> 0%Z ->
   (Calendar.MIN_TIMESTAMP <= t <= Calendar.MAX_TIMESTAMP - 8 * 3600)%Z ->
   Extractor.enhanced_parse_time load_json strptime_timestamp json_path
   = (Some (utc_plus_8_string t), [])) /\
  (t <> 0%Z ->
   ~ (Calendar.MIN_TIMESTAMP <= t <= Calendar.MAX_TIMESTAMP - 8 * 3600)%Z ->
   exists e,
     Extractor.enhanced_parse_time load_json strptime_timestamp json_path
     = (None, [logging_error (TimeParseFailed json_path e)])) /\
  (t = 0%Z -> (exists s, value = JStr s) ->
   Extractor.enhanced_parse_time load_json strptime_timestamp json_path
   = (None, [logging_warning (NoTimeSource json_path)])) /\
  (t = 0%Z -> (forall s, value <> JStr s) ->
   Extractor.enhanced_parse_time load_json strptime_timestamp json_path
   = result_of_search json_path
       (Extractor.scan strptime_timestamp data after)).
Proof.
  intros Hload Hsplit Hbefore Hvalue Hnum.
  assert (Hfound : usable_epoch strptime_timestamp value = Some t ->
            Extractor.enhanced_parse_time load_json strptime_timestamp json_path
            = result_for_epoch json_path t).
  { intros Husable.
    apply (enhanced_parse_time_found load_json strptime_timestamp json_path data
             (fst source) (snd source) t Hload).
    rewrite Hsplit. now apply scan_first_usable with (value := value). }
  split; [|split; [|split]].
  - intros Hnz Hrange. rewrite Hfound by now apply numeric_epoch_usable.
    unfold result_for_epoch. rewrite beijing_time_spec by exact Hrange.
    destruct (Z.eqb_spec t 0); [contradiction | reflexivity].
  - intros Hnz Hrange. rewrite Hfound by now apply numeric_epoch_usable.
    unfold result_for_epoch.
    destruct (beijing_time_out_of_range t Hrange) as [e He]. rewrite He.
    exists e. destruct (Z.eqb_spec t 0); [contradiction | reflexivity].
  - intros -> [s ->]. cbn [numeric_epoch] in Hnum.
    rewrite Hfound by now apply digit_string_usable.
    reflexivity.
  - intros -> Hnot.
    rewrite (enhanced_parse_time_result load_json strptime_timestamp json_path
               data Hload).
    f_equal. rewrite Hsplit.
    apply scan_passes_over with (value := value); auto.
    now apply numeric_zero_falls_through.
Qed.

Lemma numeric_epoch_resolves_to_utc_plus_8_witness :
  Extractor.enhanced_parse_time (fun _ => Ret sidecar_full) sample_strptime
    "IMG_0001.jpg.supplemental-metadata.json"
  = (Some "2020:09:13 20:26:40", []).
Proof.
  apply (proj1 (numeric_epoch_resolves_to_utc_plus_8
           (fun _ => Ret sidecar_full) sample_strptime
           "IMG_0001.jpg.supplemental-metadata.json" sidecar_full
           [] [("creationTime", "timestamp"); ("photoTakenTime", "formatted");
               ("creationTime", "formatted")]
           ("photoTakenTime", "timestamp") (JStr "1600000000") 1600000000%Z
           eq_refl eq_refl (fun s (H : In s []) => match H with end)
           eq_refl eq_refl)).
  - discriminate.
  - unfold Calendar.MIN_TIMESTAMP, Calendar.MAX_TIMESTAMP. lia.
Defined.

(** C2, the counterexample.  Epoch zero, as a string of digits or as a
    number, is a valid epoch whose reading eight hours ahead of UTC is
    1970:01:01 08:00:00, and [enhanced_parse_time] returns no time for it
    (with the warning that no time source was found). *)
Lemma epoch_zero_yields_no_time :
  numeric_epoch (JStr "0") = Some 0%Z /\
  numeric_epoch (JInt 0) = Some 0%Z /\
  utc_plus_8_string 0%Z = "1970:01:01 08:00:00" /\
  Extractor.enhanced_parse_time (fun _ => Ret sidecar_epoch_zero_text)
    sample_strptime "a.jpg.x.json"
  = (None, [logging_warning (NoTimeSource "a.jpg.x.json")]) /\
  Extractor.enhanced_parse_time (fun _ => Ret sidecar_epoch_zero_number)
    sample_strptime "a.jpg.x.json"
  = (None, [logging_warning (NoTimeSource "a.jpg.x.json")]).
Proof. repeat split; vm_compute; reflexivity. Qed.

(** C5, as the code has it.  The sources are tried in the order of
    [time_sources].  Take a source such that the values of the sources in
    front of it all fall through (their members being absent or objects).
    - When the source holds a usable value (a number other than zero, a
      string of digits that [int] reads, or other text that parses), the
      search stops there with the epoch of the value, and the result of
      [enhanced_parse_time] is the one for that epoch, whatever the later
      sources hold.
    - When its value falls through too, the source is passed over: the
      result is the one that the later sources give.
    - When the lookup raises, which it does for a member that is there and
      is no object, or when the conversion of the value raises an
      exception that is neither a [ValueError] nor a [TypeError], the
      search ends with that exception: no time, the error is logged, and
      the later sources are not looked at.
    Every value is of one of these three kinds.  When the values of all
    four sources fall through, nothing is found. *)
Theorem first_usable_time_source_is_used
  (load_json : string -> outcome json) (strptime_timestamp : string -> outcome Z)
  (json_path : string) (data : json) :
  load_json json_path = Ret data ->
  Extractor.time_sources =
    [ ("photoTakenTime", "timestamp"); ("creationTime", "timestamp");
      ("photoTakenTime", "formatted"); ("creationTime", "formatted") ] /\
  (forall (before after : list (string * string)) (source : string * string)
          (value : json) (t : Z),
     Extractor.time_sources = (before ++ source :: after)%list ->
     (forall s, In s before ->
        exists v, Extractor.source_value data (fst s) (snd s) = Ret v /\
                  falls_through strptime_timestamp v = true) ->
     Extractor.source_value data (fst source) (snd source) = Ret value ->
     usable_epoch strptime_timestamp value = Some t ->
     Extractor.scan strptime_timestamp data Extractor.time_sources
     = Extractor.Found (fst source) (snd source) t /\
     Extractor.enhanced_parse_time load_json strptime_timestamp json_path
     = result_for_epoch json_path t) /\
  ((forall s, In s Extractor.time_sources ->
      exists v, Extractor.source_value data (fst s) (snd s) = Ret v /\
                falls_through strptime_timestamp v = true) ->
   Extractor.scan strptime_timestamp data Extractor.time_sources
   = Extractor.NotFound /\
   Extractor.enhanced_parse_time load_json strptime_timestamp json_path
   = (None, [logging_warning (NoTimeSource json_path)])) /\
  (forall (before after : list (string * string)) (source : string * string)
          (value : json),
     Extractor.time_sources = (before ++ source :: after)%list ->
     (forall s, In s before ->
        exists v, Extractor.source_value data (fst s) (snd s) = Ret v /\
                  falls_through strptime_timestamp v = true) ->
     Extractor.source_value data (fst source) (snd source) = Ret value ->
     falls_through strptime_timestamp value = true ->
     Extractor.scan strptime_timestamp data Extractor.time_sources
     = Extractor.scan strptime_timestamp data after /\
     Extractor.enhanced_parse_time load_json strptime_timestamp json_path
     = result_of_search json_path
         (Extractor.scan strptime_timestamp data after)) /\
  (forall (before after : list (string * string)) (source : string * string)
          (e : exn),
     Extractor.time_sources = (before ++ source :: after)%list ->
     (forall s, In s before ->
        exists v, Extractor.source_value data (fst s) (snd s) = Ret v /\
                  falls_through strptime_timestamp v = true) ->
     (Extractor.source_value data (fst source) (snd source) = Raise e \/
      exists value,
        Extractor.source_value data (fst source) (snd source) = Ret value /\
        conversion_error strptime_timestamp value = Some e) ->
     Extractor.scan strptime_timestamp data Extractor.time_sources
     = Extractor.Escaped e /\
     Extractor.enhanced_parse_time load_json strptime_timestamp json_path
     = (None, [logging_error (TimeParseFailed json_path e)])) /\
  (forall (members : list (string * json)) (main_key sub_key : string)
          (member : json),
     data = JObj members ->
     Json.lookup main_key members = Some member ->
     (forall inner, member <> JObj inner) ->
     Extractor.source_value data main_key sub_key
     = Raise (Exn AttributeError
                ("'" ++ Json.type_name member
                 ++ "' object has no attribute 'get'"))) /\
  (forall value : json,
     falls_through strptime_timestamp value = true \/
     (exists t, usable_epoch strptime_timestamp value = Some t) \/
     (exists e, conversion_error strptime_timestamp value = Some e)).
Proof.
  intros Hload.
  pose proof (enhanced_parse_time_result load_json strptime_timestamp json_path
                data Hload) as Hresult.
  split; [reflexivity|]. split; [|split; [|split; [|split; [|split]]]].
  - intros before after source value t Hsplit Hbefore Hvalue Husable.
    assert (Hscan : Extractor.scan strptime_timestamp data Extractor.time_sources
                    = Extractor.Found (fst source) (snd source) t).
    { rewrite Hsplit. now apply scan_first_usable with (value := value). }
    split; [exact Hscan|].
    now apply enhanced_parse_time_found with (data := data)
      (main_key := fst source) (sub_key := snd source).
  - intros Hall.
    assert (Hscan : Extractor.scan strptime_timestamp data Extractor.time_sources
                    = Extractor.NotFound).
    { rewrite <- (app_nil_r Extractor.time_sources).
      now rewrite scan_falls_through. }
    split; [exact Hscan|].
    unfold Extractor.enhanced_parse_time. now rewrite Hload, Hscan.
  - intros before after source value Hsplit Hbefore Hvalue Hft.
    assert (Hscan : Extractor.scan strptime_timestamp data Extractor.time_sources
                    = Extractor.scan strptime_timestamp data after).
    { rewrite Hsplit. now apply scan_passes_over with (value := value). }
    split; [exact Hscan|]. now rewrite Hresult, Hscan.
  - intros before after source e Hsplit Hbefore Hraise.
    assert (Hscan : Extractor.scan strptime_timestamp data Extractor.time_sources
                    = Extractor.Escaped e).
    { rewrite Hsplit. destruct Hraise as [Hraise | [value [Hvalue Herr]]].
      - now apply scan_lookup_raises.
      - now apply scan_conversion_raises with (value := value). }
    split; [exact Hscan|]. now rewrite Hresult, Hscan.
  - intros members main_key sub_key member -> Hmember Hnot.
    now apply source_value_not_object.
  - apply value_cases.
Qed.

Lemma first_usable_time_source_is_used_witness :
  (Extractor.scan sample_strptime sidecar_formatted_only Extractor.time_sources
   = Extractor.Found "creationTime" "formatted" 1600003600%Z /\
   Extractor.enhanced_parse_time (fun _ => Ret sidecar_formatted_only)
     sample_strptime "b.jpg.x.json"
   = result_for_epoch "b.jpg.x.json" 1600003600%Z) /\
  (Extractor.scan sample_strptime sidecar_epoch_then_null Extractor.time_sources
   = Extractor.Found "photoTakenTime" "timestamp" 1600000000%Z /\
   Extractor.enhanced_parse_time (fun _ => Ret sidecar_epoch_then_null)
     sample_strptime "d.jpg.x.json"
   = result_for_epoch "d.jpg.x.json" 1600000000%Z).
Proof.
  split.
  - refine (proj1 (proj2 (first_usable_time_source_is_used
              (fun _ => Ret sidecar_formatted_only) sample_strptime
              "b.jpg.x.json" sidecar_formatted_only eq_refl))
            [ ("photoTakenTime", "timestamp"); ("creationTime", "timestamp");
              ("photoTakenTime", "formatted") ]
            [] ("creationTime", "formatted")
            (JStr "2020:09:13 13:26:40") 1600003600%Z eq_refl _ eq_refl eq_refl).
    intros s [<- | [<- | [<- | []]]];
      [exists (JStr "") | exists JNull | exists (JStr "n/a")]; split; reflexivity.
  - refine (proj1 (proj2 (first_usable_time_source_is_used
              (fun _ => Ret sidecar_epoch_then_null) sample_strptime
              "d.jpg.x.json" sidecar_epoch_then_null eq_refl))
            []
            [ ("creationTime", "timestamp"); ("photoTakenTime", "formatted");
              ("creationTime", "formatted") ]
            ("photoTakenTime", "timestamp")
            (JStr "1600000000") 1600000000%Z eq_refl _ eq_refl eq_refl).
    intros s [].
Defined.

(** C5, the counterexamples.  A numeric zero in the first source counts as
    usable in the claim's words, and the search passes it over and stops
    at the second source.  A sidecar whose taken time is [null] and whose
    creation time alone holds a valid value yields no time at all: the
    lookup raises and the search does not go on. *)
Lemma numeric_zero_and_null_member_are_not_used :
  Extractor.source_value sidecar_zero_then_epoch "photoTakenTime" "timestamp"
  = Ret (JInt 0) /\
  claimed_usable sample_strptime (JInt 0) = true /\
  Extractor.scan sample_strptime sidecar_zero_then_epoch Extractor.time_sources
  = Extractor.Found "creationTime" "timestamp" 1600003600%Z /\
  Extractor.source_value sidecar_null_taken "creationTime" "timestamp"
  = Ret (JStr "1600003600") /\
  claimed_usable sample_strptime (JStr "1600003600") = true /\
  Extractor.enhanced_parse_time (fun _ => Ret sidecar_null_taken)
    sample_strptime "c.jpg.x.json"
  = (None, [logging_error
              (TimeParseFailed "c.jpg.x.json"
                 (Exn AttributeError "'NoneType' object has no attribute 'get'"))]).
Proof. repeat split; vm_compute; reflexivity. Qed.

(* ================================================================== *)
(** * Properties of the geo extractor                                  *)
(* ================================================================== *)

Section GeoFacts.
Import Extractor.

Lemma below_epsilon_iff (x : pyfloat) :
  fltb (fabs x) EPSILON = true <-> below_epsilon x.
Proof.
  unfold below_epsilon, EPSILON. destruct x as [q | neg |]; cbn.
  - rewrite negb_true_iff. split.
    + intros H. exists q. split; [reflexivity|].
      apply Qnot_le_lt. intros Hle. apply Qle_bool_iff in Hle.
      unfold epsilon_value in Hle. congruence.
    + intros [q' [[= <-] Hlt]].
      destruct (Qle_bool _ (Qabs q)) eqn:Hle; [|reflexivity].
      apply Qle_bool_iff in Hle. exfalso. revert Hle. now apply Qlt_not_le.
  - split; [discriminate | intros [q [Hq _]]; discriminate].
  - split; [discriminate | intros [q [Hq _]]; discriminate].
Qed.

Lemma in_range_iff (bound : Z) (x : pyfloat) :
  within bound x = true <-> in_range bound x.
Proof.
  unfold within, in_range, float_of_int. destruct x as [q | neg |]; cbn.
  - rewrite andb_true_iff, !Qle_bool_iff. split.
    + intros H. exists q. auto.
    + intros [q' [[= <-] H]]. exact H.
  - split; [destruct neg; discriminate | intros [q [Hq _]]; discriminate].
  - split; [discriminate | intros [q [Hq _]]; discriminate].
Qed.

(** A coordinate below the epsilon is inside every range of one degree or
    more. *)
Lemma below_epsilon_in_range (bound : Z) (x : pyfloat) :
  (1 <= bound)%Z -> below_epsilon x -> in_range bound x.
Proof.
  intros Hb [q [-> Hlt]]. exists q. split; [reflexivity|].
  apply Qabs_Qlt_condition in Hlt as [Hlo Hhi].
  assert (He : (epsilon_value <= inject_Z bound)%Q).
  { apply Qle_trans with (y := inject_Z 1); [discriminate|].
    rewrite <- Zle_Qle. exact Hb. }
  split.
  - apply Qlt_le_weak. apply Qle_lt_trans with (y := (- epsilon_value)%Q); [|exact Hlo].
    rewrite inject_Z_opp. now apply Qopp_le_compat.
  - apply Qlt_le_weak. now apply Qlt_le_trans with (y := epsilon_value).
Qed.

End GeoFacts.

(** C6. For a sidecar whose coordinates read as [lat] and [lon]:
    both below the epsilon in absolute value (the pair of zeros in
    particular) gives no coordinate and logs nothing; a latitude outside
    [-90, 90] or a longitude outside [-180, 180] gives no coordinate and
    logs the warning; anything else gives the pair. *)
Theorem geo_extraction_result
  (load_json : string -> outcome json) (float_of_str : string -> outcome pyfloat)
  (json_path : string) (lat lon : pyfloat) :
  (data <- load_json json_path ;; Extractor.read_coordinates float_of_str data)
  = Ret (lat, lon) ->
  (below_epsilon lat /\ below_epsilon lon ->
   Extractor.safe_geo_parse load_json float_of_str json_path = (None, [])) /\
  (lat = Finite 0 /\ lon = Finite 0 ->
   Extractor.safe_geo_parse load_json float_of_str json_path = (None, [])) /\
  (~ in_range 90 lat \/ ~ in_range 180 lon ->
   Extractor.safe_geo_parse load_json float_of_str json_path
   = (None, [logging_warning (InvalidCoord json_path lat lon)])) /\
  (~ (below_epsilon lat /\ below_epsilon lon) ->
   in_range 90 lat -> in_range 180 lon ->
   Extractor.safe_geo_parse load_json float_of_str json_path
   = (Some (lat, lon), [])).
Proof.
  intros Hread. unfold Extractor.safe_geo_parse. rewrite Hread.
  unfold Extractor.check_coordinates.
  assert (Hsmall : below_epsilon lat /\ below_epsilon lon ->
            fltb (fabs lat) Extractor.EPSILON && fltb (fabs lon) Extractor.EPSILON = true).
  { intros [H1 H2]. apply andb_true_iff. now rewrite !below_epsilon_iff. }
  assert (Hnot : ~ (below_epsilon lat /\ below_epsilon lon) ->
            fltb (fabs lat) Extractor.EPSILON && fltb (fabs lon) Extractor.EPSILON = false).
  { intros Hn. apply not_true_is_false. intros H.
    apply andb_true_iff in H as [H1 H2]. apply Hn. now rewrite <- !below_epsilon_iff. }
  repeat split.
  - intros H. now rewrite (Hsmall H).
  - intros [-> ->]. reflexivity.
  - intros Hout.
    assert (Hn : ~ (below_epsilon lat /\ below_epsilon lon)).
    { intros [H1 H2]. destruct Hout as [Hout | Hout]; apply Hout;
        apply below_epsilon_in_range; (lia || assumption). }
    rewrite (Hnot Hn).
    replace (negb (Extractor.within 90 lat) || negb (Extractor.within 180 lon))
      with true; [reflexivity|].
    symmetry. apply orb_true_iff.
    destruct Hout as [Hout | Hout]; [left | right]; apply negb_true_iff;
      apply not_true_is_false; intros H; apply Hout; now apply in_range_iff.
  - intros Hn Hlat Hlon. rewrite (Hnot Hn).
    apply in_range_iff in Hlat, Hlon. now rewrite Hlat, Hlon.
Qed.

Lemma geo_extraction_result_witness :
  Extractor.safe_geo_parse (fun _ => Ret sidecar_full) sample_float_of_str
    "IMG_0001.jpg.supplemental-metadata.json"
  = (Some (Finite (3123 # 100), Finite (12147 # 100)), []) /\
  Extractor.safe_geo_parse (fun _ => Ret sidecar_geo_unset) sample_float_of_str
    "d.jpg.x.json" = (None, []) /\
  Extractor.safe_geo_parse (fun _ => Ret sidecar_geo_invalid) sample_float_of_str
    "e.jpg.x.json"
  = (None, [logging_warning
              (InvalidCoord "e.jpg.x.json" (Finite (inject_Z 91)) (Finite (5 # 2)))]).
Proof.
  split; [|split].
  - apply (proj2 (proj2 (proj2
             (geo_extraction_result (fun _ => Ret sidecar_full) sample_float_of_str
                "IMG_0001.jpg.supplemental-metadata.json"
                (Finite (3123 # 100)) (Finite (12147 # 100)) eq_refl)))).
    + intros [[q [Hq H]] _]. injection Hq as <-. vm_compute in H. discriminate.
    + exists (3123 # 100)%Q. split; [reflexivity|]. split; discriminate.
    + exists (12147 # 100)%Q. split; [reflexivity|]. split; discriminate.
  - apply (proj1
             (geo_extraction_result (fun _ => Ret sidecar_geo_unset) sample_float_of_str
                "d.jpg.x.json" (Finite 0) (Finite 0) eq_refl)).
    split; exists 0%Q; split; reflexivity.
  - apply (proj1 (proj2 (proj2
             (geo_extraction_result (fun _ => Ret sidecar_geo_invalid) sample_float_of_str
                "e.jpg.x.json" (Finite (inject_Z 91)) (Finite (5 # 2)) eq_refl)))).
    left. intros [q [Hq [_ H]]]. injection Hq as <-. vm_compute in H. now apply H.
Defined.

(* ================================================================== *)
(** * Properties of the metadata writer                                *)
(* ================================================================== *)

(** Unfolds the writer and reduces the projections of the states it
    builds; the list operations and the texts stay folded. *)
Ltac writer_simpl :=
  cbn [Writer.lists Writer.invocations Writer.log fst snd].

Ltac writer_unfold :=
  unfold Writer.robust_exiftool_exec, Writer.run_command, Writer.unexpected,
    Writer.emit;
  writer_simpl.

Section WriterFacts.
Import Writer.

Variable subprocess_run : list (list string) -> list string -> outcome completed_process.

Lemma store_set_same (h : store) (r : ref) (l : list string) : store_set h r l r = l.
Proof. unfold store_set. now rewrite Nat.eqb_refl. Qed.

Lemma store_set_other (h : store) (r r' : ref) (l : list string) :
  r' <> r -> store_set h r l r' = h r'.
Proof. unfold store_set. intros H. apply Nat.eqb_neq in H. now rewrite H. Qed.

(** Whatever the processes do, the only list the writer changes is the
    caller's command, and the change is the insertion. *)
Lemma robust_exiftool_exec_lists (cmd : ref) (file_path : string) (st : state) :
  lists (snd (robust_exiftool_exec subprocess_run cmd file_path st))
  = store_set (lists st) cmd (list_insert 1 "-m" (lists st cmd)).
Proof.
  writer_unfold.
  destruct (subprocess_run _ _) as [result|e]; [|reflexivity].
  destruct (returncode result =? 0)%Z; [reflexivity|]. writer_simpl.
  destruct (subprocess_run _ _) as [clean_result|e]; [|reflexivity].
  destruct (returncode clean_result =? 0)%Z; [|reflexivity]. writer_simpl.
  destruct (subprocess_run _ _) as [retry_result|e]; [|reflexivity].
  destruct (returncode retry_result =? 0)%Z; reflexivity.
Qed.

(** The first process the writer starts gets the command with the flag. *)
Lemma robust_exiftool_exec_first_invocation (cmd : ref) (file_path : string) (st : state) :
  exists later,
    invocations (snd (robust_exiftool_exec subprocess_run cmd file_path st))
    = (invocations st ++ list_insert 1 "-m" (lists st cmd) :: later)%list.
Proof.
  writer_unfold. rewrite !store_set_same.
  destruct (subprocess_run _ _) as [result|e]; [|exists []; reflexivity].
  destruct (returncode result =? 0)%Z; [exists []; reflexivity|]. writer_simpl.
  destruct (subprocess_run _ _) as [clean_result|e];
    [|exists [clean_cmd file_path]; writer_simpl; now rewrite <- app_assoc].
  destruct (returncode clean_result =? 0)%Z;
    [|exists [clean_cmd file_path]; writer_simpl; now rewrite <- app_assoc].
  writer_simpl.
  destruct (subprocess_run _ _) as [retry_result|e];
    [destruct (returncode retry_result =? 0)%Z|];
    exists [clean_cmd file_path; list_insert 1 "-m" (lists st cmd)];
    writer_simpl; now rewrite <- !app_assoc.
Qed.

(** Python's [insert(1, x)] splits the list after its first element. *)
Lemma list_insert_1_split (x : string) (l : list string) :
  exists before after,
    l = (before ++ after)%list /\
    list_insert 1 x l = (before ++ x :: after)%list /\
    length before = Nat.min 1 (length l).
Proof.
  destruct l as [|y l].
  - exists [], []. auto.
  - exists [y], l. auto.
Qed.

Lemma list_insert_length (i : nat) (x : string) (l : list string) :
  length (list_insert i x l) = S (length l).
Proof.
  revert l. induction i as [|i IH]; intros [|y l]; cbn; auto.
Qed.

(** Once the first run has returned, the writer returns a pair: an
    exception of the clean-up or of the retry becomes a failure, and a
    failure always carries a message. *)
Lemma repair_exceptions_are_caught (cmd : ref) (file_path : string) (st : state)
  (result : completed_process) :
  subprocess_run (invocations st) (list_insert 1 "-m" (lists st cmd)) = Ret result ->
  exists (success : bool) (error : option string),
    fst (robust_exiftool_exec subprocess_run cmd file_path st) = Ret (success, error) /\
    (success = false -> error <> None).
Proof.
  intros Hfirst. writer_unfold. rewrite !store_set_same, Hfirst. clear Hfirst.
  destruct (returncode result =? 0)%Z;
    [exists true, None; split; [reflexivity|discriminate]|].
  writer_simpl. destruct (subprocess_run _ _) as [clean_result|e];
    [|eexists false, _; split; [reflexivity | discriminate]].
  destruct (returncode clean_result =? 0)%Z;
    [|eexists false, _; split; [reflexivity | discriminate]]. writer_simpl.
  destruct (subprocess_run _ _) as [retry_result|e];
    [|eexists false, _; split; [reflexivity | discriminate]].
  destruct (returncode retry_result =? 0)%Z;
    [exists true, None | eexists false, _]; split; (reflexivity || discriminate).
Qed.

End WriterFacts.

(** C3. The first run of the command stands outside the [try]: when the
    process cannot be started, the exception leaves
    [robust_exiftool_exec] instead of becoming a failure. *)
Theorem first_invocation_exception_propagates
  (subprocess_run : list (list string) -> list string -> outcome Writer.completed_process)
  (cmd : Writer.ref) (file_path : string) (st : Writer.state) (e : exn) :
  subprocess_run (Writer.invocations st)
    (Writer.list_insert 1 "-m" (Writer.lists st cmd)) = Raise e ->
  fst (Writer.robust_exiftool_exec subprocess_run cmd file_path st) = Raise e.
Proof.
  intros Hfirst. writer_unfold. rewrite !store_set_same, Hfirst. reflexivity.
Qed.

Lemma first_invocation_exception_propagates_witness :
  fst (Writer.robust_exiftool_exec exiftool_missing 0 "/photos/IMG_0001.jpg"
         sample_state)
  = Raise (Exn OSError "[Errno 2] No such file or directory: 'exiftool'").
Proof.
  apply (first_invocation_exception_propagates exiftool_missing 0
           "/photos/IMG_0001.jpg" sample_state).
  reflexivity.
Defined.



(** C10. The command list is changed in place: after the call, whatever
    the processes did, the caller's list is the old one with [-m] inserted
    after its first element (one element longer, the other elements in
    their order), every other list is untouched, and already the first
    process was started with the changed list. *)
Theorem command_list_is_mutated_in_place
  (subprocess_run : list (list string) -> list string -> outcome Writer.completed_process)
  (cmd : Writer.ref) (file_path : string) (st : Writer.state) :
  let old := Writer.lists st cmd in
  let st' := snd (Writer.robust_exiftool_exec subprocess_run cmd file_path st) in
  Writer.lists st' cmd = Writer.list_insert 1 "-m" old /\
  Writer.lists st' cmd <> old /\
  length (Writer.lists st' cmd) = S (length old) /\
  (old <> [] -> nth_error (Writer.lists st' cmd) 1 = Some "-m") /\
  (exists before after,
     old = (before ++ after)%list /\
     Writer.lists st' cmd = (before ++ "-m" :: after)%list /\
     length before = Nat.min 1 (length old)) /\
  (forall r, r <> cmd -> Writer.lists st' r = Writer.lists st r) /\
  (exists later,
     Writer.invocations st'
     = (Writer.invocations st ++ Writer.list_insert 1 "-m" old :: later)%list).
Proof.
  cbv zeta. rewrite robust_exiftool_exec_lists, store_set_same.
  split; [reflexivity|]. split; [|split; [|split; [|split; [|split]]]].
  - intros Heq. apply (f_equal (@length string)) in Heq.
    rewrite list_insert_length in Heq. lia.
  - apply list_insert_length.
  - destruct (Writer.lists st cmd) as [|y l]; [congruence | reflexivity].
  - apply list_insert_1_split.
  - intros r Hr. now apply store_set_other.
  - apply robust_exiftool_exec_first_invocation.
Qed.

Lemma command_list_is_mutated_in_place_witness :
  Writer.lists
    (snd (Writer.robust_exiftool_exec fails_once 0 "/photos/IMG_0001.jpg" sample_state)) 0
  = "exiftool" :: "-m" :: tl sample_cmd.
Proof.
  exact (proj1 (command_list_is_mutated_in_place fails_once 0 "/photos/IMG_0001.jpg"
                  sample_state)).
Defined.

(* ================================================================== *)
(** * Properties of the failure report and of the exit status          *)
(* ================================================================== *)

Section PathFacts.
Import PyStr.


Lemma append_empty_r (a : string) : a ++ EmptyString = a.
Proof. induction a as [|x a IH]; cbn; [reflexivity | now rewrite IH]. Qed.

Lemma contains_append (c : ascii) (a b : string) :
  contains c (a ++ b) = contains c a || contains c b.
Proof.
  induction a as [|x a IH]; cbn; [reflexivity|]. now rewrite IH, orb_assoc.
Qed.

(** Without a separator there is nothing to cut. *)
Lemma cut_after_last_absent (c : ascii) (s : string) :
  contains c s = false -> cut_after_last c s = (EmptyString, s).
Proof.
  induction s as [|x s IH]; cbn; [reflexivity|].
  intros H. apply orb_false_iff in H as [Hx Hs].
  now rewrite (IH Hs), Hx.
Qed.



(** The cut falls at a separator that nothing but other characters
    follow. *)
Lemma cut_after_last_at (c : ascii) (a b : string) :
  contains c b = false ->
  cut_after_last c (a ++ String c b) = (a ++ String c EmptyString, b).
Proof.
  intros Hb. induction a as [|x a IH]; cbn.
  - now rewrite (cut_after_last_absent c b Hb), Ascii.eqb_refl.
  - rewrite IH. destruct a; reflexivity.
Qed.

Lemma rev_append_char (s : string) (c : ascii) :
  rev (s ++ String c EmptyString) = String c (rev s).
Proof. induction s as [|x s IH]; cbn; [reflexivity | now rewrite IH]. Qed.

Lemma rev_involutive (s : string) : rev (rev s) = s.
Proof.
  induction s as [|x s IH]; cbn; [reflexivity|].
  now rewrite rev_append_char, IH.
Qed.



End PathFacts.

Section ReportFacts.
Import PyStr Report.




End ReportFacts.



(* ================================================================== *)
(** * Further properties of the extractors                             *)
(* ================================================================== *)

(** X1.  A coordinate pair that [safe_geo_parse] returns is a usable one,
    whatever the sidecar holds: the latitude is inside [-90, 90], the
    longitude inside [-180, 180], the two are not both below the epsilon,
    and nothing was logged. *)
Theorem geo_result_is_valid
  (load_json : string -> outcome json) (float_of_str : string -> outcome pyfloat)
  (json_path : string) (lat lon : pyfloat) (logged : list log_record) :
  Extractor.safe_geo_parse load_json float_of_str json_path
  = (Some (lat, lon), logged) ->
  in_range 90 lat /\ in_range 180 lon /\
  ~ (below_epsilon lat /\ below_epsilon lon) /\
  logged = [].
Proof.
  unfold Extractor.safe_geo_parse.
  destruct (data <- load_json json_path ;;
            Extractor.read_coordinates float_of_str data) as [[lat' lon']|e];
    [|discriminate].
  unfold Extractor.check_coordinates.
  destruct (fltb (fabs lat') Extractor.EPSILON && fltb (fabs lon') Extractor.EPSILON)
    eqn:Hsmall; [discriminate|].
  destruct (negb (Extractor.within 90 lat') || negb (Extractor.within 180 lon'))
    eqn:Hout; [discriminate|].
  intros H. injection H as <- <- <-.
  apply orb_false_iff in Hout as [Hlat Hlon].
  apply negb_false_iff in Hlat, Hlon.
  repeat split.
  - now apply in_range_iff.
  - now apply in_range_iff.
  - intros [H1 H2]. apply below_epsilon_iff in H1, H2.
    rewrite H1, H2 in Hsmall. discriminate.
Qed.

Lemma geo_result_is_valid_witness :
  in_range 90 (Finite (3123 # 100)) /\ in_range 180 (Finite (12147 # 100)) /\
  ~ (below_epsilon (Finite (3123 # 100)) /\ below_epsilon (Finite (12147 # 100))) /\
  @nil log_record = [].
Proof.
  apply (geo_result_is_valid (fun _ => Ret sidecar_full) sample_float_of_str
           "IMG_0001.jpg.supplemental-metadata.json").
  reflexivity.
Defined.

(** X2.  A sidecar that is an object without [geoData], or whose [geoData] is
    an object with neither [latitude] nor [longitude], has the default
    coordinates (0.0, 0.0): no coordinate is returned and nothing is
    logged.  A [geoData] that is not an object is a parse failure: no
    coordinate, and the warning with the [AttributeError] that names the
    member's type. *)
Theorem geo_missing_members
  (load_json : string -> outcome json) (float_of_str : string -> outcome pyfloat)
  (json_path : string) (members : list (string * json)) :
  load_json json_path = Ret (JObj members) ->
  (Json.lookup "geoData" members = None ->
   Extractor.safe_geo_parse load_json float_of_str json_path = (None, [])) /\
  (forall geo,
     Json.lookup "geoData" members = Some (JObj geo) ->
     Json.lookup "latitude" geo = None ->
     Json.lookup "longitude" geo = None ->
     Extractor.safe_geo_parse load_json float_of_str json_path = (None, [])) /\
  (forall geo,
     Json.lookup "geoData" members = Some geo ->
     (forall g, geo <> JObj g) ->
     Extractor.safe_geo_parse load_json float_of_str json_path
     = (None, [logging_warning
                 (GeoParseFailed json_path
                    (Exn AttributeError
                       ("'" ++ Json.type_name geo
                        ++ "' object has no attribute 'get'")))])).
Proof.
  intros Hload. unfold Extractor.safe_geo_parse, Extractor.read_coordinates.
  rewrite Hload. cbn [bind Json.get]. repeat split.
  - intros Hgeo. rewrite Hgeo. reflexivity.
  - intros geo Hgeo Hlat Hlon. rewrite Hgeo. cbn [bind Json.get].
    rewrite Hlat, Hlon. reflexivity.
  - intros geo Hgeo Hnot. rewrite Hgeo.
    destruct geo; try reflexivity. now destruct (Hnot members0).
Qed.

Lemma geo_missing_members_witness :
  Extractor.safe_geo_parse (fun _ => Ret sidecar_null_taken) sample_float_of_str
    "c.jpg.x.json" = (None, []).
Proof.
  apply (proj1 (geo_missing_members (fun _ => Ret sidecar_null_taken)
                  sample_float_of_str "c.jpg.x.json" _ eq_refl)).
  reflexivity.
Defined.

(* ================================================================== *)
(** * Further properties of the metadata writer                        *)
(* ================================================================== *)

(** Closes one case of the statement below, given the processes started. *)
Ltac writer_case started :=
  exists started; writer_simpl; rewrite <- ?app_assoc;
  split; [reflexivity|];
  split; [auto|];
  split;
  [ intros ?; congruence
  | let H := fresh in
    intros ? H; first [ congruence | injection H as <-; split; congruence ] ].

(** X3.  Whatever the external tool does, [robust_exiftool_exec] starts one,
    two or three processes, in this order: the command, the strip, the
    command again.  It reports success only after a run of the command
    (never right after the strip), and a failure always carries a message
    and comes after the strip was started. *)
Theorem writer_starts_at_most_three_processes
  (subprocess_run : list (list string) -> list string -> outcome Writer.completed_process)
  (cmd : Writer.ref) (file_path : string) (st : Writer.state) :
  let argv := Writer.list_insert 1 "-m" (Writer.lists st cmd) in
  let strip_cmd := Writer.clean_cmd file_path in
  let out := Writer.robust_exiftool_exec subprocess_run cmd file_path st in
  exists started,
    Writer.invocations (snd out) = (Writer.invocations st ++ started)%list /\
    (started = [argv] \/ started = [argv; strip_cmd] \/
     started = [argv; strip_cmd; argv]) /\
    (fst out = Ret (true, None) -> started <> [argv; strip_cmd]) /\
    (forall error, fst out = Ret (false, error) -> error <> None /\ started <> [argv]).
Proof.
  cbv zeta. writer_unfold. rewrite !store_set_same.
  set (argv := Writer.list_insert 1 "-m" (Writer.lists st cmd)).
  destruct (subprocess_run _ argv) as [result|e].
  - destruct (Writer.returncode result =? 0)%Z.
    + writer_case [argv].
    + writer_simpl.
      destruct (subprocess_run _ (Writer.clean_cmd file_path)) as [clean_result|e].
      * destruct (Writer.returncode clean_result =? 0)%Z; cbn [negb].
        -- writer_simpl.
           destruct (subprocess_run _ argv) as [retry_result|e];
             [destruct (Writer.returncode retry_result =? 0)%Z|];
             writer_case [argv; Writer.clean_cmd file_path; argv].
        -- writer_case [argv; Writer.clean_cmd file_path].
      * writer_case [argv; Writer.clean_cmd file_path].
  - writer_case [argv].
Qed.

(* ================================================================== *)
(** * The name pattern accepts exactly the standard names              *)
(* ================================================================== *)

Section StandardNames.
Import PyStr NameRe.

Lemma dots_append (a b : string) : dots (a ++ b) = dots a + dots b.
Proof. induction a as [|c a IH]; cbn; [reflexivity | rewrite IH; lia]. Qed.

Lemma dots_absent (s : string) : contains "."%char s = false -> dots s = 0.
Proof.
  induction s as [|c s IH]; cbn; [reflexivity|].
  intros H. apply orb_false_iff in H as [Hc Hs]. now rewrite Hc, (IH Hs).
Qed.

(** Lower-casing neither makes nor removes a dot. *)
Lemma lower_char_dot (c : ascii) :
  Ascii.eqb (lower_char c) "."%char = Ascii.eqb c "."%char.
Proof. destruct c as [[] [] [] [] [] [] [] []]; reflexivity. Qed.

Lemma dots_lower (s : string) : dots (lower s) = dots s.
Proof.
  induction s as [|c s IH]; cbn; [reflexivity|]. now rewrite lower_char_dot, IH.
Qed.

Lemma lower_head_dot (s t : string) :
  lower s = String "."%char t -> exists s', s = String "."%char s'.
Proof.
  destruct s as [|c s]; cbn; [discriminate|]. intros H. injection H as Hc _.
  exists s. f_equal. apply Ascii.eqb_eq. rewrite <- lower_char_dot, Hc.
  apply Ascii.eqb_refl.
Qed.

(** The ending [.json], with or without a final newline, starts with its
    only dot. *)
Lemma json_end_dots (j : string) :
  json_ending j \/
  (exists j0, j = j0 ++ String newline EmptyString /\ json_ending j0) ->
  dots j = 1 /\ exists j', j = String "."%char j'.
Proof.
  assert (Hone : forall j0 tail,
            json_ending j0 ->
            tail = EmptyString \/ tail = String newline EmptyString ->
            dots (j0 ++ tail) = 1 /\ exists j', j0 ++ tail = String "."%char j').
  { intros j0 tail [cj [co [cn [s [-> [Hcj [Hs [Hco Hcn]]]]]]]] Htail.
    split; [|eexists; reflexivity].
    destruct Hcj as [-> | ->], Hs as [-> | [-> | ->]], Hco as [-> | ->],
      Hcn as [-> | ->], Htail as [-> | ->]; reflexivity. }
  intros [H | [j0 [-> H]]].
  - rewrite <- (append_empty_r j). apply Hone; auto.
  - apply Hone; auto.
Qed.

Lemma cut_before_first_at (c : ascii) (a b : string) :
  contains c a = false ->
  cut_before_first c (a ++ String c b) = (a, String c b).
Proof.
  intros Ha. induction a as [|x a IH]; cbn.
  - now rewrite Ascii.eqb_refl.
  - cbn in Ha. apply orb_false_iff in Ha as [Hx Ha]. now rewrite Hx, (IH Ha).
Qed.

(** What stands after the core of a standard name matches the rest of the
    pattern and holds three dots, the first of them in front. *)
Lemma standard_name_rest (json_name core : string) :
  standard_name json_name core ->
  exists rest,
    json_name = core ++ String "."%char rest /\
    tail_match (String "."%char rest) = true /\
    dots (String "."%char rest) = 3 /\
    contains newline core = false.
Proof.
  intros [e1 [e2 [j [Hname [He1 [He2 [Hd1 [Hd2 [Hnl Hj]]]]]]]]].
  destruct (json_end_dots j Hj) as [Hdots [j' ->]].
  exists (e1 ++ String "."%char (e2 ++ String "."%char j')).
  split; [exact Hname|]. split; [|split; [|exact Hnl]].
  - unfold tail_match, span_nodot, dot. rewrite Ascii.eqb_refl. cbn [andb].
    rewrite (cut_before_first_at "."%char e1 _ Hd1).
    destruct e1 as [|c e1]; [contradiction|]. cbn [is_empty negb andb].
    rewrite (cut_before_first_at "."%char e2 _ Hd2).
    destruct e2 as [|c2 e2]; [contradiction|]. cbn [is_empty negb andb].
    now apply match_dot_json_end_complete.
  - cbn [dots]. rewrite Ascii.eqb_refl, dots_append. cbn [dots].
    rewrite Ascii.eqb_refl, dots_append, (dots_absent e1 Hd1), (dots_absent e2 Hd2).
    rewrite Hdots. reflexivity.
Qed.

(** Two ways to cut a string share the shorter first part. *)
Lemma append_eq_split (a b c d : string) :
  a ++ b = c ++ d ->
  exists x, (a = c ++ x /\ d = x ++ b) \/ (c = a ++ x /\ b = x ++ d).
Proof.
  revert c. induction a as [|y a IH]; intros c H.
  - exists c. right. auto.
  - destruct c as [|z c].
    + exists (String y a). left. auto.
    + cbn in H. injection H as -> H. destruct (IH c H) as [x [[-> ->] | [-> ->]]];
        exists x; [left | right]; auto.
Qed.

(** A name has at most one core. *)
Lemma standard_name_unique (json_name core core' : string) :
  standard_name json_name core -> standard_name json_name core' -> core = core'.
Proof.
  intros H H'.
  destruct (standard_name_rest _ _ H) as [r [Hn [_ [Hd _]]]].
  destruct (standard_name_rest _ _ H') as [r' [Hn' [_ [Hd' _]]]].
  rewrite Hn in Hn'.
  assert (Hshort : forall a b r1 r2,
            dots (String "."%char r1) = 3 -> dots (String "."%char r2) = 3 ->
            forall x, a = b ++ x -> String "."%char r2 = x ++ String "."%char r1 ->
            a = b).
  { intros a b r1 r2 H1 H2 x -> Hx.
    destruct x as [|c x]; [now rewrite append_empty_r|].
    exfalso. rewrite Hx in H2. cbn [append] in Hx. injection Hx as <- _.
    cbn [append dots] in H2. rewrite Ascii.eqb_refl, dots_append in H2. lia. }
  destruct (append_eq_split _ _ _ _ Hn') as [x [[Ha Hb] | [Ha Hb]]].
  - exact (Hshort core core' r r' Hd Hd' x Ha Hb).
  - symmetry. exact (Hshort core' core r' r Hd' Hd x Ha Hb).
Qed.

End StandardNames.

(** X4.  The pattern of [smart_file_matcher] matches a sidecar name exactly
    when the name is of the standard form, and its group is then the
    core: the name without its last three dot-separated segments. *)
Theorem base_pattern_iff_standard_name (json_name core : string) :
  NameRe.base_pattern json_name = Some core <-> standard_name json_name core.
Proof.
  split; [apply base_pattern_sound|].
  intros H. destruct (standard_name_rest _ _ H) as [rest [Hname [Htail [_ Hnl]]]].
  destruct (base_pattern_greedy core (String "."%char rest) Hnl Htail)
    as [core' [Hmatch _]].
  rewrite <- Hname in Hmatch. rewrite Hmatch. f_equal.
  apply (standard_name_unique json_name); [now apply base_pattern_sound | exact H].
Qed.

(* ================================================================== *)
(** * The matcher on a directory without glob characters in its path   *)
(* ================================================================== *)

Section PlainPaths.
Import PyStr.

Lemma all_char_append (c : ascii) (a b : string) :
  all_char c (a ++ b) = all_char c a && all_char c b.
Proof.
  induction a as [|x a IH]; cbn; [reflexivity|]. now rewrite IH, andb_assoc.
Qed.

Lemma all_char_rev (c : ascii) (s : string) : all_char c (rev s) = all_char c s.
Proof.
  induction s as [|x s IH]; cbn; [reflexivity|].
  rewrite all_char_append, IH. cbn. rewrite andb_true_r. apply andb_comm.
Qed.

(** A non-empty path that does not end with a slash ends with something
    else. *)
Lemma last_char_not_sep (d : string) :
  d <> EmptyString -> endswith d "/" = false ->
  exists x r, rev d = String x r /\ Ascii.eqb x "/"%char = false.
Proof.
  intros Hne Hend. unfold endswith in Hend. cbn [rev append] in Hend.
  destruct (rev d) as [|x r] eqn:Hrev.
  - exfalso. apply Hne. rewrite <- (rev_involutive d), Hrev. reflexivity.
  - exists x, r. split; [reflexivity|]. cbn [String.prefix] in Hend.
    destruct (ascii_dec "/" x) as [<-|Hx].
    + destruct r; discriminate.
    + apply Ascii.eqb_neq. congruence.
Qed.

Lemma join_plain (d e : string) :
  d <> EmptyString -> endswith d "/" = false -> contains "/"%char e = false ->
  OsPath.join d e = d ++ String "/"%char e.
Proof.
  intros Hne Hend He. unfold OsPath.join.
  assert (Hstart : startswith e "/" = false).
  { destruct e as [|x e]; [reflexivity|]. cbn [contains] in He.
    apply orb_false_iff in He as [Hx _].
    unfold startswith. cbn [String.prefix].
    destruct (ascii_dec "/" x) as [<-|]; [discriminate | reflexivity]. }
  rewrite Hstart, Hend.
  destruct d; [contradiction | reflexivity].
Qed.

Lemma split_plain (d e : string) :
  d <> EmptyString -> endswith d "/" = false -> contains "/"%char e = false ->
  OsPath.split (d ++ String "/"%char e) = (d, e).
Proof.
  intros Hne Hend He. unfold OsPath.split, OsPath.sep.
  rewrite (cut_after_last_at "/"%char d e He).
  destruct (last_char_not_sep d Hne Hend) as [x [r [Hrev Hx]]].
  assert (Hall : all_char "/"%char (d ++ String "/"%char EmptyString) = false).
  { rewrite all_char_append, <- (all_char_rev _ d), Hrev. cbn. now rewrite Hx. }
  assert (Hempty : is_empty (d ++ String "/"%char EmptyString) = false)
    by (destruct d; [contradiction | reflexivity]).
  rewrite Hall, Hempty. cbn [negb andb].
  f_equal. unfold rstrip_char. rewrite rev_append_char. cbn [lstrip_char].
  rewrite Ascii.eqb_refl, Hrev. cbn [lstrip_char]. rewrite Hx.
  now rewrite <- Hrev, rev_involutive.
Qed.

End PlainPaths.

Section EscapedGlob.
Import PyStr Glob.

Lemma has_magic_append (a b : string) :
  has_magic (a ++ b) = has_magic a || has_magic b.
Proof.
  induction a as [|x a IH]; cbn; [reflexivity|]. now rewrite IH, orb_assoc.
Qed.

Lemma escape_plain (p : string) : has_magic p = false -> escape p = p.
Proof.
  induction p as [|c p IH]; cbn; [reflexivity|].
  intros H. apply orb_false_iff in H as [Hc Hp]. now rewrite Hc, (IH Hp).
Qed.

Lemma has_magic_escape (p : string) : has_magic (escape p) = has_magic p.
Proof.
  induction p as [|c p IH]; cbn; [reflexivity|].
  destruct (is_magic c) eqn:Hc; cbn; [reflexivity|]. now rewrite Hc, IH.
Qed.

Lemma contains_sep_escape (p : string) :
  contains "/"%char (escape p) = contains "/"%char p.
Proof.
  induction p as [|c p IH]; cbn; [reflexivity|].
  destruct (is_magic c) eqn:Hc; cbn; rewrite IH; [|reflexivity].
  destruct (is_magic_cases c Hc) as [->|[->| ->]]; reflexivity.
Qed.

Lemma prefix_empty (s : string) : String.prefix EmptyString s = true.
Proof. destruct s; reflexivity. Qed.

Lemma ishidden_escape (p : string) : ishidden (escape p) = ishidden p.
Proof.
  destruct p as [|c p]; [reflexivity|]. cbn [escape].
  destruct (is_magic c) eqn:Hc.
  - destruct (is_magic_cases c Hc) as [->|[->| ->]]; reflexivity.
  - unfold ishidden, startswith. cbn [String.prefix].
    destruct (ascii_dec "." c); [now rewrite !prefix_empty | reflexivity].
Qed.

(** The first accepted path among copies of one path. *)
Lemma find_all_equal (f : string -> bool) (g : string -> string)
  (l : list string) (p : string) :
  (forall x, In x l -> x = p) ->
  find f (map g l)
  = if (match l with [] => false | _ => true end) && f (g p)
    then Some (g p) else None.
Proof.
  induction l as [|x l IH]; intros Hall; [reflexivity|].
  cbn [map find]. rewrite (Hall x (or_introl eq_refl)). cbn [andb].
  rewrite IH by (intros y Hy; apply Hall; now right).
  destruct (f (g p)); [reflexivity|]. now rewrite andb_false_r.
Qed.

(** The names an escaped pattern selects from a listing: the copies of the
    pattern's own text. *)
Lemma escaped_selection (names : list string) (p : string) :
  let chosen :=
    fnmatch_filter
      (if ishidden (escape p) then names
       else filter (fun n => negb (ishidden n)) names)
      (escape p) in
  (forall x, In x chosen -> x = p) /\
  (match chosen with [] => false | _ => true end) = existsb (String.eqb p) names.
Proof.
  cbv zeta. unfold fnmatch_filter. rewrite ishidden_escape.
  set (keep := if ishidden p then names else filter (fun n => negb (ishidden n)) names).
  assert (Hin : forall x, In x (filter (fun name => fnmatch name (escape p)) keep)
                          <-> x = p /\ In p names).
  { intros x. rewrite filter_In, fnmatch_escape. unfold keep.
    destruct (ishidden p) eqn:Hh.
    - split; [intros [H ->]; auto | intros [-> H]; auto].
    - rewrite filter_In. split.
      + intros [[H _] ->]. auto.
      + intros [-> H]. rewrite Hh. auto. }
  split.
  - intros x Hx. now apply Hin in Hx.
  - destruct (existsb (String.eqb p) names) eqn:Hex.
    + apply existsb_exists in Hex as [y [Hy Heq]]. apply String.eqb_eq in Heq.
      subst y. assert (Hp : In p (filter (fun name => fnmatch name (escape p)) keep))
        by (apply Hin; auto).
      destruct (filter _ keep); [contradiction | reflexivity].
    + assert (Hnone : forall x,
                ~ In x (filter (fun name => fnmatch name (escape p)) keep)).
      { intros x Hx. apply Hin in Hx as [_ Hp].
        assert (Hex' : existsb (String.eqb p) names = true)
          by (apply existsb_exists; exists p; split;
              [exact Hp | apply String.eqb_refl]).
        congruence. }
      destruct (filter (fun name => fnmatch name (escape p)) keep) as [|x l];
        [reflexivity|].
      exfalso. apply (Hnone x). now left.
Qed.

End EscapedGlob.

Section PlainDirectory.
Import PyStr Glob Matcher.

(** The extension of [d/p] is the extension of [p]. *)
Lemma ext_plain (d p : string) :
  contains "/"%char p = false ->
  snd (OsPath.splitext (d ++ String "/"%char p)) = snd (OsPath.splitext p).
Proof.
  intros Hp. unfold OsPath.splitext, OsPath.sep.
  rewrite (cut_after_last_at "/"%char d p Hp), (cut_after_last_absent "/"%char p Hp).
  destruct (cut_after_last OsPath.extsep p) as [stem_dot after].
  destruct (rev stem_dot) as [|x rstem]; [reflexivity|].
  destruct (all_char OsPath.extsep rstem); reflexivity.
Qed.

(** A path whose last component has no extension is not accepted. *)
Lemma accepted_needs_extension (d p : string) :
  contains "/"%char p = false ->
  snd (OsPath.splitext p) = EmptyString ->
  accepted (d ++ String "/"%char p) = false.
Proof.
  intros Hp Hext. unfold accepted. now rewrite (ext_plain d p Hp), Hext.
Qed.

Variable listdir : string -> option (list string).
Variable d : string.
Variable names : list string.

Hypothesis Hlist : listdir d = Some names.
Hypothesis Hne : d <> EmptyString.
Hypothesis Hend : endswith d "/" = false.
Hypothesis Hplain : has_magic d = false.

Lemma curdir_or_plain : curdir_or d = d.
Proof. unfold curdir_or. destruct d; [contradiction | reflexivity]. Qed.

(** What the candidates of one escaped pattern contribute. *)
Lemma find_accepted_escaped (p : string) :
  contains "/"%char p = false ->
  find accepted (glob listdir (OsPath.join d (escape p))) = literal_hit d names p.
Proof.
  intros Hp. unfold literal_hit.
  assert (He : contains "/"%char (escape p) = false)
    by now rewrite contains_sep_escape.
  rewrite (join_plain d (escape p) Hne Hend He), (join_plain d p Hne Hend Hp).
  unfold glob. cbn [iglob].
  rewrite (split_plain d (escape p) Hne Hend He).
  rewrite has_magic_append, Hplain. cbn [orb has_magic].
  change (is_magic "/"%char) with false. cbn [orb]. rewrite has_magic_escape.
  destruct (has_magic p) eqn:Hm; cbn [negb].
  - (* the pattern holds a magic character: the listing is filtered *)
    assert (Hd : is_empty d = false) by (destruct d; [contradiction | reflexivity]).
    rewrite Hd, andb_false_r. cbn [flat_map]. rewrite app_nil_r.
    unfold glob1. rewrite curdir_or_plain, Hlist.
    destruct (escaped_selection names p) as [Hall Hsome]. cbv zeta in Hall, Hsome.
    rewrite (find_all_equal accepted (OsPath.join d) _ p Hall), Hsome.
    now rewrite (join_plain d p Hne Hend Hp).
  - (* no magic character: the path is looked up as it is *)
    rewrite (escape_plain p Hm).
    destruct p as [|c p'] eqn:Hpeq; cbn [is_empty negb].
    + unfold isdir. rewrite curdir_or_plain, Hlist. cbn [find].
      rewrite (accepted_needs_extension d EmptyString eq_refl eq_refl).
      now rewrite andb_false_r.
    + rewrite <- Hpeq in *. unfold lexists.
      rewrite (split_plain d p Hne Hend Hp), curdir_or_plain, Hlist.
      destruct (existsb (String.eqb p) names) eqn:Hex; cbn [orb andb].
      * cbn [find]. now destruct (accepted (d ++ String "/"%char p)).
      * destruct (String.eqb_spec p ".") as [Hdot|_]; cbn [orb].
        { cbn [find]. now rewrite (accepted_needs_extension d p Hp)
            by (rewrite Hdot; reflexivity). }
        destruct (String.eqb_spec p "..") as [Hdots|_]; [|reflexivity].
        cbn [find]. now rewrite (accepted_needs_extension d p Hp)
          by (rewrite Hdots; reflexivity).
Qed.

End PlainDirectory.

Section PatternFacts.
Import PyStr.

Lemma cut_before_first_head (c x : ascii) (s : string) :
  contains x s = false -> contains x (fst (cut_before_first c s)) = false.
Proof.
  induction s as [|y s IH]; cbn; [reflexivity|].
  intros H. apply orb_false_iff in H as [Hy Hs].
  destruct (Ascii.eqb y c); [reflexivity|].
  specialize (IH Hs). destruct (cut_before_first c s) as [h t].
  cbn in *. now rewrite Hy, IH.
Qed.

(** The three patterns of a core without a slash hold no slash. *)
Lemma patterns_plain (core pattern : string) :
  contains "/"%char core = false ->
  In pattern (Matcher.patterns core) -> contains "/"%char pattern = false.
Proof.
  intros Hcore [<- | [<- | [<- | []]]].
  - exact Hcore.
  - now rewrite contains_append, Hcore.
  - rewrite contains_append. unfold Matcher.first_segment.
    now rewrite (cut_before_first_head "."%char "/"%char core Hcore).
Qed.

End PatternFacts.

(** X5.  In a directory whose path holds no glob character (and does not end
    with a slash), [smart_file_matcher] looks for three file names taken
    literally, in this order: the core, the core followed by [.*], and the
    core's first dot-segment followed by [*].  It returns the first of
    them that is an entry of the directory and passes the extension test,
    and logs nothing.  No other entry of the directory is ever returned. *)
Theorem matcher_looks_for_three_literal_names
  (listdir : string -> option (list string)) (directory : string)
  (names : list string) (json_name core : string) :
  listdir directory = Some names ->
  directory <> EmptyString ->
  PyStr.endswith directory "/" = false ->
  Glob.has_magic directory = false ->
  NameRe.base_pattern json_name = Some core ->
  PyStr.contains "/"%char core = false ->
  Matcher.smart_file_matcher_fs listdir json_name directory
  = (first_hit (map (literal_hit directory names) (Matcher.patterns core)), []).
Proof.
  intros Hlist Hne Hend Hplain Hcore Hsep.
  unfold Matcher.smart_file_matcher_fs, Matcher.smart_file_matcher.
  rewrite Hcore. f_equal.
  pose proof (patterns_plain core) as Hpats.
  induction (Matcher.patterns core) as [|p ps IH]; [reflexivity|].
  cbn [Matcher.match_patterns map first_hit].
  rewrite (find_accepted_escaped listdir directory names Hlist Hne Hend Hplain p)
    by (apply Hpats; [exact Hsep | now left]).
  destruct (literal_hit directory names p); [reflexivity|].
  apply IH. intros q Hc Hq. apply Hpats; [exact Hc | now right].
Qed.

Lemma matcher_looks_for_three_literal_names_witness :
  Matcher.smart_file_matcher_fs
    (Matcher.single_dir "/photos" ["trip.jpg"; "trip.mp4"; "trip.mp4.a.b.json"])
    "trip.mp4.a.b.json" "/photos"
  = (Some "/photos/trip.mp4", []).
Proof.
  apply (matcher_looks_for_three_literal_names
           (Matcher.single_dir "/photos" ["trip.jpg"; "trip.mp4"; "trip.mp4.a.b.json"])
           "/photos" ["trip.jpg"; "trip.mp4"; "trip.mp4.a.b.json"]
           "trip.mp4.a.b.json" "trip.mp4");
    (reflexivity || discriminate).
Defined.

(* ================================================================== *)
(** * Properties of the directory walker                               *)
(* ================================================================== *)

Section WalkerFacts.
Import Walker.

Variable os_walk : string -> list (string * list string).
Variable glob_glob : string -> list string.
Variable load_json : string -> outcome json.
Variable strptime_timestamp : string -> outcome Z.
Variable float_of_str : string -> outcome pyfloat.
Variable float_str : pyfloat -> string.
Variable subprocess_run : list (list string) -> list string -> outcome Writer.completed_process.

(** The walker's functions in this environment. *)
#[local] Abbreviation file_step :=
  (process_file glob_glob load_json strptime_timestamp float_of_str float_str
     subprocess_run).
#[local] Abbreviation files_loop :=
  (process_files glob_glob load_json strptime_timestamp float_of_str float_str
     subprocess_run).
#[local] Abbreviation dirs_loop :=
  (process_dirs glob_glob load_json strptime_timestamp float_of_str float_str
     subprocess_run).

(** One file that is passed without an exception adds one to the account
    when it is a sidecar, and nothing otherwise. *)
Lemma process_file_accounts (root file : string) (ws ws' : walk_state) :
  file_step root file ws = (None, ws') ->
  accounted ws' = accounted ws + (if is_sidecar file then 1 else 0).
Proof.
  unfold process_file, is_sidecar, accounted.
  destruct (PyStr.endswith (PyStr.lower file) ".json"); cbn [negb].
  - destruct (Matcher.smart_file_matcher glob_glob file root) as [media recs].
    destruct (truthy_str media); cbn [negb].
    + destruct (Extractor.enhanced_parse_time _ _ _) as [time_data recs1].
      destruct (Extractor.safe_geo_parse _ _ _) as [geo_data recs2].
      destruct (negb (truthy_str time_data) && negb _).
      * intros H. injection H as <-. cbn. rewrite length_app. cbn. lia.
      * destruct (Writer.robust_exiftool_exec _ _ _ _) as [[[success error]|e] st];
          [|discriminate].
        destruct success; cbn [negb]; intros H; injection H as <-; cbn;
          rewrite ?length_app; cbn; lia.
    + intros H. injection H as <-. cbn. rewrite length_app. cbn. lia.
  - intros H. injection H as <-. lia.
Qed.

Lemma process_files_accounts (root : string) (files : list string) :
  forall ws ws',
    files_loop root files ws = (None, ws') ->
    accounted ws' = accounted ws + length (filter is_sidecar files).
Proof.
  induction files as [|file rest IH]; intros ws ws'; cbn [process_files filter].
  - intros H. injection H as <-. cbn. lia.
  - destruct (file_step root file ws) as [[e|] ws1] eqn:Hstep; [discriminate|].
    intros Hrest. rewrite (IH _ _ Hrest), (process_file_accounts _ _ _ _ Hstep).
    destruct (is_sidecar file); cbn [length]; lia.
Qed.

Lemma process_dirs_accounts (walk : list (string * list string)) :
  forall ws ws',
    dirs_loop walk ws = (None, ws') ->
    accounted ws' = accounted ws + count_sidecars walk.
Proof.
  induction walk as [|[root files] rest IH]; intros ws ws';
    cbn [process_dirs count_sidecars].
  - intros H. injection H as <-. lia.
  - destruct (files_loop root files ws) as [[e|] ws1] eqn:Hfiles; [discriminate|].
    intros Hrest. rewrite (IH _ _ Hrest), (process_files_accounts _ _ _ _ Hfiles).
    lia.
Qed.

End WalkerFacts.

(** X6.  When [process_directory] returns, every sidecar of the walk has been
    counted exactly once, as a success or with an entry in the list of
    failures it returns; files that are no sidecars are not counted. *)
Theorem every_sidecar_is_accounted_for
  (os_walk : string -> list (string * list string))
  (glob_glob : string -> list string) (load_json : string -> outcome json)
  (strptime_timestamp : string -> outcome Z)
  (float_of_str : string -> outcome pyfloat) (float_str : pyfloat -> string)
  (subprocess_run : list (list string) -> list string -> outcome Writer.completed_process)
  (root_dir : string) (world : Writer.state) (fresh : Writer.ref)
  (failures : list (string * string)) (ws : Walker.walk_state) :
  Walker.process_directory os_walk glob_glob load_json strptime_timestamp
    float_of_str float_str subprocess_run root_dir world fresh
  = (Ret failures, ws) ->
  Walker.processed_count ws + length failures = count_sidecars (os_walk root_dir).
Proof.
  unfold Walker.process_directory.
  destruct (Walker.process_dirs _ _ _ _ _ _ _ _) as [[e|] ws1] eqn:Hwalk;
    [discriminate|].
  intros H. injection H as <- <-.
  apply process_dirs_accounts in Hwalk. unfold accounted in Hwalk.
  cbn in *. lia.
Qed.

Lemma every_sidecar_is_accounted_for_witness :
  1 + length [("/photos/lost.jpg.a.b.json", "未找到对应媒体文件")]
  = count_sidecars (sample_walk "/photos").
Proof.
  refine (every_sidecar_is_accounted_for sample_walk sample_glob
            (fun _ => Ret sidecar_full) sample_strptime sample_float_of_str
            sample_float_str always_succeeds "/photos" empty_world 0
            [("/photos/lost.jpg.a.b.json", "未找到对应媒体文件")]
            (snd (Walker.process_directory sample_walk sample_glob
                    (fun _ => Ret sidecar_full) sample_strptime sample_float_of_str
                    sample_float_str always_succeeds "/photos" empty_world 0))
            _).
  vm_compute. reflexivity.
Defined.

(** Every process of a list given in full is one of the two commands. *)
Ltac started_ok := repeat (apply Forall_cons; [auto|]); apply Forall_nil.

Section WalkerInvocations.
Import Walker.

Variable os_walk : string -> list (string * list string).
Variable glob_glob : string -> list string.
Variable load_json : string -> outcome json.
Variable strptime_timestamp : string -> outcome Z.
Variable float_of_str : string -> outcome pyfloat.
Variable float_str : pyfloat -> string.
Variable subprocess_run : list (list string) -> list string -> outcome Writer.completed_process.

(** The processes the writer starts are runs of the command with the flag
    and of the strip command. *)
Lemma writer_invocations (cmd : Writer.ref) (file_path : string) (st : Writer.state) :
  exists started,
    Writer.invocations (snd (Writer.robust_exiftool_exec subprocess_run cmd file_path st))
    = (Writer.invocations st ++ started)%list /\
    Forall (fun argv => argv = Writer.list_insert 1 "-m" (Writer.lists st cmd) \/
                        argv = Writer.clean_cmd file_path) started.
Proof.
  writer_unfold. rewrite !store_set_same.
  set (argv := Writer.list_insert 1 "-m" (Writer.lists st cmd)).
  destruct (subprocess_run _ argv) as [result|e].
  - destruct (Writer.returncode result =? 0)%Z.
    + exists [argv]. split; [reflexivity | started_ok].
    + writer_simpl.
      destruct (subprocess_run _ (Writer.clean_cmd file_path)) as [clean_result|e].
      * destruct (Writer.returncode clean_result =? 0)%Z; cbn [negb].
        -- writer_simpl.
           destruct (subprocess_run _ argv) as [retry_result|e];
             [destruct (Writer.returncode retry_result =? 0)%Z|];
             exists [argv; Writer.clean_cmd file_path; argv]; writer_simpl;
             rewrite <- !app_assoc; (split; [reflexivity|]);
             started_ok.
        -- exists [argv; Writer.clean_cmd file_path]. writer_simpl.
           rewrite <- !app_assoc. split; [reflexivity|]. started_ok.
      * exists [argv; Writer.clean_cmd file_path]. writer_simpl.
        rewrite <- !app_assoc. split; [reflexivity|]. started_ok.
  - exists [argv]. split; [reflexivity | started_ok].
Qed.

(** The command built for a media file: the tool, in-place overwriting,
    more options, and the media file last. *)
Lemma build_exif_cmd_shape (time_data : option string)
  (geo_data : option (pyfloat * pyfloat)) (media_file : string) :
  exists options,
    build_exif_cmd float_str time_data geo_data media_file
    = "exiftool" :: "-overwrite_original" :: (options ++ [media_file])%list.
Proof.
  unfold build_exif_cmd.
  set (base := ["exiftool"; "-overwrite_original"; "-charset"; "filename=utf8"]).
  assert (Hshape : forall extra,
            exists options,
              ((base ++ extra) ++ [media_file])%list
              = "exiftool" :: "-overwrite_original" :: (options ++ [media_file])%list).
  { intros extra. exists ("-charset" :: "filename=utf8" :: extra). reflexivity. }
  destruct time_data as [t|]; [destruct (negb (PyStr.is_empty t))|];
    destruct geo_data as [[lat lon]|]; cbv zeta;
    try (rewrite <- app_assoc; apply Hshape);
    try apply Hshape;
    try (rewrite <- (app_nil_r base); apply Hshape).
Qed.

(** A path the matcher returns passes the extension test. *)
Lemma matcher_result_accepted (json_name directory path : string)
  (recs : list log_record) :
  Matcher.smart_file_matcher glob_glob json_name directory = (Some path, recs) ->
  Matcher.accepted path = true.
Proof.
  unfold Matcher.smart_file_matcher.
  destruct (NameRe.base_pattern json_name) as [core|]; [|discriminate].
  intros H.
  assert (Hm : Matcher.match_patterns glob_glob directory (Matcher.patterns core)
               = Some path) by congruence.
  now apply match_patterns_sound in Hm.
Qed.

#[local] Abbreviation file_step :=
  (process_file glob_glob load_json strptime_timestamp float_of_str float_str
     subprocess_run).
#[local] Abbreviation files_loop :=
  (process_files glob_glob load_json strptime_timestamp float_of_str float_str
     subprocess_run).
#[local] Abbreviation dirs_loop :=
  (process_dirs glob_glob load_json strptime_timestamp float_of_str float_str
     subprocess_run).

(** The processes started while one file is handled. *)
Lemma process_file_invocations (root file : string) (ws : walk_state) :
  exists started,
    Writer.invocations (writer (snd (file_step root file ws)))
    = (Writer.invocations (writer ws) ++ started)%list /\
    Forall tool_invocation started.
Proof.
  assert (Hnone : forall ws' : walk_state,
            Writer.invocations (writer ws') = Writer.invocations (writer ws) ->
            exists started,
              Writer.invocations (writer ws')
              = (Writer.invocations (writer ws) ++ started)%list /\
              Forall tool_invocation started).
  { intros ws' Heq. exists []. rewrite Heq, app_nil_r. auto. }
  unfold process_file.
  destruct (PyStr.endswith (PyStr.lower file) ".json"); cbn [negb];
    [|apply Hnone; reflexivity].
  destruct (Matcher.smart_file_matcher glob_glob file root) as [media recs] eqn:Hmatch.
  destruct media as [media_file|]; cbn [truthy_str negb];
    [|apply Hnone; reflexivity].
  destruct (PyStr.is_empty media_file); cbn [negb]; [apply Hnone; reflexivity|].
  destruct (Extractor.enhanced_parse_time _ _ _) as [time_data recs1].
  destruct (Extractor.safe_geo_parse _ _ _) as [geo_data recs2].
  destruct (negb (truthy_str time_data) && negb _); [apply Hnone; reflexivity|].
  match goal with
  | |- context [Writer.robust_exiftool_exec ?run ?cmd ?path ?st] =>
      destruct (writer_invocations cmd path st) as [started [Hinv Hall]];
      destruct (Writer.robust_exiftool_exec run cmd path st) as [result st'] eqn:Hexec
  end.
  cbn [snd Writer.lists Writer.invocations] in Hinv, Hall.
  rewrite store_set_same in Hall.
  assert (Hstarted : Forall tool_invocation started).
  { apply Forall_impl with (2 := Hall). intros argv [-> | ->].
    - destruct (build_exif_cmd_shape time_data geo_data media_file) as [options ->].
      exists options, media_file. split; [reflexivity|].
      exact (matcher_result_accepted _ _ _ _ Hmatch).
    - exists ["-all="], media_file. split; [reflexivity|].
      exact (matcher_result_accepted _ _ _ _ Hmatch). }
  exists started. split; [|exact Hstarted].
  destruct result as [[success error]|e]; [destruct success|]; cbn; exact Hinv.
Qed.

Lemma process_files_invocations (root : string) (files : list string) :
  forall ws,
  exists started,
    Writer.invocations (writer (snd (files_loop root files ws)))
    = (Writer.invocations (writer ws) ++ started)%list /\
    Forall tool_invocation started.
Proof.
  induction files as [|file rest IH]; intros ws; cbn [process_files].
  - exists []. rewrite app_nil_r. auto.
  - destruct (process_file_invocations root file ws) as [s1 [H1 F1]].
    destruct (file_step root file ws) as [[e|] ws1]; cbn [snd] in *.
    + exists s1. auto.
    + destruct (IH ws1) as [s2 [H2 F2]]. exists (s1 ++ s2)%list.
      rewrite H2, H1, app_assoc. split; [reflexivity|]. now apply Forall_app.
Qed.

Lemma process_dirs_invocations (walk : list (string * list string)) :
  forall ws,
  exists started,
    Writer.invocations (writer (snd (dirs_loop walk ws)))
    = (Writer.invocations (writer ws) ++ started)%list /\
    Forall tool_invocation started.
Proof.
  induction walk as [|[root files] rest IH]; intros ws; cbn [process_dirs].
  - exists []. rewrite app_nil_r. auto.
  - destruct (process_files_invocations root files ws) as [s1 [H1 F1]].
    destruct (files_loop root files ws) as [[e|] ws1]; cbn [snd] in *.
    + exists s1. auto.
    + destruct (IH ws1) as [s2 [H2 F2]]. exists (s1 ++ s2)%list.
      rewrite H2, H1, app_assoc. split; [reflexivity|]. now apply Forall_app.
Qed.

End WalkerInvocations.

(** X7.  Whatever the tree holds and whatever the tool answers, every process
    [process_directory] starts is the metadata tool with [-m] and
    [-overwrite_original] as its first options and, as its last argument,
    a file the matcher selected (so a file with a whitelisted extension
    that is no sidecar).  This holds for the run that ends with an
    exception too. *)
Theorem walker_starts_only_tool_invocations
  (os_walk : string -> list (string * list string))
  (glob_glob : string -> list string) (load_json : string -> outcome json)
  (strptime_timestamp : string -> outcome Z)
  (float_of_str : string -> outcome pyfloat) (float_str : pyfloat -> string)
  (subprocess_run : list (list string) -> list string -> outcome Writer.completed_process)
  (root_dir : string) (world : Writer.state) (fresh : Writer.ref) :
  exists started,
    Writer.invocations
      (Walker.writer
         (snd (Walker.process_directory os_walk glob_glob load_json
                 strptime_timestamp float_of_str float_str subprocess_run
                 root_dir world fresh)))
    = (Writer.invocations world ++ started)%list /\
    Forall tool_invocation started.
Proof.
  unfold Walker.process_directory.
  destruct (process_dirs_invocations glob_glob load_json strptime_timestamp
              float_of_str float_str subprocess_run (os_walk root_dir)
              (Walker.WalkState world fresh [] 0)) as [started [Hinv Hall]].
  exists started. split; [|exact Hall].
  destruct (Walker.process_dirs _ _ _ _ _ _ _ _) as [[e|] ws]; exact Hinv.
Qed.

(* ================================================================== *)
(** * Properties of the geo arguments                                  *)
(* ================================================================== *)

(** X8.  For a [.gif] target (in any letter case) the geo arguments record
    absolute values only: coordinates that differ only in sign give the
    same arguments.  For every other target the arguments tell the signs
    apart: equal arguments mean that the latitudes are on the same side
    of zero, and the longitudes too. *)
Theorem geo_params_record_the_sign_unless_gif
  (float_str : pyfloat -> string) (lat lon lat' lon' : pyfloat) (ext : string) :
  fabs lat = fabs lat' -> fabs lon = fabs lon' ->
  (PyStr.lower ext = ".gif" ->
   GeoParams.build_geo_params float_str lat lon ext
   = GeoParams.build_geo_params float_str lat' lon' ext) /\
  (PyStr.lower ext <> ".gif" ->
   (GeoParams.build_geo_params float_str lat lon ext
    = GeoParams.build_geo_params float_str lat' lon' ext
    <-> fleb (float_of_int 0) lat = fleb (float_of_int 0) lat' /\
        fleb (float_of_int 0) lon = fleb (float_of_int 0) lon')).
Proof.
  intros Hlat Hlon. unfold GeoParams.build_geo_params. rewrite Hlat, Hlon. split.
  - intros ->. reflexivity.
  - intros Hext. apply String.eqb_neq in Hext. rewrite Hext. cbn [negb app]. split.
    + intros H.
      destruct (fleb (float_of_int 0) lat), (fleb (float_of_int 0) lat'),
        (fleb (float_of_int 0) lon), (fleb (float_of_int 0) lon');
        first [ split; reflexivity
              | exfalso; injection H as Hns Hew;
                first [ discriminate Hns | discriminate Hew ] ].
    + intros [-> ->]. reflexivity.
Qed.

Lemma geo_params_record_the_sign_unless_gif_witness :
  GeoParams.build_geo_params sample_float_str
    (Finite (- 3123 # 100)) (Finite (12147 # 100)) ".GIF"
  = GeoParams.build_geo_params sample_float_str
      (Finite (3123 # 100)) (Finite (- 12147 # 100)) ".GIF".
Proof.
  apply (proj1 (geo_params_record_the_sign_unless_gif sample_float_str
                  (Finite (- 3123 # 100)) (Finite (12147 # 100))
                  (Finite (3123 # 100)) (Finite (- 12147 # 100)) ".GIF"
                  eq_refl eq_refl)).
  reflexivity.
Defined.

(* ================================================================== *)
(** * The time extractor: result and log                               *)
(* ================================================================== *)

Section ParseTimeLog.
Import PyStr.

Lemma is_empty_append (a b : string) : is_empty (a ++ b) = is_empty a && is_empty b.
Proof. destruct a; reflexivity. Qed.

(** A formatted time is never the empty string. *)
Lemma strftime_not_empty (dt : Calendar.datetime) : is_empty (Calendar.strftime dt) = false.
Proof.
  unfold Calendar.strftime. rewrite is_empty_append.
  apply andb_false_intro2. reflexivity.
Qed.

End ParseTimeLog.

(** X9.  [enhanced_parse_time] logs exactly when it has no time to return.  A
    time it returns is a string that is not empty, so that the walker's
    truth test on it only tells [None] apart, and nothing is logged with
    it.  Without a time there is exactly one record, and it goes to the
    root logger, not to the logger of the run: the warning that no source
    was found, or the error that names the exception. *)
Theorem parse_time_logs_exactly_when_no_time
  (load_json : string -> outcome json) (strptime_timestamp : string -> outcome Z)
  (json_path : string) :
  match Extractor.enhanced_parse_time load_json strptime_timestamp json_path with
  | (Some time_data, records) =>
      records = [] /\ Walker.truthy_str (Some time_data) = true
  | (None, records) =>
      records = [LogRecord RootLogger WARNING (NoTimeSource json_path)] \/
      exists e, records = [LogRecord RootLogger ERROR (TimeParseFailed json_path e)]
  end.
Proof.
  unfold Extractor.enhanced_parse_time.
  destruct (load_json json_path) as [data|e]; [|right; exists e; reflexivity].
  destruct (Extractor.scan strptime_timestamp data Extractor.time_sources)
    as [main_key sub_key timestamp| |e];
    [|left; reflexivity|right; exists e; reflexivity].
  destruct (timestamp =? 0)%Z; [left; reflexivity|].
  unfold Extractor.beijing_time.
  destruct (Calendar.utcfromtimestamp timestamp) as [dt|e]; cbn [bind];
    [|right; exists e; reflexivity].
  destruct (Calendar.add_hours dt 8) as [bt|e]; cbn [bind];
    [|right; exists e; reflexivity].
  split; [reflexivity|].
  unfold Walker.truthy_str. now rewrite strftime_not_empty.
Qed.

(* ================================================================== *)
(** * The walker: processes and successes                              *)
(* ================================================================== *)

Section WalkerBudget.
Import Walker.

Variable os_walk : string -> list (string * list string).
Variable glob_glob : string -> list string.
Variable load_json : string -> outcome json.
Variable strptime_timestamp : string -> outcome Z.
Variable float_of_str : string -> outcome pyfloat.
Variable float_str : pyfloat -> string.
Variable subprocess_run : list (list string) -> list string -> outcome Writer.completed_process.

#[local] Abbreviation file_step :=
  (process_file glob_glob load_json strptime_timestamp float_of_str float_str
     subprocess_run).
#[local] Abbreviation files_loop :=
  (process_files glob_glob load_json strptime_timestamp float_of_str float_str
     subprocess_run).
#[local] Abbreviation dirs_loop :=
  (process_dirs glob_glob load_json strptime_timestamp float_of_str float_str
     subprocess_run).

(** The writer starts between one and three processes. *)
Lemma writer_process_count (cmd : Writer.ref) (file_path : string) (st : Writer.state) :
  let st' := snd (Writer.robust_exiftool_exec subprocess_run cmd file_path st) in
  length (Writer.invocations st) + 1 <= length (Writer.invocations st') /\
  length (Writer.invocations st') <= length (Writer.invocations st) + 3.
Proof.
  cbv zeta. writer_unfold. rewrite !store_set_same.
  set (argv := Writer.list_insert 1 "-m" (Writer.lists st cmd)).
  destruct (subprocess_run _ argv) as [result|e].
  - destruct (Writer.returncode result =? 0)%Z.
    + writer_simpl. rewrite ?length_app. cbn [length]. lia.
    + writer_simpl.
      destruct (subprocess_run _ (Writer.clean_cmd file_path)) as [clean_result|e].
      * destruct (Writer.returncode clean_result =? 0)%Z; cbn [negb].
        -- writer_simpl.
           destruct (subprocess_run _ argv) as [retry_result|e];
             [destruct (Writer.returncode retry_result =? 0)%Z|];
             writer_simpl; rewrite ?length_app; cbn [length]; lia.
        -- writer_simpl. rewrite ?length_app. cbn [length]. lia.
      * writer_simpl. rewrite ?length_app. cbn [length]. lia.
  - writer_simpl. rewrite ?length_app. cbn [length]. lia.
Qed.

Lemma process_file_budget (root file : string) (ws : walk_state) :
  within_budget (if is_sidecar file then 1 else 0) ws (snd (file_step root file ws)).
Proof.
  unfold process_file, is_sidecar, within_budget, started.
  destruct (PyStr.endswith (PyStr.lower file) ".json"); cbn [negb snd]; [|lia].
  destruct (Matcher.smart_file_matcher glob_glob file root) as [media recs].
  destruct (truthy_str media); cbn [negb]; [|cbn; lia].
  destruct (Extractor.enhanced_parse_time _ _ _) as [time_data recs1].
  destruct (Extractor.safe_geo_parse _ _ _) as [geo_data recs2].
  destruct (negb (truthy_str time_data) && negb _); [cbn; lia|].
  match goal with
  | |- context [Writer.robust_exiftool_exec ?run ?cmd ?path ?st] =>
      pose proof (writer_process_count cmd path st) as Hcount;
      destruct (Writer.robust_exiftool_exec run cmd path st) as [result st']
  end.
  cbn [snd Writer.invocations] in Hcount.
  destruct result as [[success error]|e]; [destruct success|]; cbn in *; lia.
Qed.

Lemma process_files_budget (root : string) (files : list string) :
  forall ws,
    within_budget (length (filter is_sidecar files)) ws
      (snd (files_loop root files ws)).
Proof.
  induction files as [|file rest IH]; intros ws; cbn [process_files filter].
  - unfold within_budget, started. cbn. lia.
  - pose proof (process_file_budget root file ws) as Hfile.
    destruct (file_step root file ws) as [[e|] ws1]; cbn [snd] in *.
    + unfold within_budget, started in *. destruct (is_sidecar file); cbn [length]; lia.
    + specialize (IH ws1). unfold within_budget, started in *.
      destruct (is_sidecar file); cbn [length]; lia.
Qed.

Lemma process_dirs_budget (walk : list (string * list string)) :
  forall ws,
    within_budget (count_sidecars walk) ws (snd (dirs_loop walk ws)).
Proof.
  induction walk as [|[root files] rest IH]; intros ws;
    cbn [process_dirs count_sidecars].
  - unfold within_budget, started. cbn. lia.
  - pose proof (process_files_budget root files ws) as Hfiles.
    destruct (files_loop root files ws) as [[e|] ws1]; cbn [snd] in *.
    + unfold within_budget, started in *. lia.
    + specialize (IH ws1). unfold within_budget, started in *. lia.
Qed.

End WalkerBudget.

(** X10.  Whatever the tree holds and whatever the tool answers,
    [process_directory] starts at most three processes for every sidecar
    of the walk, and it counts a file as updated only after a process of
    its own: the count of successes never exceeds the number of processes
    started.  This holds for the run that ends with an exception too. *)
Theorem walker_starts_at_most_three_processes_per_sidecar
  (os_walk : string -> list (string * list string))
  (glob_glob : string -> list string) (load_json : string -> outcome json)
  (strptime_timestamp : string -> outcome Z)
  (float_of_str : string -> outcome pyfloat) (float_str : pyfloat -> string)
  (subprocess_run : list (list string) -> list string -> outcome Writer.completed_process)
  (root_dir : string) (world : Writer.state) (fresh : Writer.ref) :
  let ws := snd (Walker.process_directory os_walk glob_glob load_json
                   strptime_timestamp float_of_str float_str subprocess_run
                   root_dir world fresh) in
  length (Writer.invocations world) + Walker.processed_count ws
  <= length (Writer.invocations (Walker.writer ws)) /\
  length (Writer.invocations (Walker.writer ws))
  <= length (Writer.invocations world) + 3 * count_sidecars (os_walk root_dir).
Proof.
  cbv zeta. unfold Walker.process_directory.
  pose proof (process_dirs_budget glob_glob load_json strptime_timestamp
                float_of_str float_str subprocess_run (os_walk root_dir)
                (Walker.WalkState world fresh [] 0)) as [Hmax Hmin].
  unfold started in Hmax, Hmin.
  destruct (Walker.process_dirs _ _ _ _ _ _ _ _) as [[e|] ws]; cbn in *; lia.
Qed.

(* ================================================================== *)
(** * Sidecars with a short name                                       *)
(* ================================================================== *)

Section ShortNames.
Import PyStr NameRe.

(** The pattern needs three dots after the core. *)
Lemma short_name_has_no_core (json_name : string) :
  dots json_name < 3 -> base_pattern json_name = None.
Proof.
  intros Hshort. destruct (base_pattern json_name) as [core|] eqn:Hcore;
    [|reflexivity].
  exfalso. apply base_pattern_sound in Hcore.
  destruct (standard_name_rest _ _ Hcore) as [rest [Hname [_ [Hdots _]]]].
  rewrite Hname, dots_append, Hdots in Hshort. lia.
Qed.

End ShortNames.

(** X11.  A sidecar whose name holds fewer than three dots (as [IMG_0001.jpg.json]
    does) is never paired with a media file, whatever the directory holds:
    the walker records it as a failure under the sidecar's own path with
    the reason that no media file was found, logs the matcher's warning
    and its own, starts no process and counts no success. *)
Theorem sidecar_with_short_name_is_reported
  (glob_glob : string -> list string) (load_json : string -> outcome json)
  (strptime_timestamp : string -> outcome Z)
  (float_of_str : string -> outcome pyfloat) (float_str : pyfloat -> string)
  (subprocess_run : list (list string) -> list string -> outcome Writer.completed_process)
  (root file : string) (ws : Walker.walk_state) :
  is_sidecar file = true -> dots file < 3 ->
  let out := Walker.process_file glob_glob load_json strptime_timestamp
               float_of_str float_str subprocess_run root file ws in
  fst out = None /\
  Walker.failure_list (snd out)
  = (Walker.failure_list ws
     ++ [(OsPath.join root file, "未找到对应媒体文件")])%list /\
  Walker.processed_count (snd out) = Walker.processed_count ws /\
  Writer.invocations (Walker.writer (snd out))
  = Writer.invocations (Walker.writer ws) /\
  Writer.log (Walker.writer (snd out))
  = (Writer.log (Walker.writer ws)
     ++ [ LogRecord RootLogger WARNING (NonStandardName file);
          LogRecord AppLogger WARNING
            (ErrorText ("未找到媒体文件: " ++ OsPath.join root file)) ])%list.
Proof.
  intros Hjson Hshort. cbv zeta.
  unfold Walker.process_file, Matcher.smart_file_matcher.
  unfold is_sidecar in Hjson. rewrite Hjson, (short_name_has_no_core _ Hshort).
  cbn [negb Walker.truthy_str fst snd Walker.append_failure Walker.logged
       Walker.failure_list Walker.processed_count Walker.writer
       Writer.invocations Writer.log Writer.lists Walker.next_ref].
  rewrite <- app_assoc. repeat split; reflexivity.
Qed.

Lemma sidecar_with_short_name_is_reported_witness :
  Walker.failure_list
    (snd (Walker.process_file sample_glob (fun _ => Ret sidecar_full)
            sample_strptime sample_float_of_str sample_float_str always_succeeds
            "/photos" "IMG_0001.jpg.json" (Walker.WalkState empty_world 0 [] 0)))
  = [("/photos/IMG_0001.jpg.json", "未找到对应媒体文件")].
Proof.
  refine (proj1 (proj2 (sidecar_with_short_name_is_reported sample_glob
            (fun _ => Ret sidecar_full) sample_strptime sample_float_of_str
            sample_float_str always_succeeds "/photos" "IMG_0001.jpg.json"
            (Walker.WalkState empty_world 0 [] 0) eq_refl _))).
  vm_compute. repeat constructor.
Defined.

(* ================================================================== *)
(** * The exit status of a run over the walker                         *)
(* ================================================================== *)

(** X12.  [main] over the walker, for a target that is a directory: the exit
    status is 0 exactly when the walk ended without an exception and the
    tool updated a media file for every sidecar of the tree; and with the
    status 101 the walk ended without an exception, at least one sidecar
    was left without an update, and the report was written. *)
Theorem main_succeeds_iff_every_sidecar_is_updated
  (abspath : string -> string) (isdir : string -> bool)
  (write_file : string -> string -> outcome unit)
  (os_walk : string -> list (string * list string))
  (glob_glob : string -> list string) (load_json : string -> outcome json)
  (strptime_timestamp : string -> outcome Z)
  (float_of_str : string -> outcome pyfloat) (float_str : pyfloat -> string)
  (subprocess_run : list (list string) -> list string -> outcome Writer.completed_process)
  (directory log_path : string) :
  isdir (abspath directory) = true ->
  let out := Walker.process_directory os_walk glob_glob load_json
               strptime_timestamp float_of_str float_str subprocess_run
               (abspath directory) empty_world 0 in
  let result :=
    Report.main abspath isdir
      (walk_from_start os_walk glob_glob load_json strptime_timestamp
         float_of_str float_str subprocess_run)
      write_file directory log_path in
  (Report.exit_status result = 0%Z <->
   (exists failures, fst out = Ret failures) /\
   Walker.processed_count (snd out) = count_sidecars (os_walk (abspath directory))) /\
  (Report.exit_status result = 101%Z ->
   (exists failures, fst out = Ret failures) /\
   Walker.processed_count (snd out) < count_sidecars (os_walk (abspath directory)) /\
   exists text, Report.written result = [(Report.failure_log_path log_path, text)]).
Proof.
  intros Hdir. cbv zeta. unfold Report.main, walk_from_start. rewrite Hdir.
  cbn [negb]. unfold Walker.process_directory.
  destruct (Walker.process_dirs _ _ _ _ _ _ _ _) as [[e|] ws] eqn:Hwalk;
    cbn [fst snd Report.exit_status].
  - split.
    + split; [discriminate|]. intros [[failures Hret] _]. discriminate Hret.
    + discriminate.
  - apply process_dirs_accounts in Hwalk. unfold accounted in Hwalk.
    cbn [Walker.processed_count Walker.failure_list length Walker.logged] in *.
    destruct (Walker.failure_list ws) as [|failure rest] eqn:Hfailures.
    + cbn [Report.exit_status length] in *. split.
      * split; [intros _|reflexivity]. split; [exists []; reflexivity | lia].
      * discriminate.
    + unfold Report.generate_failure_log.
      destruct (write_file _ _) as [[]|e]; cbn [bind Report.exit_status Report.written].
      * split.
        -- split; [discriminate|]. intros [_ Hall]. cbn [length] in Hwalk. lia.
        -- intros _. split; [eexists; reflexivity|].
           split; [cbn [length] in Hwalk; lia | eexists; reflexivity].
      * split.
        -- split; [discriminate|]. intros [_ Hall]. cbn [length] in Hwalk. lia.
        -- discriminate.
Qed.

Lemma main_succeeds_iff_every_sidecar_is_updated_witness :
  Report.exit_status
    (Report.main (fun p => p) (fun p => String.eqb p "/photos")
       (walk_from_start sample_pair_walk sample_pair_glob
          (fun _ => Ret sidecar_full) sample_strptime sample_float_of_str
          sample_float_str always_succeeds)
       sample_write_file "/photos" "PhotoRepair_20261103_120000.log") = 0%Z.
Proof.
  apply (proj1 (main_succeeds_iff_every_sidecar_is_updated
                  (fun p => p) (fun p => String.eqb p "/photos") sample_write_file
                  sample_pair_walk sample_pair_glob
                  (fun _ => Ret sidecar_full) sample_strptime sample_float_of_str
                  sample_float_str always_succeeds
                  "/photos" "PhotoRepair_20261103_120000.log" eq_refl)).
  split; [eexists; vm_compute; reflexivity | vm_compute; reflexivity].
Defined.
